(* ===== verification/_CoqProject ===== *)
-Q . S2P
Prelude.v
PyInt.v
Utf8.v
Base64.v
Sanitizer.v
Assembler.v
Fs.v
Discovery.v
Shlex.v
Resolver.v
Supervisor.v
Lifecycle.v
Executor.v
Guest.v
Api.v
App.v
Threads.v
Tests.v
