(* ===== verification/Prelude.v ===== *)
(** * A verification development for the code-interpreter service

    The repository is a small HTTP service that runs caller-supplied
    Python code inside a WebAssembly sandbox.  [src/app/main.py] builds
    the FastAPI application, [src/app/api/routes.py] validates an
    [/v1/execute] request against [src/app/core/config.py]'s settings and
    calls [execute_python] of [src/app/services/executor.py], the core of
    the program.  [execute_python] composes five parts, strictly forward:

    - the runtime resolver ([_locate_runtime], [_resolve_wasm_runtime]):
      finds the [wasmtime] binary and checks the [python.wasm] module;
    - the guest environment builder ([_discover_stdlib_paths]): the
      guest-visible standard-library paths under the module's [lib];
    - the command assembler (the body of [execute_python], lines 207-283,
      with [_has_mapping] and [_ensure_env_arg]): the [--dir] mapping,
      the [--env] injections, the isolation flag, the bootstrap script;
    - the process supervisor ([_limit_preexec] and the [Popen] /
      [communicate] / [killpg] block): resource limits, deadline, kill;
    - the output sanitizer ([_truncate]): truncation and UTF-8 decoding
      with [errors="replace"].

    ** Files of the development (in dependency order)

    - [Prelude.v] (this file): the [s2p_scope] notations, the exception
      monad ([let*] over [E + A]) the resolver threads its [raise]s
      with, the Python string helpers ([str.startswith], [str.endswith],
      [split], [join], slicing) on Rocq strings, the list and bit-level
      lemmas shared by the components, the [s2p] hint databases and the
      tactics of the development.
    - [PyInt.v]: CPython's [int()] on a [str] (whitespace, sign,
      single underscores, the 4300-digit limit) as a five-state
      automaton ([int_step]), and [str()] of an integer ([dec_digits],
      fuel [log2 |n| + 1], the bit length, at least the number of
      digits).  Theorems: the automaton accepts exactly the grammar of
      [int]'s documentation ([int_literal], a refinement proved with an
      invariant of the automaton's states over the input read so far),
      and [int()] reads back what [str()] prints.
    - [Utf8.v]: CPython's UTF-8 codec.  [utf8_encode] is
      [str.encode("utf-8")] (strict: a lone surrogate is an error);
      [utf8_step] is one iteration of CPython's decoding loop with the
      ["replace"] error handler and [utf8_decode] the loop itself, run
      with fuel [length bs]: every iteration consumes at least one byte,
      so that is enough, and more fuel changes nothing
      ([utf8_decode_fuel_enough]).  Theorems: decoding an encoded string
      gives it back, encoding fails exactly on lone surrogates, and the
      library lemmas the sanitizer uses (valid output, at most one code
      point per byte, decoding distributes over a cut before ASCII).
    - [Base64.v]: CPython's [binascii.b2a_base64] (the 32-bit
      [leftchar] accumulator with its wrap-around written out, six bits
      out per step by [drain_six] with the number of pending bits as
      fuel, more than the steps it takes) behind [base64.b64encode], and
      the non-strict [a2b_base64] (its [quad_pos], [pads] and early end
      on the second pad) behind the guest's [base64.b64decode].
      Theorems: the accumulator loop equals the group-wise reference
      encoding of RFC 4648 ([rfc4648]); decoding the encoding gives the
      bytes back; the encoding is [4 * ceil(n/3)] ASCII characters, so
      the host's [.decode("ascii")] cannot raise.
    - [Sanitizer.v]: [_truncate].  Theorems: a stream within the cap is
      decoded whole; a stream over the cap ends with the exact marker
      after the decoded first [max(0, cap - 32)] bytes; the number of
      code points is at most the cap once the cap is at least the
      marker's 15 bytes; and the deviations from the spec (the 32-byte
      reserve, the byte bound broken by the replacement character, the
      bound broken below 15 bytes).
    - [Assembler.v]: lines 207-283 of [execute_python]: [_has_mapping],
      [_ensure_env_arg] (the in-place [extend] returned as a new list),
      the isolation policy, [env_updates] in insertion order, the child's
      environment as a [gmap], the argv, and the guest side of the
      bootstrap script's [sys.path] insertion.  Theorems: on caller
      arguments without [--dir] and [--env] options the assembly is
      exactly those arguments, the mapping and one [--env K=V] per
      update in order ([injections]); it is idempotent, only appends,
      lets the caller's injections win (the payload's too), and the
      guest's [split(':')] undoes the host's [':'.join].  The default
      assembly preopens the module's host directory as [/python]
      ([--dir], line 225), although the docstring of [execute_python]
      (line 203) says no host filesystem is preopened.
    - [Fs.v]: the [FileSystem] class, the file-system queries the code
      makes ([is_dir], [is_file], [os.path.exists], [os.access],
      [iterdir], [read(4)]) as they are answered by any instance, and an
      executable instance over a list of paths for the witnesses.
    - [Discovery.v]: [_discover_stdlib_paths]: [sorted], the version
      pattern, the closure [_add] with its [seen] set as a record, the
      three loops as folds.  Theorems: no duplicates, the empty result
      exactly when no version directory exists, the head is the version
      directory, every path lies under [<prefix>/lib/]; on a listing
      that names each entry once without a '/', the result equals the
      plain layout [layout_paths] (version directory, its existing
      subdirectories, the sorted bundles): the [seen] set never drops a
      path, since a version name has no 'z' and a bundle's has one.
    - [Shlex.v]: [shlex.split] in POSIX mode, [read_token]'s state as a
      record and one [lex_step] per character, its two [ValueError]s;
      [shlex.quote] and [shlex.join].  Theorem: [shlex.split] reads
      back every argument list [shlex.join] writes.
    - [Resolver.v]: [os.path.abspath] / [normpath], [shutil.which],
      [_locate_runtime] and [_resolve_wasm_runtime], every [raise] a
      constructor of [resolve_error].  Theorems: what a success
      guarantees (an executable runtime, a regular module file with the
      magic, its absolute path), each error path in the code's order, a
      relative runtime path whenever [wasmtime] is found in a relative
      first [PATH] entry, and extra
      arguments written with [shlex.join] passed on exactly.
    - [Supervisor.v]: [_limit_preexec] as a transformer of the child's
      limits and process group, each [setrlimit]'s success an oracle
      variable of a section; the [try/except TimeoutExpired] block over
      a child given by when the processes holding its pipes exit
      (milliseconds after the spawn, [None] for never), and by the time
      the code's clock (started at line 230) shows at the spawn and
      spends removing the temporary directory; [communicate] with and
      without a timeout, [killpg], [kill], the duration of line 316
      ([elapsed]), the result record; a [Popen] that raises ends it
      before anything runs.  Theorems: with [setsid()] every
      request returns by its deadline after the spawn; it times out
      exactly when a pipe holder outlives the deadline and then reports
      the timeout plus the overhead before the spawn and after the
      drain; [exit_code = None] iff timed out; the hook's limits are
      independent best-effort calls; [Popen] runs before the input is
      encoded, so an unencodable [stdin] raises with the child spawned
      and not reaped; without the [resource] module every child with a
      descendant that never exits blocks the drain for ever.
    - [Lifecycle.v]: the design's life cycle of one execution
      ([Idle -> Spawning -> Running -> {Completed, TimedOut} -> Reaped],
      section 4.4 of the specification) as a step relation [lc_step].
      Theorems: every result of [supervise] behind [setsid()] is reaped
      by a run of that machine (refinement), and, by induction on the
      runs, every result has an exit code exactly when it did not time
      out and a duration between the run's overhead and the timeout
      plus that overhead.
    - [Executor.v]: [execute_python] end to end, a section whose
      variables are the [setrlimit] oracle, the platform, the presence
      of [resource] and the spawned child ([run : invocation -> child]).
      Theorems: the guest's bootstrap decodes exactly the submitted code
      (UTF-8 then base64 and back, read from the first [--env
      PY_CODE_B64=]) unless the operator's runtime arguments inject that
      key; a resolution failure spawns nothing; on POSIX with
      [resource] every spawned execution returns by its deadline.
    - [Guest.v]: the bootstrap script as the guest runs it: its
      [os.environ] is the runtime's [--env] injections, it sets
      [sys.prefix], extends [sys.path], decodes the payload (each
      exception a constructor of [guest_error]) and hands the program to
      [exec].  Theorem: for runtime arguments the operator left free of
      the script's names, the guest runs exactly the submitted program
      with the prefix [/python] and the discovered paths in front of
      [sys.path].  The general lemma behind it ([ensure_env_args_value],
      in [Executor.v]) says which value the guest reads for any name.
    - [Api.v]: [_int_from_env]; [Settings.from_env]; the
      [lru_cache(maxsize=1)] of [get_settings] as a cache threaded
      through the requests; the schema's validation; [routes.execute]
      (422 above the maximum, 200 with the result, an unhandled error as
      500, [NoResponse] when the drain blocks); [healthz]; [run]'s HOST
      and PORT.  Theorems: [_int_from_env] and [run]'s PORT read what
      [int]'s grammar accepts and fall back (or fail at start-up) on
      anything else; a 200 answers a valid request within the
      policy and by its timeout; a request whose runtime closes its
      pipes in time is answered with its sanitized streams and status;
      a runtime that cannot be started gives a 500, never a result or a
      timeout; every text of a 200 can be encoded as UTF-8 (no lone
      surrogate survives the sanitizer), so rendering the JSON body
      cannot fail; the settings are read once.
    - [App.v]: [create_app]'s route table (FastAPI's documentation
      routes, [/healthz], the router under [/v1]), the dispatch of a
      request as Starlette's router does it (first match, 405, 404),
      one request to the application ([handle]) and the process serving
      a sequence of requests, each with the environment of its arrival,
      threading [get_settings]' cache ([serve]).  Theorems: only [POST
      /v1/execute] reaches the executor; the cache is filled by the
      first valid execute request and never changes; the application
      refines a server with fixed settings, those of the environment at
      the first valid execute request (a simulation argument,
      [serve_fixed_sim]).
    - [Threads.v]: requests handled at once by FastAPI's worker
      threads: each thread's [get_settings()] as the atomic steps of
      [lru_cache(maxsize=1)] (lookup, [from_env()] on a miss without a
      lock, store unless another thread stored first), interleaved by an
      explicit schedule that may also change the environment.
      Theorems: once filled the cache never changes; with an unchanged
      environment, under every interleaving a request that got its
      settings got those of the environment, and the cache holds them
      from then on, whatever later steps and changes of the environment
      follow; two first requests straddling a change of the environment
      run with different settings.
    - [Tests.v]: [src/tests]: the gate ([_runtime_available],
      [_require_wasm_environment]) over the same file system as the
      resolver, and both tests as a request to [create_app()] behind
      the gate with their assertions ([client_test]); the data-stack
      test's [str.strip()], subscripts, comparisons and
      [pytest.approx] are written out, [json.loads] is a variable.
      Theorems: the gate is sound for the executor's runtime lookup but
      not complete (a [PYTHON_WASM_RUNTIME] that is not an executable
      file, or a runtime only in [/usr/local/bin], make the tests skip
      for every environment where the service finds [wasmtime]); the
      hello-world test passes once the runtime prints
      [hello\n] and exits 0 within the timeout, and the data-stack test
      once the guest prints one JSON object [json.loads] reads as the
      expected result, through every layer of the model.

    ** Not modelled, and the plan

    - FastAPI, pydantic's JSON decoding and uvicorn themselves (the
      route receives the decoded [raw_request]; [App.v] serves requests
      one after the other and [Threads.v] interleaves only their
      [get_settings()] calls), how [Popen] forks and execs
      (only whether it raises, and the time it takes as part of the
      child's [started_at]), the float arithmetic of [time.perf_counter] (times
      are whole milliseconds), the guest Python interpreter and the WASI
      sandbox.
    - What numpy, pandas and matplotlib compute inside the guest for
      [test_numpy_pandas_matplotlib_stack], and [json.loads] itself:
      the guest interpreter and the standard library decide them, so
      the test's theorem takes them as hypotheses.
    - Next: the spawn's failure modes ([FileNotFoundError] of a
      runtime that disappears between the lookup and [Popen]) as the
      exception [Popen] raises; the executor's own work in concurrent
      requests (each has its temporary directory and its child, and
      they share nothing but the settings cache of [Threads.v]).

    ** Modelling conventions

    Bytes are [Z] values in [0, 255] (the predicate [is_byte]); a Python
    [str] is a list of code points ([Z] in [0, 0x10FFFF]).  Strings that
    the code only compares, concatenates and slices (paths, argv entries,
    environment keys) are Rocq [string]s: their UTF-8 encoding keeps
    prefixes, suffixes and equality, so the tests of the code read the
    same on either form.  Nothing is assumed: every definition computes,
    and every theorem is closed under the libraries' own axioms. *)

From Stdlib Require Import ZArith Lia String Ascii Bool List.
Import ListNotations.

Declare Scope s2p_scope.
Delimit Scope s2p_scope with s2p.
Open Scope Z_scope.

(** ** Bytes *)

Definition is_byte (b : Z) : Prop := 0 <= b < 256.

Definition is_byteb (b : Z) : bool := (0 <=? b) && (b <? 256).

(** The bytes of an ASCII string literal, as Python's [b"..."]. *)
Fixpoint bytes_of_string (s : string) : list Z :=
  match s with
  | EmptyString => []
  | String c s' => Z.of_nat (nat_of_ascii c) :: bytes_of_string s'
  end.

Notation "⟪ s ⟫" := (bytes_of_string s%string) (at level 0, s at level 200) : s2p_scope.

(** [bytes.decode("ascii")] of ASCII bytes, and the inverse of
    [bytes_of_string] on bytes. *)
Fixpoint string_of_bytes (bs : list Z) : string :=
  match bs with
  | [] => EmptyString
  | b :: bs' => String (ascii_of_nat (Z.to_nat b)) (string_of_bytes bs')
  end.

Open Scope s2p_scope.

(** ** Exceptions *)

(** Code that raises: [inl] is the exception, [inr] the value. *)
Definition bind_exc {E A B} (r : E + A) (k : A -> E + B) : E + B :=
  match r with inl e => inl e | inr a => k a end.

Notation "'let*' x ':=' c1 'in' c2" := (bind_exc c1 (fun x => c2))
  (at level 10, x pattern, c1 at level 100, c2 at level 200) : s2p_scope.

(** [if not cond: raise e] *)
Definition raise_unless {E} (cond : bool) (e : E) : E + unit :=
  if cond then inr tt else inl e.

(** ** Python string operations on [string] *)

(** [s.startswith(p)] *)
Definition str_startswith (s p : string) : bool := String.prefix p s.

(** [s.endswith(p)]: some suffix of [s] is [p]. *)
Fixpoint str_endswith (s p : string) : bool :=
  String.eqb s p ||
  match s with
  | EmptyString => false
  | String _ s' => str_endswith s' p
  end.

(** [s.lstrip(c)] for a single character [c] *)
Fixpoint str_lstrip (c : ascii) (s : string) : string :=
  match s with
  | EmptyString => EmptyString
  | String a s' => if Ascii.eqb a c then str_lstrip c s' else s
  end.

(** [c in s] for a single character [c] *)
Fixpoint str_has_char (c : ascii) (s : string) : bool :=
  match s with
  | EmptyString => false
  | String a s' => Ascii.eqb a c || str_has_char c s'
  end.

(** [s.split(c)] for a single-character separator: [""] gives [[""]]. *)
Fixpoint str_split (c : ascii) (s : string) : list string :=
  match s with
  | EmptyString => [EmptyString]
  | String a s' =>
      let parts := str_split c s' in
      if Ascii.eqb a c then EmptyString :: parts
      else match parts with
           | p :: ps => String a p :: ps
           | [] => [String a EmptyString]
           end
  end.

(** [s[n:]] *)
Fixpoint str_drop (n : nat) (s : string) : string :=
  match n, s with
  | O, _ => s
  | S n', EmptyString => EmptyString
  | S n', String _ s' => str_drop n' s'
  end.

(** [sep.join(xs)] *)
Fixpoint str_join (sep : string) (xs : list string) : string :=
  match xs with
  | [] => EmptyString
  | [x] => x
  | x :: xs' => (x ++ sep ++ str_join sep xs')%string
  end.

(** ** Lemmas on bytes and exceptions *)

Lemma is_byteb_spec b : is_byteb b = true <-> is_byte b.
Proof. unfold is_byteb, is_byte. rewrite andb_true_iff, Z.leb_le, Z.ltb_lt. tauto. Qed.

Lemma bytes_of_string_of_bytes (bs : list Z) :
  Forall (fun b => 0 <= b < 256) bs -> bytes_of_string (string_of_bytes bs) = bs.
Proof.
  induction bs as [|b bs IH]; intros H; [reflexivity|]. inversion H; subst. simpl.
  rewrite nat_ascii_embedding by lia. f_equal; [lia | auto].
Qed.

Lemma bind_exc_inr {E A B} (r : E + A) (k : A -> E + B) (b : B) :
  bind_exc r k = inr b -> exists a, r = inr a /\ k a = inr b.
Proof. destruct r as [e|a]; simpl; [discriminate | eauto]. Qed.

Lemma raise_unless_inr {E} (cond : bool) (e : E) (u : unit) :
  raise_unless cond e = inr u -> cond = true.
Proof. destruct cond; [reflexivity | discriminate]. Qed.

(** ** Lemmas on strings *)

Lemma str_app_assoc (a b c : string) : ((a ++ b) ++ c = a ++ b ++ c)%string.
Proof. induction a as [|x a IH]; simpl; [reflexivity | now rewrite IH]. Qed.

Lemma str_startswith_app p s : str_startswith (p ++ s) p = true.
Proof.
  unfold str_startswith. induction p as [|c p IH]; simpl.
  - destruct s; reflexivity.
  - destruct (ascii_dec c c); [exact IH | congruence].
Qed.

Lemma str_startswith_app_r (s t p : string) :
  str_startswith s p = true -> str_startswith (s ++ t) p = true.
Proof.
  unfold str_startswith. revert s. induction p as [|c p IH]; intros s H; [now destruct (s ++ t)%string|].
  destruct s as [|c' s]; simpl in *; [discriminate|].
  destruct (ascii_dec c c'); [now apply IH | discriminate].
Qed.

Lemma str_startswith_char (c0 : ascii) (s : string) :
  str_startswith s (String c0 EmptyString) = true -> exists r, s = String c0 r.
Proof.
  destruct s as [|c r]; unfold str_startswith; simpl; [discriminate|].
  destruct (ascii_dec c0 c) as [<-|]; [eauto | discriminate].
Qed.

Lemma str_endswith_app s p : str_endswith (s ++ p) p = true.
Proof.
  induction s as [|c s IH]; simpl.
  - destruct p as [|a p]; simpl; [reflexivity|]. now rewrite Ascii.eqb_refl, String.eqb_refl.
  - rewrite IH, orb_true_r. reflexivity.
Qed.

Lemma str_drop_app (p s : string) : str_drop (String.length p) (p ++ s) = s.
Proof. induction p; simpl; auto. Qed.

Lemma str_has_char_app (c : ascii) (a b : string) :
  str_has_char c (a ++ b) = str_has_char c a || str_has_char c b.
Proof. induction a as [|x a IH]; simpl; [reflexivity | now rewrite IH, orb_assoc]. Qed.

Lemma str_startswith_drop (s p : string) :
  str_startswith s p = true -> s = (p ++ str_drop (String.length p) s)%string.
Proof.
  unfold str_startswith. revert s. induction p as [|c p IH]; intros [|c' s] H; try reflexivity; [discriminate|].
  simpl in H |- *. destruct (ascii_dec c c') as [<-|]; [f_equal; now apply IH | discriminate].
Qed.

Lemma str_endswith_has_char (c : ascii) (s p : string) :
  str_endswith s p = true -> str_has_char c p = true -> str_has_char c s = true.
Proof.
  induction s as [|a s IH]; intros H Hp; cbn [str_endswith] in H.
  - destruct p; [discriminate | discriminate H].
  - cbn [str_has_char]. destruct (String.eqb_spec (String a s) p) as [<-|]; [exact Hp|].
    rewrite orb_false_l in H. now rewrite (IH H Hp), orb_true_r.
Qed.

(** A character other than the separator is in [s] when it is in a part. *)
Lemma str_split_has_char (c sep : ascii) (s : string) :
  c <> sep -> str_has_char c s = existsb (str_has_char c) (str_split sep s).
Proof.
  intros Hne. induction s as [|a s IH]; [reflexivity|]. simpl. rewrite IH.
  destruct (Ascii.eqb_spec a sep) as [->|].
  - simpl. destruct (Ascii.eqb_spec sep c); [congruence | reflexivity].
  - destruct (str_split sep s) as [|q qs]; simpl; [now destruct (Ascii.eqb a c) | now rewrite orb_assoc].
Qed.

Lemma str_split_no_sep (c : ascii) (x : string) :
  str_has_char c x = false -> str_split c x = [x].
Proof.
  induction x as [|a x IH]; simpl; [reflexivity|].
  intros H. apply orb_false_iff in H as [Ha Hx]. now rewrite Ha, IH.
Qed.

Lemma str_split_app_sep (c : ascii) (x r : string) :
  str_has_char c x = false -> str_split c (x ++ String c r) = x :: str_split c r.
Proof.
  induction x as [|a x IH]; simpl; intros H.
  - now rewrite Ascii.eqb_refl.
  - apply orb_false_iff in H as [Ha Hx]. now rewrite Ha, IH.
Qed.

(** [sep.join] then [split(sep)] gives the parts back when no part holds
    the separator. *)
Lemma str_split_join (c : ascii) (xs : list string) :
  xs <> [] -> Forall (fun x => str_has_char c x = false) xs ->
  str_split c (str_join (String c EmptyString) xs) = xs.
Proof.
  induction xs as [|x [|y xs] IH]; intros Hne Hx; [congruence| |].
  - inversion Hx; subst. simpl. now apply str_split_no_sep.
  - inversion Hx; subst. change (str_join (String c EmptyString) (x :: y :: xs))
      with (x ++ String c (str_join (String c EmptyString) (y :: xs)))%string.
    rewrite str_split_app_sep by assumption. f_equal. apply IH; [discriminate | assumption].
Qed.

(** ** Lists *)

Lemma firstn_length_le_n {A} (n : nat) (l : list A) : (length (firstn n l) <= n)%nat.
Proof. rewrite length_firstn. lia. Qed.

Lemma Forall_firstn {A} (P : A -> Prop) n (l : list A) : Forall P l -> Forall P (firstn n l).
Proof.
  revert l; induction n as [|n IH]; intros [|x l] H; simpl; auto.
  inversion H; subst; constructor; auto.
Qed.

(** Induction on the length of a list: the scheme of every loop that
    consumes a variable number of elements per iteration. *)
Lemma list_length_ind {A} (P : list A -> Prop) :
  (forall l, (forall l', (length l' < length l)%nat -> P l') -> P l) -> forall l, P l.
Proof.
  intros H l. remember (length l) as n eqn:E. revert l E.
  induction n as [n IH] using lt_wf_ind. intros l ->. apply H.
  intros l' Hlt. now apply (IH (length l')).
Qed.

(** An invariant of every step of a [for] loop holds after the loop. *)
Lemma fold_left_invariant {A B} (P : B -> Prop) (f : B -> A -> B) (xs : list A) (b : B) :
  (forall b a, In a xs -> P b -> P (f b a)) -> P b -> P (fold_left f xs b).
Proof.
  revert b. induction xs as [|a xs IH]; intros b Hstep Hb; simpl; [exact Hb|].
  apply IH; [intros b' a' Hin; apply Hstep; now right | apply Hstep; [now left | exact Hb]].
Qed.

Lemma filter_all {A} (f : A -> bool) (l : list A) :
  (forall x, In x l -> f x = true) -> filter f l = l.
Proof.
  induction l as [|x l IH]; intros H; simpl; [reflexivity|].
  rewrite H by now left. f_equal. apply IH. intros y Hy. apply H. now right.
Qed.

(** ** Bits *)

(** Or-ing a tag above the low [k] bits is an addition: the form of
    every UTF-8 byte the encoder builds with [|]. *)
Lemma lor_shifted_add (a b k : Z) :
  0 <= k -> 0 <= b < 2 ^ k -> Z.lor (a * 2 ^ k) b = a * 2 ^ k + b.
Proof.
  intros Hk Hb.
  rewrite <- Z.lxor_lor, <- Z.add_nocarry_lxor; [reflexivity| |];
    apply Z.bits_inj'; intros n Hn; rewrite Z.land_spec, Z.bits_0;
    (destruct (Z.lt_ge_cases n k) as [Hlt|Hge];
     [rewrite Z.mul_pow2_bits_low by exact Hlt; reflexivity
     |rewrite <- (Z.mod_small b (2 ^ k)) by exact Hb;
      rewrite Z.mod_pow2_bits_high by lia; apply andb_false_r]).
Qed.

(** The same with the tag given as a literal, as the C code writes it
    ([0xc0 | (ch >> 6)]). *)
Lemma lor_tag (t b k : Z) :
  0 <= k -> 0 <= t -> t mod 2 ^ k = 0 -> 0 <= b < 2 ^ k -> Z.lor t b = t + b.
Proof.
  intros Hk Ht Hm Hb.
  rewrite (Z.div_mod t (2 ^ k)) by lia. rewrite Hm, Z.add_0_r, Z.mul_comm.
  now apply lor_shifted_add.
Qed.

(** [ch & 0x3f]: the low six bits. *)
Lemma land_0x3f (c : Z) : Z.land c 0x3F = c mod 64.
Proof. change 0x3F with (Z.ones 6). now rewrite Z.land_ones by lia. Qed.

Lemma Z_mod_mul_r (a b c : Z) : 0 < b -> 0 < c -> a mod (b * c) = a mod b + b * ((a / b) mod c).
Proof. intros Hb Hc. rewrite !Z.mod_eq, <- Z.div_div by lia. ring. Qed.

(** A 32-bit [unsigned int] accumulator shifted left by a byte and or-ed
    with it keeps, modulo [2^(k+8)], the low [k] bits it had, then the
    byte. *)
Lemma shift_in_byte (acc b k : Z) :
  0 <= k -> k + 8 <= 32 -> 0 <= b < 256 ->
  Z.land (Z.lor (Z.shiftl acc 8) b) (2 ^ 32 - 1) mod 2 ^ (k + 8) = (acc mod 2 ^ k) * 256 + b.
Proof.
  intros Hk Hk32 Hb.
  rewrite Z.shiftl_mul_pow2, lor_shifted_add by lia.
  change (2 ^ 32 - 1) with (Z.ones 32). rewrite Z.land_ones by lia.
  rewrite Z.mod_mod_divide.
  2: { exists (2 ^ (32 - (k + 8))). rewrite <- Z.pow_add_r by lia. f_equal. lia. }
  change (2 ^ 8) with 256.
  replace (2 ^ (k + 8)) with (256 * 2 ^ k) by (rewrite Z.pow_add_r by lia; ring).
  rewrite Z_mod_mul_r by (try apply Z.pow_pos_nonneg; lia).
  replace ((acc * 256 + b) mod 256) with b by (rewrite Z.add_comm, Z.mod_add, Z.mod_small; lia).
  replace ((acc * 256 + b) / 256) with acc by (rewrite Z.add_comm, Z.div_add, Z.div_small; lia).
  lia.
Qed.

(** Taking the six bits above the low [k - 6] of an accumulator whose
    low [k] bits are [p]. *)
Lemma take_six (acc p k : Z) :
  6 <= k -> acc mod 2 ^ k = p ->
  Z.land (Z.shiftr acc (k - 6)) 0x3F = p / 2 ^ (k - 6) /\ acc mod 2 ^ (k - 6) = p mod 2 ^ (k - 6).
Proof.
  intros Hk <-. rewrite land_0x3f, Z.shiftr_div_pow2 by lia.
  replace (2 ^ k) with (2 ^ (k - 6) * 64) by (change 64 with (2 ^ 6); rewrite <- Z.pow_add_r by lia; f_equal; lia).
  split.
  - rewrite Z_mod_mul_r by lia. rewrite (Z.mul_comm (2 ^ (k - 6))), Z.div_add by lia.
    rewrite (Z.div_small (acc mod 2 ^ (k - 6))); [reflexivity|].
    apply Z.mod_pos_bound, Z.pow_pos_nonneg; lia.
  - rewrite Z_mod_mul_r by lia. rewrite Z.mul_comm, Z.mod_add by lia. now rewrite Z.mod_mod by lia.
Qed.

Create HintDb s2p.
Create Rewrite HintDb s2p_rw.
#[export] Hint Rewrite length_app length_firstn length_skipn length_map : s2p_rw.
#[export] Hint Rewrite str_startswith_app str_endswith_app str_drop_app land_0x3f : s2p_rw.
#[export] Hint Resolve firstn_length_le_n Forall_firstn : s2p.

(** Case analysis on every boolean comparison of [Z] in the goal,
    keeping the fact each branch knows. *)
Ltac case_zcmp :=
  repeat match goal with
  | |- context [Z.ltb ?a ?b] => destruct (Z.ltb_spec a b)
  | |- context [Z.leb ?a ?b] => destruct (Z.leb_spec a b)
  | |- context [Z.eqb ?a ?b] => destruct (Z.eqb_spec a b)
  end.

Ltac invc H := inversion H; subst; clear H.

(** [Some x = Some y] without the reduction [injection] performs on [x]. *)
Ltac some_eq H :=
  match type of H with
  | Some ?x = Some ?y => let E := fresh in assert (E : y = x) by congruence; clear H; subst y
  end.

(** Case analysis on every [if] of the goal and of the hypotheses,
    outermost first, reducing the branch taken each time. *)
Ltac case_ifs :=
  repeat (match goal with
  | |- context [if ?b then _ else _] =>
      lazymatch b with true => fail | false => fail | _ => destruct b eqn:? end
  | H : context [if ?b then _ else _] |- _ =>
      lazymatch b with true => fail | false => fail | _ => destruct b eqn:? end
  end; cbv beta iota in *).

(** Boolean tests of the code as the facts [lia] reads. *)
Ltac zbool :=
  repeat (progress rewrite ?andb_true_iff, ?andb_false_iff, ?orb_true_iff, ?orb_false_iff,
            ?negb_true_iff, ?negb_false_iff, ?Z.ltb_lt, ?Z.ltb_ge, ?Z.leb_le,
            ?Z.leb_gt, ?Z.eqb_eq, ?Z.eqb_neq in *).

(** Shifts by literal amounts become products and quotients by
    literal powers of two, which [lia] reads. *)
Ltac zbits_norm :=
  repeat (rewrite Z.shiftl_mul_pow2 by lia);
  repeat (rewrite Z.shiftr_div_pow2 by lia);
  repeat match goal with
  | |- context [2 ^ Zpos ?p] =>
      let v := eval vm_compute in (2 ^ Zpos p) in change (2 ^ Zpos p) with v
  end.

(** Take apart a successful [let*] chain in hypothesis [H]: one
    hypothesis per step, the last step left in [H]. *)
Ltac exc_inv H :=
  repeat (let a := fresh "a" in let Ha := fresh "Ha" in
          apply bind_exc_inr in H as [a [Ha H]]).

(** [lia] with [Z.div] and [Z.modulo] by constants, which it does not
    read on its own. *)
Ltac zlia := Z.div_mod_to_equations; lia.

(** Side conditions of the bit lemmas: ground facts by computation,
    the rest by [zlia]. *)
Ltac zside := zbits_norm; first [reflexivity | zlia].

Close Scope Z_scope.
