(* ===== verification/PyInt.v ===== *)
(** Python's [int()] on a string and [str()] of an integer, as the
    configuration ([_int_from_env] of [src/app/core/config.py], [run]'s
    PORT in [src/app/main.py]) and the 422 detail of
    [src/app/api/routes.py] use them.  [int(s)] is CPython's
    [PyLong_FromString] in base 10 on ASCII: a character-by-character
    automaton ([int_step]) over five states, with the 4300-digit limit
    of [sys.get_int_max_str_digits()]; [str(n)] prints [dec_digits]
    with fuel.  The automaton refines the grammar of the documentation
    ([int_literal]: whitespace, an optional sign, [digit (["_"]
    digit)*], whitespace), and [int()] reads back what [str()] prints. *)

From Stdlib Require Import ZArith String Ascii Bool List Lia.
From S2P Require Import Prelude.
Import ListNotations.
Open Scope Z_scope.

Module PyInt.

(** ** int(s): CPython's [PyLong_FromString] in base 10 *)

(** [str.isspace] on ASCII: [\t \n \v \f \r], [\x1c]-[\x1f] and the
    space. *)
Definition is_space (c : ascii) : bool :=
  let n := nat_of_ascii c in (((9 <=? n) && (n <=? 13)) || ((28 <=? n) && (n <=? 32)))%nat.

Definition digit_of (c : ascii) : option Z :=
  let n := nat_of_ascii c in
  if ((48 <=? n) && (n <=? 57))%nat then Some (Z.of_nat n - 48)%Z else None.

(** Where the parser is: before the number, after its sign, after a
    digit, after an underscore, after the number. *)
Inductive pstate := PLead | PSign | PDigit | PUnder | PTrail.

Record int_parser := { ps : pstate; negative : bool; acc : Z; ndigits : Z }.

Definition int_parser0 : int_parser := {| ps := PLead; negative := false; acc := 0; ndigits := 0 |}.

Definition push_digit (p : int_parser) (d : Z) : int_parser :=
  {| ps := PDigit; negative := negative p; acc := (acc p * 10 + d)%Z; ndigits := (ndigits p + 1)%Z |}.

Definition with_state (p : int_parser) (s : pstate) (neg : bool) : int_parser :=
  {| ps := s; negative := neg; acc := acc p; ndigits := ndigits p |}.

(** One character; [None] is the [ValueError]. *)
Definition int_step (p : int_parser) (c : ascii) : option int_parser :=
  match ps p with
  | PLead =>
      if is_space c then Some p
      else if Ascii.eqb c "+"%char then Some (with_state p PSign false)
      else if Ascii.eqb c "-"%char then Some (with_state p PSign true)
      else option_map (push_digit p) (digit_of c)
  | PSign | PUnder => option_map (push_digit p) (digit_of c)
  | PDigit =>
      match digit_of c with
      | Some d => Some (push_digit p d)
      | None =>
          if Ascii.eqb c "_"%char then Some (with_state p PUnder (negative p))
          else if is_space c then Some (with_state p PTrail (negative p))
          else None
      end
  | PTrail => if is_space c then Some p else None
  end.

Fixpoint int_steps (p : int_parser) (cs : list ascii) : option int_parser :=
  match cs with
  | [] => Some p
  | c :: cs' => match int_step p c with Some p' => int_steps p' cs' | None => None end
  end.

(** [sys.get_int_max_str_digits()]: the default limit on the digits of
    a string converted to [int] (CPython 3.11 and later). *)
Definition INT_MAX_STR_DIGITS : Z := 4300.

(** [int(s)] *)
Definition int_of_string (s : string) : option Z :=
  match int_steps int_parser0 (list_ascii_of_string s) with
  | Some p =>
      match ps p with
      | PDigit | PTrail =>
          if (ndigits p <=? INT_MAX_STR_DIGITS)%Z
          then Some (if negative p then - acc p else acc p)%Z else None
      | _ => None
      end
  | None => None
  end.

(** [str(n)]: the decimal digits, most significant first, with fuel:
    a number has fewer decimal digits than bits. *)
Fixpoint dec_digits (fuel : nat) (n : Z) : list Z :=
  match fuel with
  | O => []
  | S f => if (n <? 10)%Z then [n] else dec_digits f (n / 10) ++ [n mod 10]
  end.

Definition ascii_of_digit (d : Z) : ascii := ascii_of_nat (Z.to_nat (48 + d)).

Definition show_int (n : Z) : string :=
  let ds := dec_digits (S (Z.to_nat (Z.log2 (Z.abs n)))) (Z.abs n) in
  ((if (n <? 0)%Z then "-" else "") ++ string_of_list_ascii (map ascii_of_digit ds))%string.

(** The value of a list of decimal digits, read left to right. *)
Definition digits_value (ds : list Z) (a : Z) : Z := fold_left (fun a d => a * 10 + d)%Z ds a.

(** ** The grammar of [int()]'s argument *)

(** [digit (["_"] digit)*], read left to right, with the digits'
    values: single underscores between digits. *)
Inductive udigits : list ascii -> list Z -> Prop :=
  | ud_one c d : digit_of c = Some d -> udigits [c] [d]
  | ud_digit w ds c d : udigits w ds -> digit_of c = Some d -> udigits (w ++ [c]) (ds ++ [d])
  | ud_under w ds c d : udigits w ds -> digit_of c = Some d -> udigits (w ++ ["_"%char; c]) (ds ++ [d]).

Definition sign_chars (sgn : option bool) : list ascii :=
  match sgn with None => [] | Some false => ["+"%char] | Some true => ["-"%char] end.

Definition apply_sign (sgn : option bool) (v : Z) : Z :=
  match sgn with Some true => - v | _ => v end.

Definition spaces (cs : list ascii) : Prop := Forall (fun c => is_space c = true) cs.

(** What the documentation of [int] accepts: whitespace, an optional
    sign, the digits with single underscores, whitespace, within the
    digit limit. *)
Inductive int_literal : list ascii -> Z -> Prop :=
  | int_lit lead sgn w ds trail :
      spaces lead -> udigits w ds -> spaces trail -> Z.of_nat (length ds) <= INT_MAX_STR_DIGITS ->
      int_literal (lead ++ sign_chars sgn ++ w ++ trail) (apply_sign sgn (digits_value ds 0)).

Definition sgn_neg (sgn : option bool) : bool := match sgn with Some b => b | None => false end.

(** The parser's state after [lead ++ sign_chars sgn ++ w]. *)
Definition parsed_number (p : int_parser) (lead : list ascii) (sgn : option bool) (w : list ascii)
    (ds : list Z) : Prop :=
  spaces lead /\ udigits w ds /\ negative p = sgn_neg sgn /\ acc p = digits_value ds 0 /\
  ndigits p = Z.of_nat (length ds).

(** What the automaton's state says of the input read so far. *)
Definition int_inv (input : list ascii) (p : int_parser) : Prop :=
  match ps p with
  | PLead => spaces input /\ negative p = false /\ acc p = 0 /\ ndigits p = 0
  | PSign => exists lead b, spaces lead /\ input = lead ++ sign_chars (Some b) /\
                            negative p = b /\ acc p = 0 /\ ndigits p = 0
  | PDigit => exists lead sgn w ds, parsed_number p lead sgn w ds /\ input = lead ++ sign_chars sgn ++ w
  | PUnder => exists lead sgn w ds, parsed_number p lead sgn w ds /\
                                     input = lead ++ sign_chars sgn ++ w ++ ["_"%char]
  | PTrail => exists lead sgn w ds trail, parsed_number p lead sgn w ds /\ trail <> [] /\ spaces trail /\
                                           input = lead ++ sign_chars sgn ++ w ++ trail
  end.

(** ** Lemmas *)

Lemma dec_digits_S (f : nat) (n : Z) :
  dec_digits (S f) n = if (n <? 10)%Z then [n] else (dec_digits f (n / 10) ++ [n mod 10])%list.
Proof. reflexivity. Qed.

Lemma ascii_of_digit_spec (d : Z) :
  (0 <= d <= 9)%Z ->
  digit_of (ascii_of_digit d) = Some d /\ is_space (ascii_of_digit d) = false /\
  Ascii.eqb (ascii_of_digit d) "_"%char = false /\ Ascii.eqb (ascii_of_digit d) "+"%char = false /\
  Ascii.eqb (ascii_of_digit d) "-"%char = false.
Proof.
  intros Hd. assert (Hc : (d = 0 \/ d = 1 \/ d = 2 \/ d = 3 \/ d = 4 \/ d = 5 \/ d = 6 \/ d = 7 \/ d = 8 \/ d = 9)%Z) by lia.
  repeat (destruct Hc as [-> | Hc]; [repeat split|]); subst; repeat split.
Qed.

Lemma dec_digits_spec (k : nat) (n : Z) :
  (0 <= n < 2 ^ Z.of_nat (S k))%Z ->
  dec_digits (S k) n <> [] /\ Forall (fun d => 0 <= d <= 9)%Z (dec_digits (S k) n) /\
  digits_value (dec_digits (S k) n) 0 = n.
Proof.
  revert n. induction k as [|k IH]; intros n Hn; rewrite dec_digits_S.
  - destruct (Z.ltb_spec n 10); [|simpl in Hn; lia]. repeat split; [discriminate | repeat constructor; lia].
  - destruct (Z.ltb_spec n 10) as [Hlt|Hge]; [repeat split; [discriminate | repeat constructor; lia]|].
    assert (Hk : (0 <= n / 10 < 2 ^ Z.of_nat (S k))%Z).
    { rewrite Nat2Z.inj_succ, Z.pow_succ_r in Hn |- * by lia. rewrite Nat2Z.inj_succ, Z.pow_succ_r in Hn by lia.
      split; [apply Z.div_pos; lia|]. apply Z.div_lt_upper_bound; lia. }
    destruct (IH (n / 10) Hk) as (Hne & Hall & Hv). repeat split.
    + intros Habs. apply app_eq_nil in Habs as [_ Habs]. discriminate.
    + apply Forall_app. split; [exact Hall|]. constructor; [|constructor]. pose proof (Z.mod_pos_bound n 10). lia.
    + unfold digits_value in *. rewrite fold_left_app, Hv. simpl. pose proof (Z.div_mod n 10). lia.
Qed.

Lemma dec_digits_length (k : nat) (n m : Z) :
  (0 <= n < 10 ^ m)%Z -> (1 <= m)%Z -> (Z.of_nat (length (dec_digits k n)) <= m)%Z.
Proof.
  revert n m. induction k as [|k IH]; intros n m Hn Hm; [simpl; lia|]. rewrite dec_digits_S.
  destruct (Z.ltb_spec n 10); [simpl; lia|].
  assert (Hm2 : (2 <= m)%Z).
  { destruct (Z.le_gt_cases 2 m); [assumption|]. assert (m = 1)%Z as -> by lia. simpl in Hn. lia. }
  assert (Hd : (0 <= n / 10 < 10 ^ (m - 1))%Z).
  { split; [apply Z.div_pos; lia|]. apply Z.div_lt_upper_bound; [lia|].
    replace (10 * 10 ^ (m - 1))%Z with (10 ^ m)%Z; [lia|]. rewrite <- Z.pow_succ_r by lia. f_equal. lia. }
  specialize (IH (n / 10) (m - 1)%Z Hd ltac:(lia)). rewrite length_app. simpl length. lia.
Qed.

(** Reading digits from the start, after a sign or after a digit. *)
Lemma int_steps_digits (ds : list Z) (p : int_parser) :
  ds <> [] -> Forall (fun d => 0 <= d <= 9)%Z ds ->
  ps p = PLead \/ ps p = PSign \/ ps p = PDigit ->
  int_steps p (map ascii_of_digit ds) =
  Some {| ps := PDigit; negative := negative p; acc := digits_value ds (acc p);
          ndigits := (ndigits p + Z.of_nat (length ds))%Z |}.
Proof.
  revert p. induction ds as [|d ds IH]; intros p Hne Hall Hp; [contradiction|]. invc Hall.
  match goal with Hd : (0 <= d <= 9)%Z |- _ => destruct (ascii_of_digit_spec d Hd) as (E1 & E2 & E3 & E4 & E5) end.
  assert (Hs : int_step p (ascii_of_digit d) = Some (push_digit p d)).
  { unfold int_step. destruct Hp as [-> | [-> | ->]]; rewrite ?E1, ?E2, ?E4, ?E5; reflexivity. }
  simpl. rewrite Hs. destruct ds as [|d' ds'].
  - simpl. unfold push_digit, digits_value. simpl. do 2 f_equal; lia.
  - rewrite IH by (assumption || discriminate || (right; right; reflexivity)).
    unfold push_digit, digits_value. cbn [negative acc ndigits length fold_left].
    do 2 f_equal; lia.
Qed.

(** The fuel [show_int] gives [dec_digits] is enough. *)
Lemma show_int_fuel (n : Z) :
  (0 <= Z.abs n < 2 ^ Z.of_nat (S (Z.to_nat (Z.log2 (Z.abs n)))))%Z.
Proof.
  rewrite Nat2Z.inj_succ, Z2Nat.id by apply Z.log2_nonneg.
  destruct (Z.eq_dec (Z.abs n) 0) as [E|E]; [rewrite E; simpl; lia|].
  pose proof (Z.log2_spec (Z.abs n) ltac:(lia)) as [_ H]. split; [apply Z.abs_nonneg | exact H].
Qed.

(** ** Lemmas of the grammar *)

Lemma digit_char (c : ascii) (d : Z) :
  digit_of c = Some d ->
  is_space c = false /\ Ascii.eqb c "+"%char = false /\ Ascii.eqb c "-"%char = false /\
  Ascii.eqb c "_"%char = false /\ 0 <= d <= 9.
Proof.
  unfold digit_of. destruct ((48 <=? nat_of_ascii c)%nat && (nat_of_ascii c <=? 57)%nat) eqn:E; [|discriminate].
  intros [= <-]. apply andb_true_iff in E as [E1 E2]. apply Nat.leb_le in E1, E2.
  assert (Hc : forall x, (nat_of_ascii x < 48 \/ 57 < nat_of_ascii x)%nat -> Ascii.eqb c x = false)
    by (intros x Hx; destruct (Ascii.eqb_spec c x) as [->|]; [lia | reflexivity]).
  repeat split; try (apply Hc; vm_compute; lia); try lia.
  unfold is_space. destruct (Nat.leb_spec 9 (nat_of_ascii c)), (Nat.leb_spec (nat_of_ascii c) 13),
    (Nat.leb_spec 28 (nat_of_ascii c)), (Nat.leb_spec (nat_of_ascii c) 32); simpl; try reflexivity; lia.
Qed.

Lemma space_char (c : ascii) : is_space c = true -> digit_of c = None /\ Ascii.eqb c "_"%char = false.
Proof.
  intros H. split.
  - unfold digit_of, is_space in *. destruct ((48 <=? nat_of_ascii c)%nat && _) eqn:E; [|reflexivity].
    apply andb_true_iff in E as [E1 E2]. apply Nat.leb_le in E1, E2.
    apply orb_true_iff in H as [H|H]; apply andb_true_iff in H as [H1 H2]; apply Nat.leb_le in H1, H2; lia.
  - destruct (Ascii.eqb_spec c "_"%char) as [->|]; [vm_compute in H; discriminate H | reflexivity].
Qed.

Lemma digits_value_snoc (ds : list Z) (d : Z) : digits_value (ds ++ [d]) 0 = digits_value ds 0 * 10 + d.
Proof. unfold digits_value. now rewrite fold_left_app. Qed.

Lemma int_steps_app (p : int_parser) (xs ys : list ascii) :
  int_steps p (xs ++ ys) = match int_steps p xs with Some p' => int_steps p' ys | None => None end.
Proof.
  revert p. induction xs as [|c xs IH]; intros p; [reflexivity|]. cbn [int_steps app].
  destruct (int_step p c); [apply IH | reflexivity].
Qed.

Lemma int_steps_snoc (p : int_parser) (w : list ascii) (c : ascii) :
  int_steps p (w ++ [c]) = match int_steps p w with Some p' => int_step p' c | None => None end.
Proof. rewrite int_steps_app. destruct (int_steps p w); [cbn; destruct (int_step _ c) | ]; reflexivity. Qed.

(** A digit is read in every state but the trailing whitespace. *)
Lemma int_step_digit (p : int_parser) (c : ascii) (d : Z) :
  digit_of c = Some d -> ps p <> PTrail -> int_step p c = Some (push_digit p d).
Proof.
  intros Ed Hp. destruct (digit_char c d Ed) as (Hs & Hpl & Hm & _ & _).
  unfold int_step. destruct (ps p); [rewrite Hs, Hpl, Hm | | | | contradiction]; rewrite ?Ed; reflexivity.
Qed.

Lemma int_step_under (p : int_parser) : ps p = PDigit -> int_step p "_"%char = Some (with_state p PUnder (negative p)).
Proof. intros Hp. unfold int_step. now rewrite Hp. Qed.

Lemma int_step_space (p : int_parser) (c : ascii) :
  is_space c = true -> ps p = PDigit \/ ps p = PTrail -> int_step p c = Some (with_state p PTrail (negative p)).
Proof.
  intros Hs Hp. destruct (space_char c Hs) as [Hd Hu]. destruct p as [[] n a k]; cbn in Hp;
    destruct Hp as [Hp|Hp]; try discriminate; unfold int_step; cbn [ps]; rewrite ?Hd, ?Hu, Hs; reflexivity.
Qed.

Lemma parsed_push (p : int_parser) (lead : list ascii) (sgn : option bool) (w w' : list ascii) (ds : list Z) (d : Z) :
  parsed_number p lead sgn w ds -> udigits w' (ds ++ [d]) ->
  parsed_number (push_digit p d) lead sgn w' (ds ++ [d]).
Proof.
  intros (Hl & _ & Hn & Ha & Hd) Hu. refine (conj Hl (conj Hu (conj Hn (conj _ _)))); cbn [push_digit acc ndigits].
  - now rewrite digits_value_snoc, Ha.
  - rewrite length_app. simpl. lia.
Qed.

(** Each step keeps [int_inv]: the automaton only accepts the grammar. *)
Lemma int_step_inv (input : list ascii) (p p' : int_parser) (c : ascii) :
  int_inv input p -> int_step p c = Some p' -> int_inv (input ++ [c]) p'.
Proof.
  destruct p as [st neg a n]. unfold int_inv at 1, int_step. cbn [ps negative acc ndigits]. destruct st.
  - intros (Hs & -> & -> & ->).
    destruct (is_space c) eqn:Esp; [intros [= <-]; cbn; repeat split; apply Forall_app; auto|].
    destruct (Ascii.eqb_spec c "+"%char) as [->|]; [intros [= <-]; exists input, false; cbn; repeat split; auto|].
    destruct (Ascii.eqb_spec c "-"%char) as [->|]; [intros [= <-]; exists input, true; cbn; repeat split; auto|].
    destruct (digit_of c) as [d|] eqn:Ed; [|discriminate]. intros [= <-].
    exists input, None, [c], [d]. split; [exact (conj Hs (conj (ud_one c d Ed) (conj eq_refl (conj eq_refl eq_refl)))) | reflexivity].
  - intros (lead & b & Hs & -> & -> & -> & ->). destruct (digit_of c) as [d|] eqn:Ed; [|discriminate]. intros [= <-].
    exists lead, (Some b), [c], [d]. split; [exact (conj Hs (conj (ud_one c d Ed) (conj eq_refl (conj eq_refl eq_refl))))|].
    now rewrite <- app_assoc.
  - intros (lead & sgn & w & ds & Hpn & ->). destruct (digit_of c) as [d|] eqn:Ed.
    + intros [= <-]. exists lead, sgn, (w ++ [c]), (ds ++ [d]).
      split; [apply (parsed_push _ lead sgn w); [exact Hpn | exact (ud_digit w ds c d (proj1 (proj2 Hpn)) Ed)] | now rewrite <- !app_assoc].
    + destruct (Ascii.eqb_spec c "_"%char) as [->|].
      { intros [= <-]. exists lead, sgn, w, ds. split; [exact Hpn | now rewrite <- !app_assoc]. }
      destruct (is_space c) eqn:Esp; [|discriminate]. intros [= <-]. exists lead, sgn, w, ds, [c].
      split; [exact Hpn|]. split; [discriminate|]. split; [constructor; auto | now rewrite <- !app_assoc].
  - intros (lead & sgn & w & ds & Hpn & ->). destruct (digit_of c) as [d|] eqn:Ed; [|discriminate]. intros [= <-].
    exists lead, sgn, (w ++ ["_"%char; c]), (ds ++ [d]).
    split; [apply (parsed_push _ lead sgn w); [exact Hpn | exact (ud_under w ds c d (proj1 (proj2 Hpn)) Ed)] | now rewrite <- !app_assoc].
  - intros (lead & sgn & w & ds & trail & Hpn & Hne & Ht & ->). destruct (is_space c) eqn:Esp; [|discriminate].
    intros [= <-]. exists lead, sgn, w, ds, (trail ++ [c]). split; [exact Hpn|].
    split; [intros Habs; apply app_eq_nil in Habs as [_ Habs]; discriminate|].
    split; [apply Forall_app; auto | now rewrite <- !app_assoc].
Qed.

Lemma int_steps_inv (w : list ascii) (p : int_parser) : int_steps int_parser0 w = Some p -> int_inv w p.
Proof.
  revert p. induction w as [|c w IH] using rev_ind; intros p H.
  - invc H. cbn. split; [constructor | auto].
  - rewrite int_steps_snoc in H. destruct (int_steps int_parser0 w) as [q|] eqn:E; [|discriminate].
    exact (int_step_inv w q p c (IH q eq_refl) H).
Qed.

Lemma int_steps_lead (lead : list ascii) : spaces lead -> int_steps int_parser0 lead = Some int_parser0.
Proof. induction 1 as [|c cs Hc _ IH]; [reflexivity|]. cbn [int_steps]. unfold int_step at 1. cbn [ps int_parser0]. now rewrite Hc. Qed.

Lemma int_steps_sign (sgn : option bool) :
  exists q, int_steps int_parser0 (sign_chars sgn) = Some q /\ (ps q = PLead \/ ps q = PSign) /\
            negative q = sgn_neg sgn /\ acc q = 0 /\ ndigits q = 0.
Proof. destruct sgn as [[|]|]; (eexists; split; [reflexivity|]); cbn; intuition. Qed.

Lemma int_steps_udigits (w : list ascii) (ds : list Z) :
  udigits w ds -> forall q, (ps q = PLead \/ ps q = PSign) -> acc q = 0 -> ndigits q = 0 ->
  int_steps q w = Some {| ps := PDigit; negative := negative q; acc := digits_value ds 0;
                          ndigits := Z.of_nat (length ds) |}.
Proof.
  induction 1 as [c d Ed | w ds c d Hu IH Ed | w ds c d Hu IH Ed]; intros q Hq Ha Hn.
  - cbn [int_steps]. rewrite (int_step_digit q c d Ed) by (destruct Hq as [-> | ->]; discriminate).
    unfold push_digit. now rewrite Ha, Hn.
  - rewrite int_steps_snoc, (IH q Hq Ha Hn), (int_step_digit _ c d Ed) by discriminate.
    unfold push_digit. cbn [negative acc ndigits]. rewrite digits_value_snoc, length_app. do 2 f_equal. simpl. lia.
  - replace (w ++ ["_"%char; c]) with ((w ++ ["_"%char]) ++ [c]) by now rewrite <- app_assoc.
    rewrite !int_steps_snoc, (IH q Hq Ha Hn), int_step_under by reflexivity.
    rewrite (int_step_digit _ c d Ed) by discriminate.
    unfold push_digit. cbn [negative acc ndigits]. rewrite digits_value_snoc, length_app. do 2 f_equal. simpl. lia.
Qed.

Lemma int_steps_trail (trail : list ascii) :
  spaces trail -> forall q, ps q = PDigit \/ ps q = PTrail ->
  exists q', int_steps q trail = Some q' /\ (ps q' = PDigit \/ ps q' = PTrail) /\
             negative q' = negative q /\ acc q' = acc q /\ ndigits q' = ndigits q.
Proof.
  induction 1 as [|c cs Hc _ IH]; intros q Hq; [exists q; repeat split; auto|].
  cbn [int_steps]. rewrite int_step_space by assumption.
  destruct (IH (with_state q PTrail (negative q)) (or_intror eq_refl)) as (q' & E & Hq' & Hn & Ha & Hd).
  exists q'. auto.
Qed.

Lemma int_of_string_sound (s : string) (n : Z) : int_of_string s = Some n -> int_literal (list_ascii_of_string s) n.
Proof.
  unfold int_of_string. destruct (int_steps int_parser0 _) as [p|] eqn:E; [|discriminate].
  apply int_steps_inv in E. revert E. unfold int_inv.
  destruct (ps p); intros E; try discriminate;
    destruct (Z.leb_spec (ndigits p) INT_MAX_STR_DIGITS); try discriminate; intros [= <-].
  - destruct E as (lead & sgn & w & ds & (Hl & Hu & Hn & Ha & Hd) & ->). rewrite <- (app_nil_r w), Hn, Ha.
    replace (if sgn_neg sgn then - digits_value ds 0 else digits_value ds 0) with (apply_sign sgn (digits_value ds 0))
      by (destruct sgn as [[|]|]; reflexivity).
    apply int_lit; [exact Hl | exact Hu | constructor | lia].
  - destruct E as (lead & sgn & w & ds & trail & (Hl & Hu & Hn & Ha & Hd) & _ & Ht & ->). rewrite Hn, Ha.
    replace (if sgn_neg sgn then - digits_value ds 0 else digits_value ds 0) with (apply_sign sgn (digits_value ds 0))
      by (destruct sgn as [[|]|]; reflexivity).
    apply int_lit; [exact Hl | exact Hu | exact Ht | lia].
Qed.

Lemma int_of_string_complete (s : string) (n : Z) : int_literal (list_ascii_of_string s) n -> int_of_string s = Some n.
Proof.
  unfold int_of_string. remember (list_ascii_of_string s) as l eqn:El. intros H.
  destruct H as [lead sgn w ds trail Hl Hu Ht Hlen].
  rewrite int_steps_app, (int_steps_lead lead Hl).
  destruct (int_steps_sign sgn) as (q & Eq & Hq & Hqn & Hqa & Hqd). rewrite int_steps_app, Eq.
  rewrite int_steps_app, (int_steps_udigits w ds Hu q Hq Hqa Hqd).
  destruct (int_steps_trail trail Ht {| ps := PDigit; negative := negative q; acc := digits_value ds 0;
                                         ndigits := Z.of_nat (length ds) |} (or_introl eq_refl)) as (q' & E' & Hq' & Hn' & Ha' & Hd'). rewrite E'.
  cbn [negative acc ndigits] in Hn', Ha', Hd'.
  destruct Hq' as [Ep|Ep]; rewrite Ep, Hd'; (destruct (Z.leb_spec (Z.of_nat (length ds)) INT_MAX_STR_DIGITS); [|lia]);
    rewrite Hn', Ha', Hqn; destruct sgn as [[|]|]; reflexivity.
Qed.

(** ** Theorems *)

(** Python's [int()] reads back what [str()] prints, for every
    integer within [int]'s 4300-digit limit. *)
Theorem int_of_string_show_int (n : Z) :
  (Z.abs n < 10 ^ INT_MAX_STR_DIGITS)%Z -> int_of_string (show_int n) = Some n.
Proof.
  intros Hn. unfold show_int, int_of_string.
  set (k := Z.to_nat (Z.log2 (Z.abs n))).
  destruct (dec_digits_spec k (Z.abs n) (show_int_fuel n)) as (Hne & Hall & Hv).
  assert (Hn' : (0 <= Z.abs n < 10 ^ INT_MAX_STR_DIGITS)%Z) by (split; [apply Z.abs_nonneg | exact Hn]).
  pose proof (dec_digits_length (S k) (Z.abs n) INT_MAX_STR_DIGITS Hn' ltac:(unfold INT_MAX_STR_DIGITS; lia)) as Hlen.
  destruct (Z.ltb_spec n 0) as [Hneg|Hpos];
    [change (("-" ++ ?x)%string) with (String "-"%char x) | change (("" ++ ?x)%string) with x];
    cbn [list_ascii_of_string]; rewrite list_ascii_of_string_of_list_ascii.
  - cbn [int_steps]. change (int_step int_parser0 "-"%char) with (Some (with_state int_parser0 PSign true)).
    cbv iota. rewrite int_steps_digits by (assumption || (right; left; reflexivity)).
    cbn [ps negative acc ndigits with_state int_parser0]. rewrite Hv.
    destruct (Z.leb_spec (0 + Z.of_nat (length (dec_digits (S k) (Z.abs n)))) INT_MAX_STR_DIGITS); [|lia].
    f_equal. lia.
  - rewrite int_steps_digits by (assumption || (left; reflexivity)).
    cbn [ps negative acc ndigits int_parser0]. rewrite Hv.
    destruct (Z.leb_spec (0 + Z.of_nat (length (dec_digits (S k) (Z.abs n)))) INT_MAX_STR_DIGITS); [|lia].
    f_equal. lia.
Qed.

Lemma int_of_string_show_int_witness :
  (Z.abs (-8000) < 10 ^ INT_MAX_STR_DIGITS)%Z /\ int_of_string (show_int (-8000)) = Some (-8000)%Z.
Proof. split; [vm_compute; reflexivity | apply int_of_string_show_int; vm_compute; reflexivity]. Defined.

(** C21: [int()] on a string refines the grammar of its documentation: it
    returns [n] exactly when the string is whitespace, an optional sign,
    decimal digits with single underscores between them (at most 4300
    of them) and whitespace, whose value with that sign is [n]; every
    other string raises [ValueError]. *)
Theorem int_of_string_grammar (s : string) (n : Z) :
  int_of_string s = Some n <-> int_literal (list_ascii_of_string s) n.
Proof. split; [apply int_of_string_sound | apply int_of_string_complete]. Qed.

Lemma int_of_string_grammar_witness :
  int_literal (list_ascii_of_string " -1_000") (-1000) /\ int_of_string "1__0" = None.
Proof. split; [apply int_of_string_grammar; vm_compute; reflexivity | reflexivity]. Defined.

End PyInt.
