(* ===== verification/Utf8.v ===== *)
(** CPython's UTF-8 codec, as [executor.py] uses it: [code.encode("utf-8")]
    and [stdin.encode("utf-8")] (lines 232 and 303, strict), and
    [bytes.decode("utf-8", errors="replace")] in [_truncate] (lines 69
    and 72).  The encoder follows CPython's [utf8_encoder]; the decoder is
    the loop of [unicode_decode_utf8] with the ["replace"] handler: one
    iteration ([utf8_step]) reads a lead byte and up to three
    continuation bytes and emits one code point, U+FFFD for the maximal
    invalid subpart it skips. *)

From Stdlib Require Import ZArith Lia String Ascii Bool List.
From S2P Require Import Prelude.
Import ListNotations.
Open Scope Z_scope.

Module Utf8.

(** ** Code points *)

Definition REPLACEMENT_CHARACTER : Z := 0xFFFD.

(** A character of a Python [str]. *)
Definition is_code_point (c : Z) : Prop := 0 <= c <= 0x10FFFF.

(** [Py_UNICODE_IS_SURROGATE] *)
Definition is_surrogate (c : Z) : bool := (0xD800 <=? c) && (c <=? 0xDFFF).

(** A Unicode scalar value: what valid UTF-8 denotes. *)
Definition is_scalar (c : Z) : Prop := is_code_point c /\ is_surrogate c = false.

(** ** Encoder: [str.encode("utf-8")], strict *)

Definition utf8_encode_char (ch : Z) : option (list Z) :=
  if ch <? 0x80 then Some [ch]
  else if ch <? 0x0800 then
    Some [Z.lor 0xC0 (Z.shiftr ch 6); Z.lor 0x80 (Z.land ch 0x3F)]
  else if is_surrogate ch then None   (* UnicodeEncodeError: surrogates not allowed *)
  else if ch <? 0x10000 then
    Some [Z.lor 0xE0 (Z.shiftr ch 12);
          Z.lor 0x80 (Z.land (Z.shiftr ch 6) 0x3F);
          Z.lor 0x80 (Z.land ch 0x3F)]
  else
    Some [Z.lor 0xF0 (Z.shiftr ch 18);
          Z.lor 0x80 (Z.land (Z.shiftr ch 12) 0x3F);
          Z.lor 0x80 (Z.land (Z.shiftr ch 6) 0x3F);
          Z.lor 0x80 (Z.land ch 0x3F)].

Fixpoint utf8_encode (s : list Z) : option (list Z) :=
  match s with
  | [] => Some []
  | ch :: s' =>
      match utf8_encode_char ch, utf8_encode s' with
      | Some b, Some bs => Some (b ++ bs)
      | _, _ => None
      end
  end.

(** ** Decoder: [bytes.decode("utf-8", errors="replace")] *)

(** [IS_CONTINUATION_BYTE] *)
Definition is_cont (b : Z) : bool := (0x80 <=? b) && (b <? 0xC0).

Definition cp2 (ch ch2 : Z) : Z :=
  Z.shiftl ch 6 + ch2 - (Z.shiftl 0xC0 6 + 0x80).
Definition cp3 (ch ch2 ch3 : Z) : Z :=
  Z.shiftl ch 12 + Z.shiftl ch2 6 + ch3 - (Z.shiftl 0xE0 12 + Z.shiftl 0x80 6 + 0x80).
Definition cp4 (ch ch2 ch3 ch4 : Z) : Z :=
  Z.shiftl ch 18 + Z.shiftl ch2 12 + Z.shiftl ch3 6 + ch4
  - (Z.shiftl 0xF0 18 + Z.shiftl 0x80 12 + Z.shiftl 0x80 6 + 0x80).

(** The check on the second byte of a truncated three-byte sequence
    ([ch2 < 0xA0 ? ch == 0xE0 : ch == 0xED]) and of a four-byte one. *)
Definition bad_second3 (ch ch2 : Z) : bool :=
  negb (is_cont ch2) || (if ch2 <? 0xA0 then ch =? 0xE0 else ch =? 0xED).
Definition bad_second4 (ch ch2 : Z) : bool :=
  negb (is_cont ch2) || (if ch2 <? 0x90 then ch =? 0xF0 else ch =? 0xF4).

(** One iteration of the decoding loop at lead byte [ch], the rest of the
    input being [t1]: the code point emitted and the input left.  An
    error ("invalid start byte", "invalid continuation byte", "unexpected
    end of data") emits U+FFFD and resumes at the byte where the C code
    sets [endinpos]. *)
Definition utf8_step (ch : Z) (t1 : list Z) : Z * list Z :=
  let R := REPLACEMENT_CHARACTER in
  if ch <? 0x80 then (ch, t1)
  else if ch <? 0xE0 then
    if ch <? 0xC2 then (R, t1)                          (* invalid start byte *)
    else match t1 with
         | [] => (R, [])                                (* unexpected end of data *)
         | ch2 :: t2 => if is_cont ch2 then (cp2 ch ch2, t2) else (R, t1)
         end
  else if ch <? 0xF0 then
    match t1 with
    | [] => (R, [])
    | [ch2] => if bad_second3 ch ch2 then (R, t1) else (R, [])
    | ch2 :: (ch3 :: t3) as t2 =>
        if negb (is_cont ch2) then (R, t1)
        else if (ch =? 0xE0) && (ch2 <? 0xA0) then (R, t1)
        else if (ch =? 0xED) && (0xA0 <=? ch2) then (R, t1)   (* surrogate *)
        else if negb (is_cont ch3) then (R, t2)
        else (cp3 ch ch2 ch3, t3)
    end
  else if ch <? 0xF5 then
    match t1 with
    | [] => (R, [])
    | [ch2] => if bad_second4 ch ch2 then (R, t1) else (R, [])
    | [ch2; ch3] =>
        if bad_second4 ch ch2 then (R, t1)
        else if negb (is_cont ch3) then (R, [ch3]) else (R, [])
    | ch2 :: (ch3 :: (ch4 :: t4) as t3) as t2 =>
        if negb (is_cont ch2) then (R, t1)
        else if (ch =? 0xF0) && (ch2 <? 0x90) then (R, t1)
        else if (ch =? 0xF4) && (0x90 <=? ch2) then (R, t1)   (* above U+10FFFF *)
        else if negb (is_cont ch3) then (R, t2)
        else if negb (is_cont ch4) then (R, t3)
        else (cp4 ch ch2 ch3 ch4, t4)
    end
  else (R, t1).                                         (* invalid start byte *)

(** The loop [while (s < end)]; every iteration consumes at least one
    byte, so [length bs] iterations are enough ([utf8_decode_fuel_enough]). *)
Fixpoint utf8_decode_fuel (fuel : nat) (bs : list Z) : list Z :=
  match fuel, bs with
  | _, [] => []
  | O, _ :: _ => []
  | S fuel', ch :: t1 =>
      let '(c, rest) := utf8_step ch t1 in c :: utf8_decode_fuel fuel' rest
  end.

Definition utf8_decode (bs : list Z) : list Z := utf8_decode_fuel (length bs) bs.

(** The number of bytes [utf8_encode_char] writes for a scalar value. *)
Definition utf8_len (c : Z) : nat :=
  if c <? 0x80 then 1 else if c <? 0x800 then 2 else if c <? 0x10000 then 3 else 4.

(** A cut in front of an ASCII byte (or at the end) is never inside a
    sequence: an iteration reads the same on either side of it. *)
Definition starts_ascii (m : list Z) : bool :=
  match m with [] => true | a :: _ => (0 <=? a) && (a <? 0x80) end.

Example utf8_decode_hello : utf8_decode ⟪"hello"⟫ = ⟪"hello"⟫.
Proof. reflexivity. Qed.

Example utf8_decode_euro : utf8_decode [0xE2; 0x82; 0xAC] = [0x20AC].
Proof. reflexivity. Qed.

Example utf8_decode_truncated_euro : utf8_decode [0xE2; 0x82; 0x0A] = [0xFFFD; 0x0A].
Proof. reflexivity. Qed.

Example utf8_decode_surrogate : utf8_decode [0xED; 0xA0; 0x80] = [0xFFFD; 0xFFFD; 0xFFFD].
Proof. reflexivity. Qed.

Example utf8_encode_surrogate : utf8_encode [0x61; 0xD800] = None.
Proof. reflexivity. Qed.

(** ** The decoding loop *)

(** Every iteration leaves a suffix of its input. *)
Lemma utf8_step_suffix ch t1 : exists p, t1 = p ++ snd (utf8_step ch t1).
Proof.
  unfold utf8_step.
  destruct t1 as [|a [|b [|d t]]]; case_ifs; simpl;
    first [ exists []; reflexivity | exists [a]; reflexivity
          | exists [a; b]; reflexivity | exists [a; b; d]; reflexivity
          | exists [a; b]; now rewrite app_nil_r | exists [a]; now rewrite app_nil_r ].
Qed.

Lemma utf8_step_shorter ch t1 : (length (snd (utf8_step ch t1)) <= length t1)%nat.
Proof.
  destruct (utf8_step_suffix ch t1) as [p Hp].
  rewrite Hp at 2. rewrite length_app. lia.
Qed.

Lemma utf8_decode_fuel_stable n m bs :
  (length bs <= n)%nat -> (length bs <= m)%nat ->
  utf8_decode_fuel n bs = utf8_decode_fuel m bs.
Proof.
  revert m bs. induction n as [|n IH]; intros m [|ch t1] Hn Hm; simpl in *;
    try lia; destruct m as [|m]; simpl; try lia; try reflexivity.
  pose proof (utf8_step_shorter ch t1) as Hs.
  destruct (utf8_step ch t1) as [c rest]; simpl in *.
  f_equal. apply IH; lia.
Qed.

(** The loop unrolled once: what a [while] iteration does. *)
Lemma utf8_decode_cons ch t1 :
  utf8_decode (ch :: t1) =
  let '(c, rest) := utf8_step ch t1 in c :: utf8_decode rest.
Proof.
  unfold utf8_decode at 1. simpl.
  pose proof (utf8_step_shorter ch t1) as Hs.
  destruct (utf8_step ch t1) as [c rest]; simpl in *.
  f_equal. apply utf8_decode_fuel_stable; lia.
Qed.

(** Induction following the decoding loop. *)
Lemma utf8_decode_ind (Q : list Z -> list Z -> Prop) :
  Q [] [] ->
  (forall ch t1 c rest, utf8_step ch t1 = (c, rest) ->
     Q rest (utf8_decode rest) -> Q (ch :: t1) (c :: utf8_decode rest)) ->
  forall bs, Q bs (utf8_decode bs).
Proof.
  intros Hnil Hcons bs. induction bs as [[|ch t1] IH] using list_length_ind.
  - exact Hnil.
  - rewrite utf8_decode_cons.
    pose proof (utf8_step_shorter ch t1) as Hs.
    destruct (utf8_step ch t1) as [c rest] eqn:E; simpl in *.
    apply (Hcons ch t1 c rest E). apply IH. simpl. lia.
Qed.

(** ** The encoder, arithmetically *)

Lemma utf8_encode_char_1 c : c < 0x80 -> utf8_encode_char c = Some [c].
Proof. intros H. unfold utf8_encode_char. case_zcmp; first [reflexivity | lia]. Qed.

Lemma utf8_encode_char_2 c :
  0x80 <= c < 0x800 -> utf8_encode_char c = Some [0xC0 + c / 64; 0x80 + c mod 64].
Proof.
  intros H. unfold utf8_encode_char. case_zcmp; try lia.
  rewrite land_0x3f, (lor_tag 0xC0 _ 5), (lor_tag 0x80 _ 6) by zside.
  zbits_norm. reflexivity.
Qed.

Lemma utf8_encode_char_3 c :
  0x800 <= c < 0x10000 -> is_surrogate c = false ->
  utf8_encode_char c = Some [0xE0 + c / 4096; 0x80 + (c / 64) mod 64; 0x80 + c mod 64].
Proof.
  intros H Hs. unfold utf8_encode_char. rewrite Hs. case_zcmp; try lia.
  rewrite !land_0x3f, (lor_tag 0xE0 _ 4), (lor_tag 0x80 _ 6), (lor_tag 0x80 _ 6) by zside.
  zbits_norm. reflexivity.
Qed.

Lemma utf8_encode_char_4 c :
  0x10000 <= c <= 0x10FFFF ->
  utf8_encode_char c =
    Some [0xF0 + c / 262144; 0x80 + (c / 4096) mod 64; 0x80 + (c / 64) mod 64; 0x80 + c mod 64].
Proof.
  intros H. unfold utf8_encode_char, is_surrogate. case_zcmp; try lia; cbn [andb].
  rewrite !land_0x3f, (lor_tag 0xF0 _ 3), (lor_tag 0x80 _ 6), (lor_tag 0x80 _ 6),
    (lor_tag 0x80 _ 6) by zside.
  zbits_norm. reflexivity.
Qed.

(** Decoding the encoding of one character: the iteration that reads
    it emits the character and stops right after its bytes. *)
Lemma utf8_step_encode_char c b rest :
  is_code_point c -> utf8_encode_char c = Some b ->
  exists ch t, b = ch :: t /\ utf8_step ch (t ++ rest) = (c, rest).
Proof.
  unfold is_code_point. intros Hc He.
  destruct (Z.lt_ge_cases c 0x80) as [H1|H1];
    [|destruct (Z.lt_ge_cases c 0x800) as [H2|H2];
      [|destruct (Z.lt_ge_cases c 0x10000) as [H3|H3]]].
  - rewrite utf8_encode_char_1 in He by lia. some_eq He.
    exists c, []. split; [reflexivity|]. unfold utf8_step. case_zcmp; first [reflexivity | lia].
  - rewrite utf8_encode_char_2 in He by lia. some_eq He.
    eexists _, _. split; [reflexivity|]. rewrite <- ?app_comm_cons, ?app_nil_l.
    unfold utf8_step, is_cont, cp2. case_ifs; zbool; zbits_norm; try zlia.
    f_equal. zlia.
  - destruct (is_surrogate c) eqn:Hs.
    { unfold utf8_encode_char in He.
      rewrite (proj2 (Z.ltb_ge c 0x80)), (proj2 (Z.ltb_ge c 0x800)), Hs in He by lia.
      discriminate. }
    rewrite utf8_encode_char_3 in He by (assumption || lia). some_eq He.
    eexists _, _. split; [reflexivity|]. rewrite <- ?app_comm_cons, ?app_nil_l. unfold is_surrogate in Hs.
    unfold utf8_step, is_cont, cp3. case_ifs; zbool; zbits_norm; try zlia.
    f_equal. zlia.
  - rewrite utf8_encode_char_4 in He by lia. some_eq He.
    eexists _, _. split; [reflexivity|]. rewrite <- ?app_comm_cons, ?app_nil_l.
    unfold utf8_step, is_cont, cp4. case_ifs; zbool; zbits_norm; try zlia.
    f_equal. zlia.
Qed.

(** ** Per-iteration facts of the decoder *)

Ltac bytes_of_forall :=
  repeat match goal with H : Forall _ (_ :: _) |- _ => invc H end; unfold is_byte in *.

Ltac utf8_step_cases :=
  unfold utf8_step, bad_second3, bad_second4, is_cont, cp2, cp3, cp4, REPLACEMENT_CHARACTER;
  case_ifs; zbool; zbits_norm.

(** Every code point the decoder emits is a scalar value. *)
Lemma utf8_step_scalar ch t1 :
  Forall is_byte (ch :: t1) -> is_scalar (fst (utf8_step ch t1)).
Proof.
  intros Hb. unfold is_scalar, is_code_point, is_surrogate.
  destruct t1 as [|a [|b [|d t]]]; bytes_of_forall; utf8_step_cases; cbv [fst];
    split; try lia; apply andb_false_iff; case_zcmp; auto; lia.
Qed.

(** What one iteration costs in re-encoded bytes: at most three per byte
    it consumes (U+FFFD takes three bytes, a valid sequence as many as
    it consumed). *)
Lemma utf8_step_len ch t1 :
  Forall is_byte (ch :: t1) ->
  (utf8_len (fst (utf8_step ch t1)) + 3 * length (snd (utf8_step ch t1)) <= 3 * S (length t1))%nat.
Proof.
  intros Hb.
  destruct t1 as [|a [|b [|d t]]]; bytes_of_forall; utf8_step_cases; cbv [fst snd];
    unfold utf8_len; case_zcmp; simpl length; lia.
Qed.

Lemma utf8_step_app ch t1 m :
  starts_ascii m = true ->
  utf8_step ch (t1 ++ m) = let '(c, r) := utf8_step ch t1 in (c, r ++ m).
Proof.
  intros Hm. destruct m as [|x m]; [rewrite app_nil_r; destruct (utf8_step ch t1); now rewrite app_nil_r|].
  unfold starts_ascii in Hm. zbool.
  destruct t1 as [|a [|b [|d t]]]; [destruct m as [|y [|z m]]|destruct m as [|y m]|..];
    cbn [app]; utf8_step_cases; first [reflexivity | lia].
Qed.

Lemma utf8_encode_char_scalar c :
  is_scalar c -> exists b, utf8_encode_char c = Some b /\ length b = utf8_len c.
Proof.
  unfold is_scalar, is_code_point, utf8_len. intros [Hc Hs].
  destruct (Z.lt_ge_cases c 0x80); [|destruct (Z.lt_ge_cases c 0x800);
    [|destruct (Z.lt_ge_cases c 0x10000)]].
  - rewrite utf8_encode_char_1 by lia. eexists; split; [reflexivity|]. case_zcmp; simpl; lia.
  - rewrite utf8_encode_char_2 by lia. eexists; split; [reflexivity|]. case_zcmp; simpl; lia.
  - rewrite utf8_encode_char_3 by (assumption || lia). eexists; split; [reflexivity|].
    case_zcmp; simpl; lia.
  - rewrite utf8_encode_char_4 by lia. eexists; split; [reflexivity|]. case_zcmp; simpl; lia.
Qed.

(** A string of scalar values always encodes. *)
Lemma utf8_encode_scalars (s : list Z) : Forall is_scalar s -> exists bs, utf8_encode s = Some bs.
Proof.
  induction 1 as [|c s Hc _ [bs IH]]; [eexists; reflexivity|].
  destruct (utf8_encode_char_scalar c Hc) as [b [Hb _]]. exists (b ++ bs). simpl. now rewrite Hb, IH.
Qed.

Lemma utf8_encode_char_surrogate c : is_surrogate c = true -> utf8_encode_char c = None.
Proof.
  unfold utf8_encode_char. intros Hs. pose proof Hs as H. unfold is_surrogate in H. zbool.
  rewrite (proj2 (Z.ltb_ge c 0x80)), (proj2 (Z.ltb_ge c 0x800)), Hs by lia. reflexivity.
Qed.

(** The input left after an iteration is still bytes. *)
Lemma utf8_step_rest_bytes ch t1 :
  Forall is_byte (ch :: t1) -> Forall is_byte (snd (utf8_step ch t1)).
Proof.
  intros Hb. destruct (utf8_step_suffix ch t1) as [p Hp]. rewrite Hp in Hb.
  apply Forall_inv_tail, Forall_app in Hb. tauto.
Qed.

(** The encoder writes bytes. *)
Lemma utf8_encode_char_bytes c b :
  is_code_point c -> utf8_encode_char c = Some b -> Forall is_byte b.
Proof.
  unfold is_code_point. intros Hc He.
  destruct (Z.lt_ge_cases c 0x80) as [H1|H1];
    [|destruct (Z.lt_ge_cases c 0x800) as [H2|H2];
      [|destruct (Z.lt_ge_cases c 0x10000) as [H3|H3]]].
  - rewrite utf8_encode_char_1 in He by lia. some_eq He. repeat constructor; unfold is_byte; lia.
  - rewrite utf8_encode_char_2 in He by lia. some_eq He. repeat constructor; unfold is_byte; zlia.
  - destruct (is_surrogate c) eqn:Hs; [now rewrite utf8_encode_char_surrogate in He|].
    rewrite utf8_encode_char_3 in He by (assumption || lia). some_eq He.
    repeat constructor; unfold is_byte; zlia.
  - rewrite utf8_encode_char_4 in He by lia. some_eq He. repeat constructor; unfold is_byte; zlia.
Qed.

Lemma utf8_encode_bytes (s bs : list Z) :
  Forall is_code_point s -> utf8_encode s = Some bs -> Forall is_byte bs.
Proof.
  revert bs. induction s as [|c s IH]; intros bs Hs He; simpl in He; [some_eq He; constructor|].
  invc Hs. destruct (utf8_encode_char c) as [b|] eqn:Hc; [|discriminate].
  destruct (utf8_encode s) as [bs'|] eqn:Hr; [|discriminate]. some_eq He.
  apply Forall_app. split; [eapply utf8_encode_char_bytes; eauto | now apply IH].
Qed.

(** Decoding what the encoder wrote. *)
Lemma utf8_decode_of_encode (s bs : list Z) :
  Forall is_code_point s -> utf8_encode s = Some bs -> utf8_decode bs = s.
Proof.
  revert bs. induction s as [|c s IH]; intros bs Hs He; simpl in He.
  - some_eq He. reflexivity.
  - invc Hs. destruct (utf8_encode_char c) as [b|] eqn:Hc; [|discriminate].
    destruct (utf8_encode s) as [bs'|] eqn:Hr; [|discriminate]. some_eq He.
    destruct (utf8_step_encode_char c b bs') as (ch & t & -> & Hstep); [assumption..|].
    rewrite <- app_comm_cons, utf8_decode_cons, Hstep. f_equal. now apply IH.
Qed.

(** ** Theorems of the codec *)

(** Termination of the decoding loop: with as much fuel as there are
    bytes, [utf8_decode_fuel] has consumed the whole input, and more fuel
    changes nothing. *)
Theorem utf8_decode_fuel_enough (fuel : nat) (bs : list Z) :
  (length bs <= fuel)%nat -> utf8_decode_fuel fuel bs = utf8_decode bs.
Proof. intros H. apply utf8_decode_fuel_stable; [exact H | constructor]. Qed.

Lemma utf8_decode_fuel_enough_witness :
  (length [0xE2; 0x82] <= 5)%nat /\ utf8_decode_fuel 5 [0xE2; 0x82] = [0xFFFD].
Proof. split; [simpl; lia | rewrite (utf8_decode_fuel_enough 5); [reflexivity | simpl; lia]]. Defined.

(** Round trip: the bytes [str.encode("utf-8")] produces for a Python
    string decode back to that string. *)
Theorem utf8_decode_encode (s bs : list Z) :
  Forall is_code_point s -> utf8_encode s = Some bs -> utf8_decode bs = s.
Proof. apply utf8_decode_of_encode. Qed.

Lemma utf8_decode_encode_witness :
  Forall is_code_point [0x68; 0x20AC; 0x1F600] /\
  utf8_encode [0x68; 0x20AC; 0x1F600] = Some [0x68; 0xE2; 0x82; 0xAC; 0xF0; 0x9F; 0x98; 0x80] /\
  utf8_decode [0x68; 0xE2; 0x82; 0xAC; 0xF0; 0x9F; 0x98; 0x80] = [0x68; 0x20AC; 0x1F600].
Proof.
  assert (H : Forall is_code_point [0x68; 0x20AC; 0x1F600])
    by (repeat constructor; unfold is_code_point; lia).
  split; [exact H | split; [reflexivity | apply utf8_decode_encode; [exact H | reflexivity]]].
Defined.

(** C31: error path of [code.encode("utf-8")]: on a Python string the
    encoder fails exactly when the string holds a lone surrogate (the
    request's JSON may carry one, e.g. ["\ud800"]). *)
Theorem utf8_encode_None_iff (s : list Z) :
  Forall is_code_point s ->
  utf8_encode s = None <-> Exists (fun c => is_surrogate c = true) s.
Proof.
  induction s as [|c s IH]; intros Hs; simpl.
  - split; [discriminate | intros H; inversion H].
  - invc Hs. rewrite Exists_cons. destruct (is_surrogate c) eqn:Hsur.
    + rewrite utf8_encode_char_surrogate by exact Hsur. tauto.
    + match goal with Hc : is_code_point c |- _ =>
        destruct (utf8_encode_char_scalar c (conj Hc Hsur)) as (b & -> & _) end.
      rewrite <- IH by assumption.
      destruct (utf8_encode s); split; intros H; try discriminate; try tauto.
      destruct H; congruence.
Qed.

Lemma utf8_encode_None_iff_witness :
  Forall is_code_point [0x61; 0xD800] /\ utf8_encode [0x61; 0xD800] = None.
Proof.
  assert (H : Forall is_code_point [0x61; 0xD800]) by (repeat constructor; unfold is_code_point; lia).
  split; [exact H|]. apply (utf8_encode_None_iff _ H). right. left. reflexivity.
Defined.

(** The decoder never produces more characters than it read bytes. *)
Theorem utf8_decode_length (bs : list Z) : (length (utf8_decode bs) <= length bs)%nat.
Proof.
  apply (utf8_decode_ind (fun bs d => (length d <= length bs)%nat)); [simpl; lia|].
  intros ch t1 c rest Hstep IH. pose proof (utf8_step_shorter ch t1) as Hs.
  rewrite Hstep in Hs. simpl in *. lia.
Qed.

(** The decoder yields valid text: every character is a Unicode
    scalar value, so the result can always be encoded again. *)
Theorem utf8_decode_valid (bs : list Z) :
  Forall is_byte bs -> Forall is_scalar (utf8_decode bs).
Proof.
  apply (utf8_decode_ind (fun bs d => Forall is_byte bs -> Forall is_scalar d)); [constructor|].
  intros ch t1 c rest Hstep IH Hb. pose proof (utf8_step_scalar ch t1 Hb) as Hc.
  pose proof (utf8_step_rest_bytes ch t1 Hb) as Hr. rewrite Hstep in Hc, Hr.
  constructor; [exact Hc | exact (IH Hr)].
Qed.

Lemma utf8_decode_valid_witness :
  Forall is_byte [0xFF; 0x41] /\ Forall is_scalar (utf8_decode [0xFF; 0x41]).
Proof.
  assert (H : Forall is_byte [0xFF; 0x41]) by (repeat constructor; unfold is_byte; lia).
  split; [exact H | exact (utf8_decode_valid _ H)].
Defined.

(** Re-encoding the decoded text takes at most three bytes per input
    byte; the replacement character makes it more than one (see
    [utf8_decode_expands] in [Sanitizer.v]). *)
Theorem utf8_decode_reencode_bound (bs : list Z) :
  Forall is_byte bs ->
  exists out, utf8_encode (utf8_decode bs) = Some out /\ (length out <= 3 * length bs)%nat.
Proof.
  apply (utf8_decode_ind (fun bs d => Forall is_byte bs ->
           exists out, utf8_encode d = Some out /\ (length out <= 3 * length bs)%nat)).
  - intros _. exists []. split; [reflexivity | simpl; lia].
  - intros ch t1 c rest Hstep IH Hb.
    pose proof (utf8_step_scalar ch t1 Hb) as Hc.
    pose proof (utf8_step_rest_bytes ch t1 Hb) as Hr.
    pose proof (utf8_step_len ch t1 Hb) as Hl.
    rewrite Hstep in Hc, Hr, Hl. simpl in Hc, Hr, Hl.
    destruct (IH Hr) as (out & Hout & Hlen).
    destruct (utf8_encode_char_scalar c Hc) as (b & Hb' & Hblen).
    exists (b ++ out). simpl. rewrite Hb', Hout. split; [reflexivity|].
    rewrite length_app. simpl length. lia.
Qed.

Lemma utf8_decode_reencode_bound_witness :
  Forall is_byte [0xFF] /\
  exists out, utf8_encode (utf8_decode [0xFF]) = Some out /\ (length out <= 3 * length [0xFF])%nat.
Proof.
  assert (H : Forall is_byte [0xFF]) by (repeat constructor; unfold is_byte; lia).
  split; [exact H | exact (utf8_decode_reencode_bound _ H)].
Defined.

(** Decoding distributes over a cut in front of an ASCII byte: what
    follows the cut is decoded on its own, whatever precedes it. *)
Theorem utf8_decode_app_ascii (h m : list Z) :
  starts_ascii m = true -> utf8_decode (h ++ m) = utf8_decode h ++ utf8_decode m.
Proof.
  intros Hm. induction h as [[|ch t1] IH] using list_length_ind; [reflexivity|].
  rewrite <- app_comm_cons, !utf8_decode_cons, utf8_step_app by exact Hm.
  pose proof (utf8_step_shorter ch t1) as Hs.
  destruct (utf8_step ch t1) as [c rest]. simpl in *. f_equal. apply IH. simpl. lia.
Qed.

Lemma utf8_decode_app_ascii_witness :
  starts_ascii [0x0A] = true /\ utf8_decode ([0xE2; 0x82] ++ [0x0A]) = [0xFFFD; 0x0A].
Proof.
  split; [reflexivity|]. rewrite (utf8_decode_app_ascii [0xE2; 0x82] [0x0A]); reflexivity.
Defined.

(** ASCII bytes decode to themselves. *)
Lemma utf8_decode_ascii (bs : list Z) :
  Forall (fun b => 0 <= b < 0x80) bs -> utf8_decode bs = bs.
Proof.
  induction bs as [|b bs IH]; intros H; [reflexivity|]. invc H.
  rewrite utf8_decode_cons. unfold utf8_step. case_zcmp; try lia. f_equal. auto.
Qed.

End Utf8.
