(* ===== verification/Base64.v ===== *)
(** The base64 codec the payload travels through: the host's
    [base64.b64encode(code.encode("utf-8")).decode("ascii")]
    (executor.py, line 232) and the guest's
    [base64.b64decode(_os.environ['PY_CODE_B64'])] in the bootstrap
    script (line 87).  Both are CPython's [binascii] loops:
    [b2a_base64] shifts each byte into a 32-bit [unsigned int]
    accumulator and emits every complete group of six bits, then pads;
    [a2b_base64] (non-strict, as [b64decode] calls it) reads one
    character at a time, skips characters outside the alphabet, stops at
    the padding that completes a quad, and reports a dangling quad. *)

From Stdlib Require Import ZArith String List Bool Lia.
From S2P Require Import Prelude.
Import ListNotations.

Module Base64.
Open Scope Z_scope.

(** [table_b2a_base64] *)
Definition table_b2a_base64 : list Z :=
  ⟪"ABCDEFGHIJKLMNOPQRSTUVWXYZabcdefghijklmnopqrstuvwxyz0123456789+/"⟫.

Definition BASE64_PAD : Z := 61.  (* '=' *)

(** [table_b2a_base64[v]] *)
Definition b2a_char (v : Z) : Z := nth (Z.to_nat v) table_b2a_base64 0.

(** [table_a2b_base64[c]]: the index of [c] in the alphabet, [0xff]
    (the table's [-1] as an [unsigned char]) for any other byte. *)
Fixpoint index_of (c : Z) (l : list Z) (i : Z) : Z :=
  match l with
  | [] => 0xff
  | x :: l' => if Z.eqb x c then i else index_of c l' (i + 1)
  end.

Definition a2b_char (c : Z) : Z := index_of c table_b2a_base64 0.

(** ** binascii.b2a_base64 *)

Record b2a_state := {
  leftchar : Z;   (* unsigned int: 32 bits *)
  leftbits : Z
}.

(** [while (leftbits >= 6) { this_ch = (leftchar >> (leftbits-6)) & 0x3f;
    leftbits -= 6; *ascii_data++ = table_b2a_base64[this_ch]; }], with
    fuel: each iteration takes six bits, so [leftbits] iterations are
    more than enough. *)
Fixpoint drain_six (fuel : nat) (lc lb : Z) : list Z * Z :=
  match fuel with
  | O => ([], lb)
  | S f =>
      if 6 <=? lb then
        let this_ch := Z.land (Z.shiftr lc (lb - 6)) 0x3F in
        let '(out, lb') := drain_six f lc (lb - 6) in
        (b2a_char this_ch :: out, lb')
      else ([], lb)
  end.

(** One iteration of the [for] loop over the input bytes. *)
Definition b2a_byte (st : b2a_state) (b : Z) : list Z * b2a_state :=
  let lc := Z.land (Z.lor (Z.shiftl (leftchar st) 8) b) (2 ^ 32 - 1) in
  let lb := leftbits st + 8 in
  let '(out, lb') := drain_six (Z.to_nat lb) lc lb in
  (out, {| leftchar := lc; leftbits := lb' |}).

Fixpoint b2a_loop (st : b2a_state) (bs : list Z) : list Z * b2a_state :=
  match bs with
  | [] => ([], st)
  | b :: bs' =>
      let '(o1, st1) := b2a_byte st b in
      let '(o2, st2) := b2a_loop st1 bs' in
      (o1 ++ o2, st2)
  end.

(** The two or four bits left over, and the padding. *)
Definition b2a_tail (st : b2a_state) : list Z :=
  if leftbits st =? 2 then
    [b2a_char (Z.shiftl (Z.land (leftchar st) 3) 4); BASE64_PAD; BASE64_PAD]
  else if leftbits st =? 4 then
    [b2a_char (Z.shiftl (Z.land (leftchar st) 0xF) 2); BASE64_PAD]
  else [].

(** [binascii.b2a_base64(data, newline=...)] *)
Definition b2a_base64 (bs : list Z) (newline : bool) : list Z :=
  let '(out, st) := b2a_loop {| leftchar := 0; leftbits := 0 |} bs in
  out ++ b2a_tail st ++ (if newline then [10] else []).

(** [base64.b64encode(s)] *)
Definition b64encode (bs : list Z) : list Z := b2a_base64 bs false.

(** ** binascii.a2b_base64, non-strict *)

Record a2b_state := {
  quad_pos : Z;
  a_leftchar : Z;   (* unsigned char *)
  pads : Z;
  bin_data : list Z
}.

Definition a2b_state0 : a2b_state := {| quad_pos := 0; a_leftchar := 0; pads := 0; bin_data := [] |}.

Definition a2b_emit (st : a2b_state) (qp lc : Z) (out : list Z) : a2b_state :=
  {| quad_pos := qp; a_leftchar := lc; pads := 0; bin_data := bin_data st ++ out |}.

(** [*bin_data++ = x]: the store into an [unsigned char]. *)
Definition uchar (x : Z) : Z := Z.land x 0xFF.

(** The [switch (quad_pos)] on a character of the alphabet, value [v]. *)
Definition a2b_quad (st : a2b_state) (v : Z) : a2b_state :=
  let lc := a_leftchar st in
  if quad_pos st =? 0 then a2b_emit st 1 v []
  else if quad_pos st =? 1 then
    a2b_emit st 2 (Z.land v 0x0F) [uchar (Z.lor (Z.shiftl lc 2) (Z.shiftr v 4))]
  else if quad_pos st =? 2 then
    a2b_emit st 3 (Z.land v 0x03) [uchar (Z.lor (Z.shiftl lc 4) (Z.shiftr v 2))]
  else a2b_emit st 0 0 [uchar (Z.lor (Z.shiftl lc 6) v)].

(** The loop over the characters; [true]: the [goto done] of a complete
    pad sequence. *)
Fixpoint a2b_loop (st : a2b_state) (cs : list Z) : a2b_state * bool :=
  match cs with
  | [] => (st, false)
  | c :: cs' =>
      if c =? BASE64_PAD then
        (* [if (quad_pos >= 2 && quad_pos + ++pads >= 4) goto done;] *)
        if 2 <=? quad_pos st then
          let st' := {| quad_pos := quad_pos st; a_leftchar := a_leftchar st;
                        pads := pads st + 1; bin_data := bin_data st |} in
          if 4 <=? quad_pos st + pads st' then (st', true) else a2b_loop st' cs'
        else a2b_loop st cs'
      else
        let v := a2b_char c in
        if 64 <=? v then a2b_loop st cs'
        else a2b_loop (a2b_quad st v) cs'
  end.

(** [binascii.Error]s of a non-strict decoding. *)
Inductive a2b_error :=
  | ExcessDataCharacter   (* "number of data characters ... cannot be 1 more than a multiple of 4" *)
  | IncorrectPadding.

(** After the loop: [done:] returns the bytes, a dangling quad is an
    error. *)
Definition a2b_finish (r : a2b_state * bool) : a2b_error + list Z :=
  let '(st, done) := r in
  if done then inr (bin_data st)
  else if quad_pos st =? 0 then inr (bin_data st)
  else if quad_pos st =? 1 then inl ExcessDataCharacter
  else inl IncorrectPadding.

(** [binascii.a2b_base64(s, strict_mode=False)] *)
Definition a2b_base64 (cs : list Z) : a2b_error + list Z := a2b_finish (a2b_loop a2b_state0 cs).

(** [base64.b64decode(s)] on ASCII input: [validate=False]. *)
Definition b64decode (cs : list Z) : a2b_error + list Z := a2b_base64 cs.

(** The three facts about each of the 64 digits, checked by evaluation. *)
Definition digit_ok (v : Z) : bool :=
  (a2b_char (b2a_char v) =? v) && negb (b2a_char v =? BASE64_PAD) && (b2a_char v <? 128) && (0 <=? b2a_char v).

(** The four digits of three bytes. *)
Definition enc3 (a b c : Z) : list Z :=
  [b2a_char (a / 4); b2a_char (a mod 4 * 16 + b / 16);
   b2a_char (b mod 16 * 4 + c / 64); b2a_char (c mod 64)].

(** The reference encoding of RFC 4648, section 4: every group of three
    bytes is four digits, a last group of one or two bytes is padded to
    four characters with [=]. *)
Fixpoint rfc4648 (bs : list Z) : list Z :=
  match bs with
  | [] => []
  | [a] => [b2a_char (a / 4); b2a_char (a mod 4 * 16); BASE64_PAD; BASE64_PAD]
  | [a; b] => [b2a_char (a / 4); b2a_char (a mod 4 * 16 + b / 16); b2a_char (b mod 16 * 4); BASE64_PAD]
  | a :: b :: c :: rest => enc3 a b c ++ rfc4648 rest
  end.

Example b64encode_hello : b64encode ⟪"print(1)"⟫ = ⟪"cHJpbnQoMSk="⟫.
Proof. reflexivity. Qed.

Example b64decode_skips_newlines : b64decode ⟪"cHJp
bnQoMSk="⟫ = inr ⟪"print(1)"⟫.
Proof. reflexivity. Qed.

Example b64decode_dangling : b64decode ⟪"cHJpb"⟫ = inl ExcessDataCharacter.
Proof. reflexivity. Qed.

(** ** The alphabet *)

Lemma all_digits_ok : forallb digit_ok (map Z.of_nat (seq 0 64)) = true.
Proof. vm_compute. reflexivity. Qed.

Lemma digit_ok_spec (v : Z) : 0 <= v < 64 -> digit_ok v = true.
Proof.
  intros Hv. pose proof all_digits_ok as H. rewrite forallb_forall in H. apply H.
  apply in_map_iff. exists (Z.to_nat v). split; [lia|]. apply in_seq. lia.
Qed.

Lemma digit_facts (v : Z) :
  0 <= v < 64 -> a2b_char (b2a_char v) = v /\ b2a_char v <> BASE64_PAD /\ 0 <= b2a_char v < 128.
Proof.
  intros Hv. pose proof (digit_ok_spec v Hv) as H. unfold digit_ok in H.
  repeat rewrite andb_true_iff in H. destruct H as [[[H1 H2] H3] H4].
  rewrite Z.eqb_eq in H1. rewrite negb_true_iff, Z.eqb_neq in H2.
  rewrite Z.ltb_lt in H3. rewrite Z.leb_le in H4. auto.
Qed.

(** Decoding one digit of the alphabet. *)
Lemma a2b_loop_digit (st : a2b_state) (v : Z) (cs : list Z) :
  0 <= v < 64 -> a2b_loop st (b2a_char v :: cs) = a2b_loop (a2b_quad st v) cs.
Proof.
  intros Hv. destruct (digit_facts v Hv) as (Ha & Hp & _). simpl.
  rewrite (proj2 (Z.eqb_neq _ _) Hp), Ha.
  replace (64 <=? v) with false by (symmetry; apply Z.leb_gt; lia). reflexivity.
Qed.

Lemma uchar_small (x : Z) : 0 <= x < 256 -> uchar x = x.
Proof. intros Hx. unfold uchar. change 0xFF with (Z.ones 8). rewrite Z.land_ones by lia. now apply Z.mod_small. Qed.

(** ** The encoder, one byte at a time *)

(** The accumulator after a byte is shifted in, modulo [2^(k+8)]. *)
Lemma b2a_acc (st : b2a_state) (b p k : Z) :
  0 <= k <= 4 -> 0 <= b < 256 -> leftchar st mod 2 ^ k = p ->
  Z.land (Z.lor (Z.shiftl (leftchar st) 8) b) (2 ^ 32 - 1) mod 2 ^ (k + 8) = p * 256 + b.
Proof. intros Hk Hb Hp. rewrite shift_in_byte by lia. now rewrite Hp. Qed.

Lemma b2a_byte_0 (st : b2a_state) (a : Z) :
  leftbits st = 0 -> 0 <= a < 256 ->
  exists lc, b2a_byte st a = ([b2a_char (a / 4)], {| leftchar := lc; leftbits := 2 |}) /\
             lc mod 4 = a mod 4.
Proof.
  intros Hl Ha. pose proof (b2a_acc st a 0 0) as Hm.
  rewrite Z.pow_0_r, Z.mod_1_r in Hm. specialize (Hm ltac:(lia) Ha eq_refl).
  unfold b2a_byte. rewrite Hl. remember (Z.land _ (2 ^ 32 - 1)) as lc eqn:Elc. clear Elc.
  destruct (take_six lc (a) 8 ltac:(lia) Hm) as [H1 H2]. simpl in H1, H2 |- *.
  rewrite H1. exists lc. split; [reflexivity | exact H2].
Qed.

Lemma b2a_byte_2 (st : b2a_state) (b p : Z) :
  leftbits st = 2 -> leftchar st mod 4 = p -> 0 <= b < 256 ->
  exists lc, b2a_byte st b = ([b2a_char ((p * 256 + b) / 16)], {| leftchar := lc; leftbits := 4 |}) /\
             lc mod 16 = (p * 256 + b) mod 16.
Proof.
  intros Hl Hp Hb. pose proof (b2a_acc st b p 2 ltac:(lia) Hb Hp) as Hm.
  unfold b2a_byte. rewrite Hl. remember (Z.land _ (2 ^ 32 - 1)) as lc eqn:Elc. clear Elc.
  destruct (take_six lc _ (2 + 8) ltac:(lia) Hm) as [H1 H2]. simpl in H1, H2 |- *.
  rewrite H1. exists lc. split; [reflexivity | exact H2].
Qed.

Lemma b2a_byte_4 (st : b2a_state) (c p : Z) :
  leftbits st = 4 -> leftchar st mod 16 = p -> 0 <= c < 256 ->
  exists lc, b2a_byte st c =
    ([b2a_char ((p * 256 + c) / 64); b2a_char ((p * 256 + c) mod 64)], {| leftchar := lc; leftbits := 0 |}).
Proof.
  intros Hl Hp Hc. pose proof (b2a_acc st c p 4 ltac:(lia) Hc Hp) as Hm.
  unfold b2a_byte. rewrite Hl. remember (Z.land _ (2 ^ 32 - 1)) as lc eqn:Elc. clear Elc.
  destruct (take_six lc _ (4 + 8) ltac:(lia) Hm) as [H1 H2].
  destruct (take_six lc _ 6 ltac:(lia) H2) as [H3 _].
  simpl in H1, H3 |- *. rewrite H1, H3, Z.div_1_r. exists lc. reflexivity.
Qed.

(** ** Groups of three bytes *)

Lemma b2a_loop_group (st : b2a_state) (a b c : Z) (rest : list Z) :
  leftbits st = 0 -> is_byte a -> is_byte b -> is_byte c ->
  exists st', leftbits st' = 0 /\
    b2a_loop st (a :: b :: c :: rest) =
    (enc3 a b c ++ fst (b2a_loop st' rest), snd (b2a_loop st' rest)).
Proof.
  unfold is_byte. intros Hl Ha Hb Hc.
  destruct (b2a_byte_0 st a Hl Ha) as [lc1 [E1 H1]].
  destruct (b2a_byte_2 {| leftchar := lc1; leftbits := 2 |} b (a mod 4) eq_refl H1 Hb) as [lc2 [E2 H2]].
  destruct (b2a_byte_4 {| leftchar := lc2; leftbits := 4 |} c _ eq_refl H2 Hc) as [lc3 E3].
  exists {| leftchar := lc3; leftbits := 0 |}. split; [reflexivity|].
  simpl. rewrite E1, E2, E3. destruct (b2a_loop _ rest) as [o st'']. simpl.
  assert (D2 : (a mod 4 * 256 + b) / 16 = a mod 4 * 16 + b / 16) by zlia.
  assert (D3 : ((a mod 4 * 256 + b) mod 16 * 256 + c) / 64 = b mod 16 * 4 + c / 64) by zlia.
  assert (D4 : ((a mod 4 * 256 + b) mod 16 * 256 + c) mod 64 = c mod 64) by zlia.
  now rewrite D2, D3, D4.
Qed.

(** The stores of the decoder: the high bits of one digit, the low bits
    of the next. *)
Lemma uchar_join (hi lo k : Z) :
  0 <= k -> 0 <= lo < 2 ^ k -> 0 <= hi * 2 ^ k + lo < 256 ->
  uchar (Z.lor (Z.shiftl hi k) lo) = hi * 2 ^ k + lo.
Proof. intros Hk Hlo Hr. rewrite Z.shiftl_mul_pow2, lor_shifted_add by lia. now apply uchar_small. Qed.



Lemma a2b_quad_0 (st : a2b_state) (v : Z) : quad_pos st = 0 -> a2b_quad st v = a2b_emit st 1 v [].
Proof. intros H. unfold a2b_quad. now rewrite H. Qed.

Lemma a2b_quad_1 (st : a2b_state) (v : Z) : quad_pos st = 1 ->
  a2b_quad st v = a2b_emit st 2 (Z.land v 0x0F) [uchar (Z.lor (Z.shiftl (a_leftchar st) 2) (Z.shiftr v 4))].
Proof. intros H. unfold a2b_quad. now rewrite H. Qed.

Lemma a2b_quad_2 (st : a2b_state) (v : Z) : quad_pos st = 2 ->
  a2b_quad st v = a2b_emit st 3 (Z.land v 0x03) [uchar (Z.lor (Z.shiftl (a_leftchar st) 4) (Z.shiftr v 2))].
Proof. intros H. unfold a2b_quad. now rewrite H. Qed.

Lemma a2b_quad_3 (st : a2b_state) (v : Z) : quad_pos st = 3 ->
  a2b_quad st v = a2b_emit st 0 0 [uchar (Z.lor (Z.shiftl (a_leftchar st) 6) v)].
Proof. intros H. unfold a2b_quad. now rewrite H. Qed.

(** Decoding the four digits of three bytes gives the bytes back. *)
Lemma a2b_loop_group (dst : a2b_state) (a b c : Z) (cs : list Z) :
  quad_pos dst = 0 -> is_byte a -> is_byte b -> is_byte c ->
  a2b_loop dst (enc3 a b c ++ cs) =
  a2b_loop {| quad_pos := 0; a_leftchar := 0; pads := 0; bin_data := bin_data dst ++ [a; b; c] |} cs.
Proof.
  unfold is_byte. intros Hq Ha Hb Hc. unfold enc3. simpl app.
  rewrite a2b_loop_digit, a2b_quad_0 by zlia.
  rewrite a2b_loop_digit, a2b_quad_1 by (reflexivity || zlia).
  rewrite a2b_loop_digit, a2b_quad_2 by (reflexivity || zlia).
  rewrite a2b_loop_digit, a2b_quad_3 by (reflexivity || zlia).
  unfold a2b_emit. cbn [bin_data a_leftchar]. rewrite <- !app_assoc.
  change 0x0F with (Z.ones 4). change 0x03 with (Z.ones 2). rewrite !Z.land_ones by lia.
  rewrite !Z.shiftr_div_pow2 by lia.
  rewrite (uchar_join _ _ 2), (uchar_join _ _ 4), (uchar_join _ _ 6) by zside.
  assert (D1 : a / 4 * 2 ^ 2 + (a mod 4 * 16 + b / 16) / 2 ^ 4 = a) by zside.
  assert (D2 : (a mod 4 * 16 + b / 16) mod 2 ^ 4 * 2 ^ 4 + (b mod 16 * 4 + c / 64) / 2 ^ 2 = b) by zside.
  assert (D3 : (b mod 16 * 4 + c / 64) mod 2 ^ 2 * 2 ^ 6 + c mod 64 = c) by zside.
  now rewrite D1, D2, D3.
Qed.

(** ** The last one or two bytes *)

Lemma a2b_finish_tail1 (dst : a2b_state) (a : Z) :
  quad_pos dst = 0 -> is_byte a ->
  a2b_finish (a2b_loop dst [b2a_char (a / 4); b2a_char (a mod 4 * 16); BASE64_PAD; BASE64_PAD]) =
  inr (bin_data dst ++ [a]).
Proof.
  unfold is_byte. intros Hq Ha.
  rewrite a2b_loop_digit, a2b_quad_0 by zlia.
  rewrite a2b_loop_digit, a2b_quad_1 by (reflexivity || zlia).
  unfold a2b_emit. cbn [bin_data a_leftchar]. rewrite Z.shiftr_div_pow2, (uchar_join _ _ 2) by zside.
  replace (a / 4 * 2 ^ 2 + a mod 4 * 16 / 2 ^ 4) with a by zside. rewrite app_nil_r. reflexivity.
Qed.

Lemma a2b_finish_tail2 (dst : a2b_state) (a b : Z) :
  quad_pos dst = 0 -> is_byte a -> is_byte b ->
  a2b_finish (a2b_loop dst [b2a_char (a / 4); b2a_char (a mod 4 * 16 + b / 16);
                            b2a_char (b mod 16 * 4); BASE64_PAD]) =
  inr (bin_data dst ++ [a; b]).
Proof.
  unfold is_byte. intros Hq Ha Hb.
  rewrite a2b_loop_digit, a2b_quad_0 by zlia.
  rewrite a2b_loop_digit, a2b_quad_1 by (reflexivity || zlia).
  rewrite a2b_loop_digit, a2b_quad_2 by (reflexivity || zlia).
  unfold a2b_emit. cbn [bin_data a_leftchar]. rewrite <- !app_assoc.
  change 0x0F with (Z.ones 4). rewrite !Z.land_ones by lia. rewrite !Z.shiftr_div_pow2 by lia.
  rewrite (uchar_join _ _ 2), (uchar_join _ _ 4) by zside.
  replace (a / 4 * 2 ^ 2 + (a mod 4 * 16 + b / 16) / 2 ^ 4) with a by zside.
  replace ((a mod 4 * 16 + b / 16) mod 2 ^ 4 * 2 ^ 4 + b mod 16 * 4 / 2 ^ 2) with b by zside.
  rewrite app_nil_l. reflexivity.
Qed.

(** The tail after a whole number of groups is empty. *)
Lemma b2a_tail_0 (st : b2a_state) : leftbits st = 0 -> b2a_tail st = [].
Proof. intros H. unfold b2a_tail. now rewrite H. Qed.

Lemma b2a_tail_2 (st : b2a_state) : leftbits st = 2 ->
  b2a_tail st = [b2a_char (Z.shiftl (Z.land (leftchar st) 3) 4); BASE64_PAD; BASE64_PAD].
Proof. intros H. unfold b2a_tail. now rewrite H. Qed.

Lemma b2a_tail_4 (st : b2a_state) : leftbits st = 4 ->
  b2a_tail st = [b2a_char (Z.shiftl (Z.land (leftchar st) 0xF) 2); BASE64_PAD].
Proof. intros H. unfold b2a_tail. now rewrite H. Qed.

Lemma land_low (x m k : Z) : 0 <= k -> x mod 2 ^ k = m -> Z.land x (Z.ones k) = m.
Proof. intros Hk Hm. now rewrite Z.land_ones. Qed.

(** The accumulator loop and its tail, from a group boundary, write the
    reference encoding. *)
Lemma b2a_loop_rfc4648 (bs : list Z) :
  forall st, leftbits st = 0 -> Forall is_byte bs ->
  fst (b2a_loop st bs) ++ b2a_tail (snd (b2a_loop st bs)) = rfc4648 bs.
Proof.
  induction bs as [bs IH] using list_length_ind. intros st Hl Hbs.
  destruct bs as [|a [|b [|c rest]]].
  - simpl. now rewrite b2a_tail_0 by exact Hl.
  - inversion Hbs as [|? ? Ha _]; subst.
    destruct (b2a_byte_0 st a Hl Ha) as [lc1 [E1 H1]]. cbn [b2a_loop]. rewrite E1. cbn [fst snd app].
    rewrite b2a_tail_2 by reflexivity. cbn [leftchar]. change 3 with (Z.ones 2).
    rewrite (land_low _ _ 2 ltac:(lia) H1), Z.shiftl_mul_pow2 by lia. reflexivity.
  - inversion Hbs as [|? ? Ha Hbs']; inversion Hbs' as [|? ? Hb _]; subst.
    destruct (b2a_byte_0 st a Hl Ha) as [lc1 [E1 H1]].
    destruct (b2a_byte_2 {| leftchar := lc1; leftbits := 2 |} b (a mod 4) eq_refl H1 Hb) as [lc2 [E2 H2]].
    cbn [b2a_loop]. rewrite E1. cbn [b2a_loop]. rewrite E2. cbn [fst snd app].
    rewrite b2a_tail_4 by reflexivity. cbn [leftchar]. change 0xF with (Z.ones 4).
    rewrite (land_low _ _ 4 ltac:(lia) H2), Z.shiftl_mul_pow2 by lia.
    replace ((a mod 4 * 256 + b) / 16) with (a mod 4 * 16 + b / 16) by (unfold is_byte in *; zlia).
    replace ((a mod 4 * 256 + b) mod 16 * 2 ^ 2) with (b mod 16 * 4) by (unfold is_byte in *; zside).
    reflexivity.
  - inversion Hbs as [|? ? Ha Hbs1]; inversion Hbs1 as [|? ? Hb Hbs2];
      inversion Hbs2 as [|? ? Hc Hrest]; subst.
    destruct (b2a_loop_group st a b c rest Hl Ha Hb Hc) as (st' & Hl' & ->). cbn [fst snd].
    rewrite <- app_assoc, IH by (simpl; lia || assumption). reflexivity.
Qed.

Lemma b64encode_rfc4648_eq (bs : list Z) : Forall is_byte bs -> b64encode bs = rfc4648 bs.
Proof.
  intros Hbs. unfold b64encode, b2a_base64.
  pose proof (b2a_loop_rfc4648 bs {| leftchar := 0; leftbits := 0 |} eq_refl Hbs) as R.
  destruct (b2a_loop _ bs) as [o st]. now rewrite app_nil_r.
Qed.

(** Decoding the reference encoding from a quad boundary appends the
    bytes. *)
Lemma a2b_rfc4648 (bs : list Z) :
  forall dst, quad_pos dst = 0 -> Forall is_byte bs ->
  a2b_finish (a2b_loop dst (rfc4648 bs)) = inr (bin_data dst ++ bs).
Proof.
  induction bs as [bs IH] using list_length_ind. intros dst Hq Hbs.
  destruct bs as [|a [|b [|c rest]]].
  - simpl. now rewrite Hq, app_nil_r.
  - inversion Hbs; subst. now apply a2b_finish_tail1.
  - inversion Hbs as [|? ? Ha Hbs']; inversion Hbs'; subst. now apply a2b_finish_tail2.
  - inversion Hbs as [|? ? Ha Hbs1]; inversion Hbs1 as [|? ? Hb Hbs2];
      inversion Hbs2 as [|? ? Hc Hrest]; subst.
    cbn [rfc4648]. rewrite a2b_loop_group by assumption.
    rewrite IH by (simpl; lia || reflexivity || assumption). simpl. now rewrite <- app_assoc.
Qed.

Lemma rfc4648_length (bs : list Z) : length (rfc4648 bs) = (4 * ((length bs + 2) / 3))%nat.
Proof.
  induction bs as [bs IH] using list_length_ind.
  destruct bs as [|a [|b [|c rest]]]; try reflexivity.
  cbn [rfc4648]. rewrite length_app, IH by (simpl; lia).
  change (length (enc3 a b c)) with 4%nat. cbn [length].
  replace (S (S (S (length rest))) + 2)%nat with ((length rest + 2) + 1 * 3)%nat by lia.
  rewrite Nat.div_add by lia. lia.
Qed.

(** Every character the encoder can write is ASCII. *)
Lemma b2a_char_ascii (v : Z) : 0 <= b2a_char v < 128.
Proof.
  unfold b2a_char. destruct (Nat.lt_ge_cases (Z.to_nat v) (length table_b2a_base64)) as [Hl|Hl].
  - assert (Hall : Forall (fun c => 0 <= c < 128) table_b2a_base64) by (repeat constructor; lia).
    rewrite Forall_forall in Hall. apply Hall, nth_In, Hl.
  - rewrite nth_overflow by exact Hl. lia.
Qed.

Lemma drain_six_ascii (fuel : nat) (lc lb : Z) : Forall (fun c => 0 <= c < 128) (fst (drain_six fuel lc lb)).
Proof.
  revert lb. induction fuel as [|f IH]; intros lb; simpl; [constructor|].
  destruct (6 <=? lb); [|constructor]. destruct (drain_six f lc (lb - 6)) as [o lb'] eqn:E.
  simpl. constructor; [apply b2a_char_ascii|]. specialize (IH (lb - 6)). now rewrite E in IH.
Qed.

Lemma b2a_loop_ascii (bs : list Z) (st : b2a_state) : Forall (fun c => 0 <= c < 128) (fst (b2a_loop st bs)).
Proof.
  revert st. induction bs as [|b bs IH]; intros st; simpl; [constructor|].
  unfold b2a_byte. destruct (drain_six _ _ _) as [o1 lb] eqn:E1.
  destruct (b2a_loop _ bs) as [o2 st2] eqn:E2. simpl. apply Forall_app. split.
  - pose proof (drain_six_ascii (Z.to_nat (leftbits st + 8)) (Z.land (Z.lor (Z.shiftl (leftchar st) 8) b) (2 ^ 32 - 1)) (leftbits st + 8)) as H.
    now rewrite E1 in H.
  - match type of E2 with b2a_loop ?s _ = _ => specialize (IH s) end. now rewrite E2 in IH.
Qed.

Lemma b2a_tail_ascii (st : b2a_state) : Forall (fun c => 0 <= c < 128) (b2a_tail st).
Proof.
  unfold b2a_tail, BASE64_PAD.
  destruct (_ =? 2); [|destruct (_ =? 4)]; repeat constructor; try lia; apply b2a_char_ascii.
Qed.

(** The codec's round trip, for the files that compose it. *)
Lemma b64_roundtrip (bs : list Z) : Forall is_byte bs -> b64decode (b64encode bs) = inr bs.
Proof.
  intros Hbs. rewrite b64encode_rfc4648_eq by exact Hbs.
  exact (a2b_rfc4648 bs a2b_state0 eq_refl Hbs).
Qed.

Lemma b64encode_ascii (bs : list Z) : Forall (fun c => 0 <= c < 128) (b64encode bs).
Proof.
  unfold b64encode, b2a_base64. pose proof (b2a_loop_ascii bs {| leftchar := 0; leftbits := 0 |}) as A.
  destruct (b2a_loop _ bs) as [o st]. rewrite app_nil_r.
  apply Forall_app. split; [exact A | apply b2a_tail_ascii].
Qed.

(** ** Theorems *)

(** C12: The guest's [base64.b64decode] gives back exactly the bytes the
    host's [base64.b64encode] encoded. *)
Theorem b64decode_b64encode (bs : list Z) :
  Forall is_byte bs -> b64decode (b64encode bs) = inr bs.
Proof. apply b64_roundtrip. Qed.

(** C19: CPython's [b2a_base64], with its 32-bit accumulator drained six
    bits at a time, computes the reference encoding of RFC 4648 on every
    byte string. *)
Theorem b64encode_rfc4648 (bs : list Z) : Forall is_byte bs -> b64encode bs = rfc4648 bs.
Proof. apply b64encode_rfc4648_eq. Qed.

(** [b64encode] writes four ASCII characters per started group of
    three bytes, so the host's [.decode("ascii")] never raises. *)
Theorem b64encode_shape (bs : list Z) :
  Forall is_byte bs ->
  length (b64encode bs) = (4 * ((length bs + 2) / 3))%nat /\
  Forall (fun c => 0 <= c < 128) (b64encode bs).
Proof.
  intros Hbs. split; [|apply b64encode_ascii].
  rewrite b64encode_rfc4648_eq by exact Hbs. apply rfc4648_length.
Qed.

Lemma b64decode_b64encode_witness :
  Forall is_byte ⟪"print(1)"⟫ /\ b64decode (b64encode ⟪"print(1)"⟫) = inr ⟪"print(1)"⟫.
Proof.
  assert (H : Forall is_byte ⟪"print(1)"⟫) by (repeat constructor; unfold is_byte; lia).
  split; [exact H | exact (b64decode_b64encode _ H)].
Defined.

Lemma b64encode_shape_witness :
  Forall is_byte [0; 255; 128; 7] /\
  length (b64encode [0; 255; 128; 7]) = (4 * ((length [0; 255; 128; 7] + 2) / 3))%nat /\
  Forall (fun c => 0 <= c < 128) (b64encode [0; 255; 128; 7]).
Proof.
  assert (H : Forall is_byte [0; 255; 128; 7]) by (repeat constructor; unfold is_byte; lia).
  split; [exact H | exact (b64encode_shape _ H)].
Defined.

Lemma b64encode_rfc4648_witness :
  Forall is_byte [255; 0; 254; 1] /\ b64encode [255; 0; 254; 1] = rfc4648 [255; 0; 254; 1].
Proof.
  assert (H : Forall is_byte [255; 0; 254; 1]) by (repeat constructor; unfold is_byte; lia).
  split; [exact H | exact (b64encode_rfc4648 _ H)].
Defined.

End Base64.
