(* ===== verification/Sanitizer.v ===== *)
(** The output sanitizer: [_truncate] of [executor.py] (lines 67-72),
    applied to the captured stdout and stderr at lines 318-319.  A stream
    within [max_bytes] is decoded whole; a longer one keeps its first
    [max(0, max_bytes - 32)] bytes, gets the 15-byte marker
    [b"\n...[truncated]"] appended, and is decoded with the same
    replacement policy ([Utf8.utf8_decode]). *)

From Stdlib Require Import ZArith Lia String Ascii Bool List.
From S2P Require Import Prelude Utf8.
Import ListNotations.
Open Scope Z_scope.

Module Sanitizer.
Import Utf8.

(** [suffix = b"\n...[truncated]"] *)
Definition TRUNCATION_SUFFIX : list Z := 0x0A :: ⟪"...[truncated]"⟫.

(** [_truncate(s, max_bytes)] *)
Definition _truncate (s : list Z) (max_bytes : Z) : list Z :=
  if Z.of_nat (length s) <=? max_bytes then utf8_decode s
  else
    let head := firstn (Z.to_nat (Z.max 0 (max_bytes - 32))) s in
    utf8_decode (head ++ TRUNCATION_SUFFIX).

Example _truncate_hello : _truncate ⟪"hello"⟫ 1000000 = ⟪"hello"⟫.
Proof. reflexivity. Qed.

Example _truncate_cut : _truncate (repeat 0x61 40) 34 = [0x61; 0x61] ++ TRUNCATION_SUFFIX.
Proof. reflexivity. Qed.

(** ** Lemmas *)

Lemma TRUNCATION_SUFFIX_length : length TRUNCATION_SUFFIX = 15%nat.
Proof. reflexivity. Qed.

Lemma TRUNCATION_SUFFIX_ascii : Forall (fun b => 0 <= b < 0x80) TRUNCATION_SUFFIX.
Proof. repeat constructor; lia. Qed.

Lemma TRUNCATION_SUFFIX_bytes : Forall is_byte TRUNCATION_SUFFIX.
Proof. repeat constructor; unfold is_byte; lia. Qed.

(** The bytes [_truncate] hands to the decoder are bytes. *)
Lemma truncated_bytes (s : list Z) n :
  Forall is_byte s -> Forall is_byte (firstn n s ++ TRUNCATION_SUFFIX).
Proof. intros Hs. apply Forall_app. split; [now apply Forall_firstn | exact TRUNCATION_SUFFIX_bytes]. Qed.

Lemma utf8_decode_TRUNCATION_SUFFIX : utf8_decode TRUNCATION_SUFFIX = TRUNCATION_SUFFIX.
Proof. apply utf8_decode_ascii, TRUNCATION_SUFFIX_ascii. Qed.

(** The truncated branch: the decoded head, then the marker verbatim,
    whatever the head's last bytes are. *)
Lemma decode_head_suffix (head : list Z) :
  utf8_decode (head ++ TRUNCATION_SUFFIX) = utf8_decode head ++ TRUNCATION_SUFFIX.
Proof.
  rewrite utf8_decode_app_ascii by reflexivity.
  now rewrite utf8_decode_TRUNCATION_SUFFIX.
Qed.

(** The two branches of [_truncate]. *)
Lemma truncate_short (s : list Z) (max_bytes : Z) :
  Z.of_nat (length s) <= max_bytes -> _truncate s max_bytes = utf8_decode s.
Proof. intros H. unfold _truncate. case_zcmp; [reflexivity | lia]. Qed.

Lemma truncate_long (s : list Z) (max_bytes : Z) :
  max_bytes < Z.of_nat (length s) ->
  _truncate s max_bytes =
    utf8_decode (firstn (Z.to_nat (Z.max 0 (max_bytes - 32))) s) ++ TRUNCATION_SUFFIX.
Proof. intros H. unfold _truncate. case_zcmp; [lia|]. apply decode_head_suffix. Qed.

(** ** Theorems *)

(** C2: a stream within the cap is decoded whole, with no marker. *)
Theorem _truncate_within_cap (s : list Z) (max_bytes : Z) :
  Z.of_nat (length s) <= max_bytes -> _truncate s max_bytes = utf8_decode s.
Proof. apply truncate_short. Qed.

Lemma _truncate_within_cap_witness :
  Z.of_nat (length [0x68; 0x69; 0x0A]) <= 1000000 /\
  _truncate [0x68; 0x69; 0x0A] 1000000 = [0x68; 0x69; 0x0A].
Proof. split; [simpl; lia | rewrite _truncate_within_cap; [reflexivity | simpl; lia]]. Defined.

(** C1: a stream over the cap ends with the exact marker, preceded by the
    decoding of its first [max(0, max_bytes - 32)] bytes: the marker is
    never cut and never merged with a sequence the cut split. *)
Theorem _truncate_over_cap (s : list Z) (max_bytes : Z) :
  max_bytes < Z.of_nat (length s) ->
  _truncate s max_bytes =
    utf8_decode (firstn (Z.to_nat (Z.max 0 (max_bytes - 32))) s) ++ TRUNCATION_SUFFIX.
Proof. apply truncate_long. Qed.

Lemma _truncate_over_cap_witness :
  34 < Z.of_nat (length ([0x61; 0x61; 0xE2; 0x82; 0xAC] ++ repeat 0x61 35)) /\
  _truncate ([0x61; 0x61; 0xE2; 0x82; 0xAC] ++ repeat 0x61 35) 34 =
    [0x61; 0x61] ++ TRUNCATION_SUFFIX.
Proof.
  split; [simpl; lia|].
  rewrite _truncate_over_cap by (simpl; lia). reflexivity.
Defined.

(** C26: once the cap is at least the marker's 15 bytes, the sanitized
    stream has at most [max_bytes] characters. *)
Theorem _truncate_length_bound (s : list Z) (max_bytes : Z) :
  15 <= max_bytes -> Z.of_nat (length (_truncate s max_bytes)) <= max_bytes.
Proof.
  intros Hm. destruct (Z.le_gt_cases (Z.of_nat (length s)) max_bytes) as [H|H].
  - rewrite truncate_short by exact H.
    pose proof (utf8_decode_length s). lia.
  - rewrite truncate_long by lia. rewrite length_app, TRUNCATION_SUFFIX_length.
    pose proof (utf8_decode_length (firstn (Z.to_nat (Z.max 0 (max_bytes - 32))) s)).
    pose proof (firstn_length_le_n (Z.to_nat (Z.max 0 (max_bytes - 32))) s). lia.
Qed.

Lemma _truncate_length_bound_witness :
  15 <= 20 /\ Z.of_nat (length (_truncate (repeat 0xFF 100) 20)) <= 20.
Proof. split; [lia | apply _truncate_length_bound; lia]. Defined.

(** The sanitized stream is valid text: every character is a
    Unicode scalar value. *)
Theorem _truncate_valid (s : list Z) (max_bytes : Z) :
  Forall is_byte s -> Forall is_scalar (_truncate s max_bytes).
Proof.
  intros Hs. unfold _truncate. case_zcmp; apply utf8_decode_valid;
    [exact Hs | now apply truncated_bytes].
Qed.

Lemma _truncate_valid_witness :
  Forall is_byte [0xC3; 0x28] /\ Forall is_scalar (_truncate [0xC3; 0x28] 1).
Proof.
  assert (H : Forall is_byte [0xC3; 0x28]) by (repeat constructor; unfold is_byte; lia).
  split; [exact H | exact (_truncate_valid _ 1 H)].
Defined.

(** C32: the spec asks for the first [cap - marker length] bytes; the code
    keeps [cap - 32] bytes for a 15-byte marker, so an ASCII stream over
    a cap of at least 32 comes out 17 characters short of the cap. *)
Theorem _truncate_ascii_over_cap_length (s : list Z) (max_bytes : Z) :
  Forall (fun b => 0 <= b < 0x80) s -> 32 <= max_bytes < Z.of_nat (length s) ->
  Z.of_nat (length (_truncate s max_bytes)) = max_bytes - 17.
Proof.
  intros Ha Hm. rewrite truncate_long by lia.
  rewrite utf8_decode_ascii by now apply Forall_firstn.
  rewrite length_app, TRUNCATION_SUFFIX_length, length_firstn. lia.
Qed.

Lemma _truncate_ascii_over_cap_length_witness :
  Forall (fun b => 0 <= b < 0x80) (repeat 0x61 100) /\ 32 <= 50 < Z.of_nat (length (repeat 0x61 100)) /\
  Z.of_nat (length (_truncate (repeat 0x61 100) 50)) = 33.
Proof.
  assert (H : Forall (fun b => 0 <= b < 0x80) (repeat 0x61 100)) by (apply Forall_forall; intros x Hx; apply repeat_spec in Hx; lia).
  split; [exact H | split; [simpl; lia|]].
  rewrite (_truncate_ascii_over_cap_length _ 50 H) by (simpl; lia). reflexivity.
Defined.

(** C33: below the marker's length the cap is not honoured: any stream
    longer than the cap, including an empty one when the cap is negative,
    becomes the 15-byte marker alone. *)
Theorem _truncate_small_cap (s : list Z) (max_bytes : Z) :
  max_bytes < 15 -> max_bytes < Z.of_nat (length s) ->
  _truncate s max_bytes = TRUNCATION_SUFFIX.
Proof.
  intros H1 H2. rewrite truncate_long by exact H2.
  replace (Z.to_nat (Z.max 0 (max_bytes - 32))) with 0%nat by lia. reflexivity.
Qed.

Lemma _truncate_small_cap_witness :
  -1 < 15 /\ -1 < Z.of_nat (length (@nil Z)) /\ _truncate [] (-1) = TRUNCATION_SUFFIX.
Proof. split; [lia | split; [simpl; lia | apply _truncate_small_cap; simpl; lia]]. Defined.

(** The spec bounds the output's length in bytes by the cap; the
    replacement character takes three bytes in UTF-8, so re-encoding the
    sanitized text can triple it: two invalid bytes under a cap of two
    come out as six bytes. *)
Theorem _truncate_reencoded_exceeds_cap :
  utf8_encode (_truncate [0xFF; 0xFF] 2) = Some [0xEF; 0xBF; 0xBD; 0xEF; 0xBF; 0xBD].
Proof. reflexivity. Qed.

(** What does hold in bytes: re-encoding the sanitized text takes at
    most three bytes per byte of the cap. *)
Theorem _truncate_reencode_bound (s : list Z) (max_bytes : Z) :
  15 <= max_bytes -> Forall is_byte s ->
  exists out, utf8_encode (_truncate s max_bytes) = Some out /\
              Z.of_nat (length out) <= 3 * max_bytes.
Proof.
  intros Hm Hs. destruct (Z.le_gt_cases (Z.of_nat (length s)) max_bytes) as [H|H].
  - rewrite truncate_short by exact H.
    destruct (utf8_decode_reencode_bound s Hs) as (out & Hout & Hlen).
    exists out. split; [exact Hout | lia].
  - unfold _truncate. case_zcmp; [lia|].
    set (n := Z.to_nat (Z.max 0 (max_bytes - 32))).
    destruct (utf8_decode_reencode_bound _ (truncated_bytes s n Hs)) as (out & Hout & Hlen).
    exists out. split; [exact Hout|].
    rewrite length_app, TRUNCATION_SUFFIX_length in Hlen.
    pose proof (firstn_length_le_n n s). subst n. lia.
Qed.

Lemma _truncate_reencode_bound_witness :
  15 <= 16 /\ Forall is_byte [0xFF; 0xFF] /\
  exists out, utf8_encode (_truncate [0xFF; 0xFF] 16) = Some out /\
              Z.of_nat (length out) <= 3 * 16.
Proof.
  assert (H : Forall is_byte [0xFF; 0xFF]) by (repeat constructor; unfold is_byte; lia).
  split; [lia | split; [exact H | apply _truncate_reencode_bound; [lia | exact H]]].
Defined.

End Sanitizer.
