(* ===== verification/Assembler.v ===== *)
(** The command assembler: the part of [execute_python] (executor.py,
    lines 207-283) that turns the resolved runtime, the caller's
    [PYTHON_WASM_RUNTIME_ARGS], the discovered stdlib paths and the
    encoded code into the [wasmtime] command line and the host
    environment of the child; with [_has_mapping] (215-223),
    [_ensure_env_arg] (264-272), the isolation policy (234-247) and the
    guest side of [_WASM_BOOTSTRAP_SCRIPT] (75-91), whose [sys.path]
    handling is [bootstrap_sys_path].  Lists of arguments are Rocq lists
    of strings; the [dict] [env] is a [gmap]; the ordered [dict]
    [env_updates] is an association list in insertion order. *)

From stdpp Require Import base gmap strings list.
From Stdlib Require Import String Ascii Bool List Lia.
From S2P Require Import Prelude.
Import ListNotations.
Open Scope string_scope.

Module Assembler.

Definition NL : string := String "010"%char EmptyString.

(** [guest_prefix = "/python"] *)
Definition guest_prefix : string := "/python".

(** [f"{python_root}::{guest_prefix.lstrip('/')}"] *)
Definition host_mapping (python_root : string) : string :=
  python_root ++ "::" ++ str_lstrip "/"%char guest_prefix.

(** [target_suffix = f"::{guest_prefix.lstrip('/')}"] *)
Definition target_suffix : string := "::" ++ str_lstrip "/"%char guest_prefix.

(** [_has_mapping(args)]: the loop over [enumerate(args)]; [rest] starts
    at [args[idx + 1]]. *)
Fixpoint _has_mapping (args : list string) : bool :=
  match args with
  | [] => false
  | value :: rest =>
      if String.eqb value "--dir" then
        match rest with
        | next :: _ => if str_endswith next target_suffix then true else _has_mapping rest
        | [] => _has_mapping rest
        end
      else if str_startswith value "--dir=" && str_endswith (str_drop 6 value) target_suffix
      then true
      else _has_mapping rest
  end.

(** [if not _has_mapping(runtime_args): runtime_args.extend(["--dir", host_mapping])] *)
Definition add_mapping (python_root : string) (runtime_args : list string) : list string :=
  if _has_mapping runtime_args then runtime_args
  else runtime_args ++ ["--dir"; host_mapping python_root].

(** The search loop of [_ensure_env_arg] for [prefix = f"{key}="]: does
    an [--env] argument for the key exist already? *)
Fixpoint env_arg_present (prefix : string) (args : list string) : bool :=
  match args with
  | [] => false
  | existing :: rest =>
      if String.eqb existing "--env" then
        match rest with
        | next :: _ => if str_startswith next prefix then true else env_arg_present prefix rest
        | [] => env_arg_present prefix rest
        end
      else if str_startswith existing "--env=" && str_startswith (str_drop 6 existing) prefix
      then true
      else env_arg_present prefix rest
  end.

(** [_ensure_env_arg(args, key, value)]: returns early when the key is
    present, else [args.extend(["--env", f"{key}={value}"])].  The list
    the Python code mutates in place is returned. *)
Definition _ensure_env_arg (args : list string) (key value : string) : list string :=
  if env_arg_present (key ++ "=") args then args
  else args ++ ["--env"; key ++ "=" ++ value].

(** [for env_key, env_value in env_updates.items(): _ensure_env_arg(...)] *)
Definition ensure_env_args (args : list string) (updates : list (string * string)) : list string :=
  fold_left (fun a kv => _ensure_env_arg a kv.1 kv.2) updates args.

(** The isolation policy, lines 235-242, from [PYTHON_WASM_FORCE_ISOLATED]
    and [PYTHON_WASM_DISABLE_ISOLATED] ([None] when unset). *)
Definition use_isolated (force_isolated disable_isolated : option string) : bool :=
  match force_isolated with
  | Some v => String.eqb v "1"
  | None =>
      match disable_isolated with
      | Some v => negb (String.eqb v "1")
      | None => false
      end
  end.

(** [_WASM_BOOTSTRAP_SCRIPT], lines 75-91. *)
Definition _WASM_BOOTSTRAP_SCRIPT : string :=
  str_join NL
    [ "import base64, os as _os, sys as _sys";
      "_prefix = _os.environ.get('PYTHON_WASM_PREFIX')";
      "if _prefix:";
      "    _sys.prefix = _sys.exec_prefix = _prefix";
      "_paths = _os.environ.get('PYTHON_WASM_STDLIB_PATHS')";
      "if _paths:";
      "    _entries = [p for p in _paths.split(':') if p]";
      "    for _entry in reversed(_entries):";
      "        if _entry not in _sys.path:";
      "            _sys.path.insert(0, _entry)";
      "_code = base64.b64decode(_os.environ['PY_CODE_B64']).decode('utf-8')";
      "_globals = {'__name__': '__main__'}";
      "exec(compile(_code, '<user_code>', 'exec'), _globals)" ].

(** The guest side of the bootstrap script, lines 81-86: with
    [_paths = os.environ.get('PYTHON_WASM_STDLIB_PATHS')], each non-empty
    entry of [_paths.split(':')], taken in reverse, is inserted at the
    front of [sys.path] unless already there. *)
Definition bootstrap_sys_path (paths : option string) (sys_path : list string) : list string :=
  match paths with
  | Some p =>
      if String.eqb p "" then sys_path
      else
        let entries := filter (fun e => negb (String.eqb e "")) (str_split ":"%char p) in
        fold_left (fun sp e => if existsb (String.eqb e) sp then sp else e :: sp)
          (rev entries) sys_path
  | None => sys_path
  end.

(** [python_args], lines 234-247. *)
Definition python_args (use_iso : bool) : list string :=
  (if use_iso then ["-I"] else []) ++ ["-c"; _WASM_BOOTSTRAP_SCRIPT].

(** [env_updates], lines 250-260, in the dict's insertion order. *)
Definition env_updates (encoded_code : string) (stdlib_paths : list string)
    : list (string * string) :=
  let stdlib_path_str := str_join ":" stdlib_paths in
  [("PYTHONUNBUFFERED", "1"); ("PY_CODE_B64", encoded_code);
   ("PYTHON_WASM_PREFIX", guest_prefix); ("PYTHON_WASM_STDLIB_PATHS", stdlib_path_str);
   ("PYTHONHOME", guest_prefix)]
  ++ (if String.eqb stdlib_path_str "" then [] else [("PYTHONPATH", stdlib_path_str)]).

(** [env = os.environ.copy(); env.update(env_updates)] *)
Definition env_update (env : gmap string string) (updates : list (string * string))
    : gmap string string :=
  fold_left (fun m kv => <[kv.1 := kv.2]> m) updates env.

(** What [Popen] receives. *)
Record invocation := { argv : list string; child_env : gmap string string }.

(** Lines 207-283: from the resolver's [runtime_path], [wasm_module] and
    extra arguments, the module's directory [python_root], the stdlib
    paths and the base64 payload, the command and the environment. *)
Definition assemble (runtime_path wasm_module python_root : string)
    (runtime_args0 stdlib_paths : list string) (encoded_code : string)
    (force_isolated disable_isolated : option string) (environ : gmap string string)
    : invocation :=
  let runtime_args1 := add_mapping python_root runtime_args0 in
  let updates := env_updates encoded_code stdlib_paths in
  let runtime_args2 := ensure_env_args runtime_args1 updates in
  {| argv := [runtime_path; "run"] ++ runtime_args2 ++ [wasm_module]
             ++ python_args (use_isolated force_isolated disable_isolated);
     child_env := env_update environ updates |}.

(** The runtime arguments alone, as [assemble] builds them. *)
Definition assembled_runtime_args (python_root : string) (runtime_args0 stdlib_paths : list string)
    (encoded_code : string) : list string :=
  ensure_env_args (add_mapping python_root runtime_args0) (env_updates encoded_code stdlib_paths).

(** The [--env K=V] options, in order, for a list of updates. *)
Definition injections (ups : list (string * string)) : list string :=
  flat_map (fun kv => ["--env"; kv.1 ++ "=" ++ kv.2]) ups.

Example assemble_default :
  argv (assemble "/usr/bin/wasmtime" "/opt/py/python.wasm" "/opt/py" [] [] "cHJpbnQoMSk="
          None None ∅) =
  ["/usr/bin/wasmtime"; "run"; "--dir"; "/opt/py::python";
   "--env"; "PYTHONUNBUFFERED=1"; "--env"; "PY_CODE_B64=cHJpbnQoMSk=";
   "--env"; "PYTHON_WASM_PREFIX=/python"; "--env"; "PYTHON_WASM_STDLIB_PATHS=";
   "--env"; "PYTHONHOME=/python"; "/opt/py/python.wasm"; "-c"; _WASM_BOOTSTRAP_SCRIPT].
Proof. reflexivity. Qed.

Example has_mapping_equals_form : _has_mapping ["--dir=/elsewhere::python"] = true.
Proof. reflexivity. Qed.

(** ** Lemmas *)

(** An absolute path is neither ["--env"] nor an [--env=] option. *)
Lemma abs_not_env_option (m : string) :
  str_startswith m "/" = true ->
  String.eqb m "--env" = false /\ str_startswith m "--env=" = false.
Proof. destruct m as [|c m]; [discriminate|]. intros H. apply str_startswith_char in H as [r ->]. split; reflexivity. Qed.

Lemma str_app_String (c : ascii) (s t : string) : (String c s ++ t)%string = String c (s ++ t).
Proof. reflexivity. Qed.

Lemma str_app_Empty (t : string) : ("" ++ t)%string = t.
Proof. reflexivity. Qed.

Lemma prefix_String (a b : ascii) (s t : string) :
  String.prefix (String a s) (String b t) = if ascii_dec a b then String.prefix s t else false.
Proof. reflexivity. Qed.

Lemma has_char_String (c a : ascii) (s : string) :
  str_has_char c (String a s) = Ascii.eqb a c || str_has_char c s.
Proof. reflexivity. Qed.

(** An injection [K=V] is one of [k] only when [K] is [k]: names have no [=]. *)
Lemma startswith_key_eq (k K V : string) :
  str_has_char "="%char k = false -> str_has_char "="%char K = false ->
  str_startswith (K ++ "=" ++ V) (k ++ "=") = true -> K = k.
Proof.
  unfold str_startswith. revert K. induction k as [|c k IH]; intros [|c' K] Hk HK H; try reflexivity.
  - rewrite str_app_Empty, str_app_String, prefix_String in H. rewrite has_char_String in HK.
    destruct (ascii_dec "=" c'); [subst; rewrite Ascii.eqb_refl in HK; discriminate | discriminate].
  - rewrite str_app_Empty, !str_app_String, prefix_String in H. rewrite has_char_String in Hk.
    destruct (ascii_dec c "="); [subst; rewrite Ascii.eqb_refl in Hk; discriminate | discriminate].
  - rewrite !str_app_String, prefix_String in H. rewrite has_char_String in Hk, HK.
    apply orb_false_iff in Hk as [_ Hk]. apply orb_false_iff in HK as [_ HK].
    destruct (ascii_dec c c'); [subst | discriminate]. f_equal. apply IH; assumption.
Qed.


(** A mapping found stays found when arguments are appended. *)
Lemma _has_mapping_app (args extra : list string) :
  _has_mapping args = true -> _has_mapping (args ++ extra) = true.
Proof.
  induction args as [|value rest IH]; simpl; [discriminate|].
  destruct (String.eqb value "--dir");
    [destruct rest as [|next rest']; simpl in *; [discriminate|] |];
    case_ifs; auto.
Qed.

Lemma env_arg_present_app (prefix : string) (args extra : list string) :
  env_arg_present prefix args = true -> env_arg_present prefix (args ++ extra) = true.
Proof.
  induction args as [|existing rest IH]; simpl; [discriminate|].
  destruct (String.eqb existing "--env");
    [destruct rest as [|next rest']; simpl in *; [discriminate|] |];
    case_ifs; auto.
Qed.

(** A trailing [--dir <host>::python] is always seen, whatever precedes it. *)
Lemma _has_mapping_snoc (args : list string) (v : string) :
  str_endswith v target_suffix = true -> _has_mapping (args ++ ["--dir"; v]) = true.
Proof.
  intros Hv. induction args as [|value rest IH]; simpl; [rewrite Hv; reflexivity|].
  destruct (String.eqb value "--dir");
    [destruct rest as [|next rest']; simpl in *; [rewrite IH; case_ifs; reflexivity|] |];
    case_ifs; auto.
Qed.

Lemma env_arg_present_snoc (prefix : string) (args : list string) (v : string) :
  str_startswith v prefix = true -> env_arg_present prefix (args ++ ["--env"; v]) = true.
Proof.
  intros Hv. induction args as [|existing rest IH]; simpl; [rewrite Hv; reflexivity|].
  destruct (String.eqb existing "--env");
    [destruct rest as [|next rest']; simpl in *; [rewrite IH; case_ifs; reflexivity|] |];
    case_ifs; auto.
Qed.

Lemma host_mapping_suffix (python_root : string) :
  str_endswith (host_mapping python_root) target_suffix = true.
Proof. apply str_endswith_app. Qed.

(** [_ensure_env_arg] only ever appends. *)
Lemma _ensure_env_arg_extends (args : list string) (key value : string) :
  exists added, _ensure_env_arg args key value = (args ++ added)%list.
Proof.
  unfold _ensure_env_arg. destruct (env_arg_present _ _);
    [exists []; now rewrite app_nil_r | eexists; reflexivity].
Qed.

Lemma ensure_env_args_extends (args : list string) (updates : list (string * string)) :
  exists added, ensure_env_args args updates = (args ++ added)%list.
Proof.
  revert args. induction updates as [|[k v] updates IH]; intros args; simpl.
  - exists []. now rewrite app_nil_r.
  - destruct (_ensure_env_arg_extends args k v) as [a1 ->].
    destruct (IH (args ++ a1)%list) as [a2 ->]. exists (a1 ++ a2)%list. now rewrite app_assoc.
Qed.

Lemma ensure_env_args_cons (args : list string) kv (updates : list (string * string)) :
  ensure_env_args args (kv :: updates) = ensure_env_args (_ensure_env_arg args kv.1 kv.2) updates.
Proof. reflexivity. Qed.

Lemma _ensure_env_arg_noop (args : list string) (key value : string) :
  env_arg_present (key ++ "=") args = true -> _ensure_env_arg args key value = args.
Proof. intros H. unfold _ensure_env_arg. now rewrite H. Qed.

Lemma _ensure_env_arg_after (args : list string) (key value : string) :
  env_arg_present (key ++ "=") (_ensure_env_arg args key value) = true.
Proof.
  unfold _ensure_env_arg. destruct (env_arg_present _ args) eqn:E; [exact E|].
  apply env_arg_present_snoc. rewrite <- str_app_assoc. apply str_startswith_app.
Qed.

(** Presence of a key survives everything the assembly appends. *)
Lemma env_arg_present_extends (prefix : string) (a b : list string) :
  (exists added, b = (a ++ added)%list) ->
  env_arg_present prefix a = true -> env_arg_present prefix b = true.
Proof. intros [added ->]. apply env_arg_present_app. Qed.

Lemma ensure_env_args_present (args : list string) (updates : list (string * string)) kv :
  In kv updates -> env_arg_present (kv.1 ++ "=") (ensure_env_args args updates) = true.
Proof.
  revert args. induction updates as [|[k v] updates IH]; intros args Hin; [destruct Hin|].
  simpl. destruct Hin as [<-|Hin]; [|now apply IH].
  apply (env_arg_present_extends _ (_ensure_env_arg args k v)); [apply ensure_env_args_extends|].
  apply _ensure_env_arg_after.
Qed.

Lemma ensure_env_args_noop (args : list string) (updates : list (string * string)) :
  (forall kv, In kv updates -> env_arg_present (kv.1 ++ "=") args = true) ->
  ensure_env_args args updates = args.
Proof.
  induction updates as [|[k v] updates IH]; intros H; [reflexivity|].
  rewrite ensure_env_args_cons, _ensure_env_arg_noop by exact (H (k, v) (or_introl eq_refl)).
  apply IH. intros kv Hin. apply H. now right.
Qed.

(** An update whose key is already present does not contribute: its
    value is irrelevant. *)
Lemma ensure_env_args_skip (args : list string) pre post (k v v' : string) :
  env_arg_present (k ++ "=") args = true ->
  ensure_env_args args (pre ++ (k, v) :: post)%list = ensure_env_args args (pre ++ (k, v') :: post)%list.
Proof.
  revert args. induction pre as [|[k0 v0] pre IH]; intros args H; simpl app;
    rewrite !ensure_env_args_cons.
  - now rewrite !_ensure_env_arg_noop by exact H.
  - apply IH. apply (env_arg_present_extends _ args); [apply _ensure_env_arg_extends | exact H].
Qed.

Lemma env_updates_keys (c c' : string) (sp : list string) :
  map fst (env_updates c sp) = map fst (env_updates c' sp).
Proof. unfold env_updates. destruct (String.eqb _ _); reflexivity. Qed.

(** ** Theorems *)

(** "existing caller overrides always win": when the caller's
    arguments already inject the key, [_ensure_env_arg] leaves them as
    they are. *)
Theorem _ensure_env_arg_caller_wins (args : list string) (key value : string) :
  env_arg_present (key ++ "=") args = true -> _ensure_env_arg args key value = args.
Proof. apply _ensure_env_arg_noop. Qed.

Lemma _ensure_env_arg_caller_wins_witness :
  env_arg_present ("PYTHONHOME" ++ "=") ["--env=PYTHONHOME=/custom"] = true /\
  _ensure_env_arg ["--env=PYTHONHOME=/custom"] "PYTHONHOME" "/python" = ["--env=PYTHONHOME=/custom"].
Proof. split; [reflexivity | apply _ensure_env_arg_caller_wins; reflexivity]. Defined.

Lemma assembled_has_all (python_root : string) (args0 sp : list string)
    (code : string) :
  _has_mapping (assembled_runtime_args python_root args0 sp code) = true /\
  forall kv, In kv (env_updates code sp) ->
    env_arg_present (kv.1 ++ "=") (assembled_runtime_args python_root args0 sp code) = true.
Proof.
  unfold assembled_runtime_args. split.
  - destruct (ensure_env_args_extends (add_mapping python_root args0) (env_updates code sp))
      as [added ->].
    apply _has_mapping_app. unfold add_mapping.
    destruct (_has_mapping args0) eqn:E; [exact E|].
    apply _has_mapping_snoc, host_mapping_suffix.
  - intros kv Hin. now apply ensure_env_args_present.
Qed.

(** The assembly keeps the caller's arguments first and verbatim,
    and only appends. *)
Theorem assembled_runtime_args_extends (python_root : string) (args0 sp : list string)
    (code : string) :
  exists added, assembled_runtime_args python_root args0 sp code = (args0 ++ added)%list.
Proof.
  unfold assembled_runtime_args, add_mapping.
  destruct (ensure_env_args_extends (if _has_mapping args0 then args0
              else (args0 ++ ["--dir"; host_mapping python_root])%list) (env_updates code sp))
    as [added ->].
  destruct (_has_mapping args0); eexists; [reflexivity|]. now rewrite <- app_assoc.
Qed.

(** C6: the assembly is idempotent: assembling again from its own
    output, for any module directory and any code, appends nothing. *)
Theorem assembled_runtime_args_idempotent (root root' : string) (args0 sp : list string)
    (code code' : string) :
  assembled_runtime_args root' (assembled_runtime_args root args0 sp code) sp code' =
  assembled_runtime_args root args0 sp code.
Proof.
  destruct (assembled_has_all root args0 sp code) as [Hmap Henv].
  unfold assembled_runtime_args at 1. unfold add_mapping. rewrite Hmap.
  apply ensure_env_args_noop. intros kv Hin.
  assert (Hk : In kv.1 (map fst (env_updates code sp))).
  { rewrite (env_updates_keys code code'). now apply in_map. }
  apply in_map_iff in Hk as ([k v] & Hk & Hin'). simpl in Hk. rewrite <- Hk.
  exact (Henv (k, v) Hin').
Qed.

(** C30: a consequence of "caller overrides win": when the caller's
    arguments inject [PY_CODE_B64], the submitted code has no influence
    on the command: the guest runs the caller's payload instead. *)
Theorem assembled_runtime_args_code_ignored (python_root : string) (args0 sp : list string)
    (code code' : string) :
  env_arg_present "PY_CODE_B64=" args0 = true ->
  assembled_runtime_args python_root args0 sp code =
  assembled_runtime_args python_root args0 sp code'.
Proof.
  intros H. unfold assembled_runtime_args.
  apply (ensure_env_args_skip _ [("PYTHONUNBUFFERED", "1")]).
  apply (env_arg_present_extends _ args0); [|exact H].
  unfold add_mapping. destruct (_has_mapping args0); eexists; [now rewrite app_nil_r | reflexivity].
Qed.

Lemma assembled_runtime_args_code_ignored_witness :
  env_arg_present "PY_CODE_B64=" ["--env=PY_CODE_B64=cHJpbnQoMik="] = true /\
  assembled_runtime_args "/opt/py" ["--env=PY_CODE_B64=cHJpbnQoMik="] [] "cHJpbnQoMSk=" =
  assembled_runtime_args "/opt/py" ["--env=PY_CODE_B64=cHJpbnQoMik="] [] "aW1wb3J0IG9z".
Proof. split; [reflexivity | apply assembled_runtime_args_code_ignored; reflexivity]. Defined.

(** C29: the isolation policy: [-I] is used exactly when
    [PYTHON_WASM_FORCE_ISOLATED] is ["1"], or when it is unset and
    [PYTHON_WASM_DISABLE_ISOLATED] is set to anything but ["1"]; so
    [PYTHON_WASM_DISABLE_ISOLATED=0] turns isolation on. *)
Theorem use_isolated_iff (force_isolated disable_isolated : option string) :
  use_isolated force_isolated disable_isolated = true <->
  force_isolated = Some "1" \/
  (force_isolated = None /\ exists v, disable_isolated = Some v /\ v <> "1").
Proof.
  unfold use_isolated.
  destruct force_isolated as [f|]; [|destruct disable_isolated as [d|]].
  - rewrite String.eqb_eq. split; [intros ->; auto | intros [H|[H _]]; congruence].
  - rewrite negb_true_iff, String.eqb_neq.
    split; [intros H; right; eauto | intros [H|[_ (v & Hv & Hne)]]; congruence].
  - split; [discriminate | intros [H|[_ (v & Hv & _)]]; congruence].
Qed.



(** ** The child's environment *)

Lemma env_update_notin (env : gmap string string) (ups : list (string * string)) (k : string) :
  ~ In k (map fst ups) -> env_update env ups !! k = env !! k.
Proof.
  revert env. induction ups as [|[k' v'] ups IH]; intros env Hk; simpl in *; [reflexivity|].
  rewrite IH by tauto. apply lookup_insert_ne. intros ->. tauto.
Qed.

Lemma env_update_in (env : gmap string string) (ups : list (string * string)) (k v : string) :
  NoDup (map fst ups) -> In (k, v) ups -> env_update env ups !! k = Some v.
Proof.
  revert env. induction ups as [|[k' v'] ups IH]; intros env Hnd Hin; simpl in *; [destruct Hin|].
  apply NoDup_cons_iff in Hnd as [Hk' Hnd]. destruct Hin as [Heq|Hin].
  - injection Heq as -> ->. rewrite env_update_notin by exact Hk'. apply lookup_insert_eq.
  - now apply IH.
Qed.

Lemma env_updates_NoDup (code : string) (sp : list string) : NoDup (map fst (env_updates code sp)).
Proof.
  unfold env_updates. destruct (String.eqb _ _); simpl;
    repeat constructor; simpl; intuition discriminate.
Qed.

(** The environment handed to [Popen] is the ambient one with every
    update of [env_updates] applied: the updates' values replace ambient
    ones, every other variable is inherited unchanged. *)
Theorem child_env_assemble (runtime_path wasm_module python_root : string)
    (args0 sp : list string) (code : string) (f d : option string) (environ : gmap string string) :
  (forall k v, In (k, v) (env_updates code sp) ->
     child_env (assemble runtime_path wasm_module python_root args0 sp code f d environ) !! k = Some v) /\
  (forall k, ~ In k (map fst (env_updates code sp)) ->
     child_env (assemble runtime_path wasm_module python_root args0 sp code f d environ) !! k = environ !! k).
Proof.
  assert (E : child_env (assemble runtime_path wasm_module python_root args0 sp code f d environ)
              = env_update environ (env_updates code sp)) by reflexivity.
  rewrite E. split.
  - intros k v Hin. apply env_update_in; [apply env_updates_NoDup | exact Hin].
  - intros k Hk. now apply env_update_notin.
Qed.

(** ** The assembly on arguments that name no mapping or injection *)

Lemma prefix_empty (s : string) : String.prefix "" s = true.
Proof. now destruct s. Qed.

(** An argument that does not start with ['-'] is neither ["--env"]
    nor an [--env=] option. *)
Lemma not_dash_option (s : string) :
  str_startswith s "-" = false -> String.eqb s "--env" = false /\ str_startswith s "--env=" = false.
Proof.
  destruct s as [|c s]; [split; reflexivity|]. unfold str_startswith. rewrite prefix_String.
  intros H. destruct (ascii_dec "-" c) as [<-|Hc]; [rewrite prefix_empty in H; discriminate H|].
  split; [|rewrite prefix_String; destruct (ascii_dec "-" c); [contradiction | reflexivity]].
  destruct (String.eqb_spec (String c s) "--env") as [E|]; [injection E as Ec _; congruence | reflexivity].
Qed.

Lemma inject_not_option (K V : string) :
  str_startswith K "-" = false ->
  String.eqb (K ++ "=" ++ V) "--env" = false /\ str_startswith (K ++ "=" ++ V) "--env=" = false.
Proof.
  intros HK. apply not_dash_option. destruct K as [|c K]; [reflexivity|]. rewrite str_app_String.
  unfold str_startswith in *. rewrite prefix_String in *.
  destruct (ascii_dec "-" c); [rewrite prefix_empty in HK; discriminate HK | reflexivity].
Qed.

Lemma startswith_inject (k K V : string) :
  str_has_char "="%char k = false -> str_has_char "="%char K = false ->
  str_startswith (K ++ "=" ++ V) (k ++ "=") = String.eqb K k.
Proof.
  intros Hk HK. destruct (String.eqb_spec K k) as [->|Hne].
  - rewrite <- str_app_assoc. apply str_startswith_app.
  - destruct (str_startswith _ _) eqn:E; [|reflexivity]. exfalso. exact (Hne (startswith_key_eq k K V Hk HK E)).
Qed.

Lemma has_mapping_plain (l : list string) :
  Forall (fun a => a <> "--dir" /\ str_startswith a "--dir=" = false) l -> _has_mapping l = false.
Proof.
  induction 1 as [|a l [Ha1 Ha2] _ IH]; [reflexivity|]. cbn [_has_mapping].
  rewrite (proj2 (String.eqb_neq a "--dir") Ha1), Ha2. exact IH.
Qed.

Lemma env_arg_present_plain (p : string) (l1 l2 : list string) :
  Forall (fun a => a <> "--env" /\ str_startswith a "--env=" = false) l1 ->
  env_arg_present p (l1 ++ l2) = env_arg_present p l2.
Proof.
  induction 1 as [|a l [Ha1 Ha2] _ IH]; [reflexivity|]. cbn [app env_arg_present].
  rewrite (proj2 (String.eqb_neq a "--env") Ha1), Ha2. exact IH.
Qed.

(** The injections of distinct names, scanned for a name: found
    exactly when it is one of them. *)
Lemma env_arg_present_injections (k : string) (ups : list (string * string)) :
  str_has_char "="%char k = false ->
  Forall (fun kv => str_has_char "="%char kv.1 = false /\ str_startswith kv.1 "-" = false) ups ->
  env_arg_present (k ++ "=") (injections ups) = existsb (fun kv => String.eqb kv.1 k) ups.
Proof.
  intros Hk. induction 1 as [|[K V] ups [HK1 HK2] _ IH]; [reflexivity|]. cbn [fst] in HK1, HK2.
  transitivity (if str_startswith (K ++ "=" ++ V) (k ++ "=") then true
                else env_arg_present (k ++ "=") ((K ++ "=" ++ V) :: injections ups)); [reflexivity|].
  rewrite startswith_inject by assumption. cbn [existsb fst]. destruct (String.eqb K k); [reflexivity|].
  destruct (inject_not_option K V HK2) as [E1 E2]. cbn [env_arg_present]. rewrite E1, E2. exact IH.
Qed.

Lemma ensure_env_args_fresh (base : list string) (done ups : list (string * string)) :
  Forall (fun a => a <> "--env" /\ str_startswith a "--env=" = false) base ->
  Forall (fun kv => str_has_char "="%char kv.1 = false /\ str_startswith kv.1 "-" = false) (done ++ ups) ->
  NoDup (map fst (done ++ ups)) ->
  ensure_env_args (base ++ injections done) ups = (base ++ injections (done ++ ups))%list.
Proof.
  intros Hb. revert done. induction ups as [|[K V] ups IH]; intros done Hk Hnd; [now rewrite app_nil_r|].
  rewrite ensure_env_args_cons. cbn [fst snd].
  assert (HkK : str_has_char "="%char K = false).
  { apply Forall_app in Hk as [_ Hk]. now inversion Hk as [|? ? [? _] _]. }
  assert (Hp : env_arg_present (K ++ "=") (base ++ injections done) = false).
  { rewrite env_arg_present_plain by exact Hb.
    rewrite env_arg_present_injections by (exact HkK || exact (proj1 (proj1 (Forall_app _ _ _) Hk))).
    apply not_true_iff_false. intros Hex. apply existsb_exists in Hex as [[K' V'] [Hin Heq]].
    cbn in Heq. apply String.eqb_eq in Heq. subst K'. rewrite map_app in Hnd. cbn [map fst] in Hnd.
    apply (NoDup_remove_2 _ _ _ Hnd), in_or_app. left. exact (in_map fst _ _ Hin). }
  unfold _ensure_env_arg. rewrite Hp.
  replace (app (base ++ injections done) ["--env"; (K ++ "=" ++ V)%string])
    with (app base (injections (app done [(K, V)])))
    by (unfold injections; rewrite flat_map_app, !app_assoc; reflexivity).
  rewrite IH; rewrite <- ?app_assoc; [reflexivity | exact Hk | exact Hnd].
Qed.

(** C7: The assembly on caller arguments that name no [--dir] and no
    [--env] option is exactly the caller's arguments, then the mapping
    [--dir <root>::python], then one [--env K=V] per update of
    [env_updates], in its order. *)
Theorem assembled_runtime_args_fresh (root : string) (args0 sp : list string) (code : string) :
  str_startswith root "/" = true ->
  Forall (fun a => a <> "--dir" /\ str_startswith a "--dir=" = false /\
                   a <> "--env" /\ str_startswith a "--env=" = false) args0 ->
  assembled_runtime_args root args0 sp code =
    (args0 ++ ["--dir"; host_mapping root] ++ injections (env_updates code sp))%list.
Proof.
  intros Hr Ha. unfold assembled_runtime_args, add_mapping.
  rewrite has_mapping_plain by (eapply Forall_impl; [|exact Ha]; cbn; tauto).
  transitivity (ensure_env_args ((args0 ++ ["--dir"; host_mapping root]) ++ injections []) (env_updates code sp));
    [now rewrite app_nil_r|].
  assert (Hm : str_startswith (host_mapping root) "/" = true) by (unfold host_mapping; now apply str_startswith_app_r).
  destruct (abs_not_env_option _ Hm) as [Hm1 Hm2].
  rewrite ensure_env_args_fresh; [now rewrite <- app_assoc | | | exact (env_updates_NoDup code sp)].
  - apply Forall_app. split; [eapply Forall_impl; [|exact Ha]; cbn; tauto|].
    repeat constructor; [discriminate | apply String.eqb_neq, Hm1 | exact Hm2].
  - unfold env_updates. destruct (String.eqb _ ""); repeat constructor.
Qed.

Lemma assembled_runtime_args_fresh_witness :
  str_startswith "/opt/py" "/" = true /\
  Forall (fun a => a <> "--dir" /\ str_startswith a "--dir=" = false /\
                   a <> "--env" /\ str_startswith a "--env=" = false) ["-W"; "unused"] /\
  assembled_runtime_args "/opt/py" ["-W"; "unused"] ["/python/lib/python3.12"] "cHJpbnQoMSk=" =
    ["-W"; "unused"; "--dir"; "/opt/py::python"; "--env"; "PYTHONUNBUFFERED=1"; "--env"; "PY_CODE_B64=cHJpbnQoMSk=";
     "--env"; "PYTHON_WASM_PREFIX=/python"; "--env"; "PYTHON_WASM_STDLIB_PATHS=/python/lib/python3.12";
     "--env"; "PYTHONHOME=/python"; "--env"; "PYTHONPATH=/python/lib/python3.12"].
Proof.
  assert (Ha : Forall (fun a => a <> "--dir" /\ str_startswith a "--dir=" = false /\
                   a <> "--env" /\ str_startswith a "--env=" = false) ["-W"; "unused"])
    by (repeat constructor; discriminate).
  split; [reflexivity|]. split; [exact Ha|].
  rewrite (assembled_runtime_args_fresh "/opt/py" _ ["/python/lib/python3.12"] "cHJpbnQoMSk=" eq_refl Ha).
  reflexivity.
Defined.

(** ** The guest's [sys.path] *)

Lemma str_join_nonempty (sep x : string) (xs : list string) :
  x <> "" -> String.eqb (str_join sep (x :: xs)) "" = false.
Proof.
  intros Hx. apply String.eqb_neq. destruct x as [|c x]; [congruence|].
  destruct xs; simpl; discriminate.
Qed.

(** The insertion loop of the bootstrap over a duplicate-free list of
    entries: the entries not yet on [sys.path], in their order, then
    [sys.path]. *)
Lemma bootstrap_insert_loop (ps sp : list string) :
  NoDup ps ->
  fold_left (fun acc e => if existsb (String.eqb e) acc then acc else e :: acc) (rev ps) sp =
  (filter (fun p => negb (existsb (String.eqb p) sp)) ps ++ sp)%list.
Proof.
  induction ps as [|p ps IH]; intros Hnd; [reflexivity|].
  apply NoDup_cons_iff in Hnd as [Hp Hnd].
  simpl rev. rewrite fold_left_app, IH by exact Hnd. simpl.
  rewrite existsb_app.
  replace (existsb (String.eqb p) (filter _ ps)) with false.
  - simpl. destruct (existsb (String.eqb p) sp); reflexivity.
  - symmetry. apply Bool.not_true_iff_false. rewrite existsb_exists.
    intros (x & Hx & Heq). apply String.eqb_eq in Heq as <-.
    apply filter_In in Hx. tauto.
Qed.

Lemma bootstrap_sys_path_join_eq (ps sp : list string) :
  Forall (fun p => p <> "" /\ str_has_char ":"%char p = false) ps -> NoDup ps ->
  bootstrap_sys_path (Some (str_join ":" ps)) sp =
  (filter (fun p => negb (existsb (String.eqb p) sp)) ps ++ sp)%list.
Proof.
  intros Hps Hnd. destruct ps as [|p ps']; [reflexivity|]. unfold bootstrap_sys_path. cbv beta iota.
  assert (Hp : p <> "") by (inversion Hps; tauto).
  rewrite str_join_nonempty by exact Hp.
  rewrite str_split_join; [|discriminate|].
  - rewrite filter_all; [now apply bootstrap_insert_loop|].
    intros x Hx. rewrite Forall_forall in Hps. apply Hps in Hx as [Hx _].
    apply negb_true_iff, String.eqb_neq, Hx.
  - eapply Forall_impl; [|exact Hps]. intros x [_ Hx]. exact Hx.
Qed.

(** What the host joins with [":".join] (line 250) the guest splits
    back (lines 81-86): when no path is empty or holds [':'] and none is
    repeated, the guest's [sys.path] is the stdlib paths it did not have
    yet, in the host's order, in front of the original [sys.path]. *)
Theorem bootstrap_sys_path_join (ps sp : list string) :
  Forall (fun p => p <> "" /\ str_has_char ":"%char p = false) ps -> NoDup ps ->
  bootstrap_sys_path (Some (str_join ":" ps)) sp =
  (filter (fun p => negb (existsb (String.eqb p) sp)) ps ++ sp)%list.
Proof. apply bootstrap_sys_path_join_eq. Qed.

Lemma bootstrap_sys_path_join_witness :
  Forall (fun p => p <> "" /\ str_has_char ":"%char p = false)
    ["/python/lib/python3.12"; "/python/lib/python3.12/site-packages"] /\
  NoDup ["/python/lib/python3.12"; "/python/lib/python3.12/site-packages"] /\
  bootstrap_sys_path (Some "/python/lib/python3.12:/python/lib/python3.12/site-packages")
    ["/python/lib/python3.12"; "/app"] =
  ["/python/lib/python3.12/site-packages"; "/python/lib/python3.12"; "/app"].
Proof.
  assert (H1 : Forall (fun p => p <> "" /\ str_has_char ":"%char p = false)
    ["/python/lib/python3.12"; "/python/lib/python3.12/site-packages"])
    by (repeat constructor; discriminate).
  assert (H2 : NoDup ["/python/lib/python3.12"; "/python/lib/python3.12/site-packages"])
    by (repeat constructor; simpl; intuition discriminate).
  split; [exact H1 | split; [exact H2|]].
  exact (bootstrap_sys_path_join _ ["/python/lib/python3.12"; "/app"] H1 H2).
Defined.

End Assembler.
