(* ===== verification/Fs.v ===== *)
(** The file system as the executor queries it.  [_discover_stdlib_paths]
    and [_resolve_wasm_runtime] only inspect the host file system:
    [Path.is_dir], [Path.is_file], [os.path.exists], [os.access(X_OK)],
    [Path.iterdir], [open(...).read(4)].  [FileSystem] is the interface
    those functions are written against: a lookup of a path's node and
    the listing of a directory, both as the OS reports them.  Every
    theorem of [Discovery.v] and [Resolver.v] holds for every instance;
    [listed_fs] is an executable instance for concrete runs. *)

From Stdlib Require Import ZArith String Ascii Bool List Lia.
From S2P Require Import Prelude.
Import ListNotations.
Open Scope string_scope.

Module Fs.

(** What [os.stat] tells the code about a path. *)
Inductive node :=
  | Regular (executable : bool) (contents : list Z)
  | Directory.

Class FileSystem := {
  fs_lookup : string -> option node;   (* [None]: the path does not exist *)
  fs_listdir : string -> list string   (* entry names, in the OS's order *)
}.

Section Queries.
Context `{FileSystem}.

(** [Path(p).is_dir()] *)
Definition is_dir (p : string) : bool :=
  match fs_lookup p with Some Directory => true | _ => false end.

(** [Path(p).is_file()] *)
Definition is_file (p : string) : bool :=
  match fs_lookup p with Some (Regular _ _) => true | _ => false end.

(** [os.path.exists(p)] *)
Definition exists_path (p : string) : bool :=
  match fs_lookup p with Some _ => true | None => false end.

(** [os.access(p, os.X_OK)]: a directory is searchable. *)
Definition access_x (p : string) : bool :=
  match fs_lookup p with
  | Some (Regular x _) => x
  | Some Directory => true
  | None => false
  end.

(** [open(p, "rb").read(n)]: [None] is the [OSError] of a missing path
    or of a directory. *)
Definition read_prefix (p : string) (n : nat) : option (list Z) :=
  match fs_lookup p with
  | Some (Regular _ bs) => Some (firstn n bs)
  | _ => None
  end.

End Queries.

(** [Path(p) / name] *)
Definition path_join (p name : string) : string :=
  if String.eqb p "/" then "/" ++ name else p ++ "/" ++ name.

(** ** An executable instance: a list of absolute paths and their nodes *)

Fixpoint assoc_lookup (k : string) (l : list (string * node)) : option node :=
  match l with
  | [] => None
  | (k', v) :: l' => if String.eqb k k' then Some v else assoc_lookup k l'
  end.

(** The names directly under [dir] among the listed paths. *)
Definition children (dir : string) (l : list (string * node)) : list string :=
  let pre := path_join dir "" in
  flat_map (fun '(k, _) =>
              if str_startswith k pre then
                let rest := str_drop (String.length pre) k in
                if String.eqb rest "" || str_has_char "/"%char rest then [] else [rest]
              else []) l.

#[export] Instance listed_fs (l : list (string * node)) : FileSystem :=
  {| fs_lookup p := assoc_lookup p l; fs_listdir d := children d l |}.

End Fs.
