(* ===== verification/Discovery.v ===== *)
(** The guest environment builder: [_discover_stdlib_paths] of
    [executor.py] (lines 154-187), over the [Fs.FileSystem] interface.
    The closure [_add] and its two locals [guest_paths] and [seen] are a
    state record [paths_acc] threaded through the three phases (the
    versioned directory, its [lib-dynload] and [site-packages], the
    [python*.zip] bundles).  [sorted] on the paths of one directory
    orders them by name: an insertion sort on [String.leb].  The regex
    [python\d+(?:\.\d+)?] is decided by [version_fullmatch] (ASCII
    digits: names are byte strings here).  [layout_paths] is the layout
    the design describes, with no [seen] set; on a well-formed listing
    ([listing_ok]) discovery is equal to it. *)

From stdpp Require Import base gmap strings list.
From Stdlib Require Import String Ascii Bool List Lia.
From S2P Require Import Prelude Fs.
Import ListNotations.
Open Scope string_scope.

Module Discovery.
Import Fs.

(** ** The name tests *)

Definition is_digit (c : ascii) : bool :=
  (48 <=? nat_of_ascii c)%nat && (nat_of_ascii c <=? 57)%nat.

(** [\d+] *)
Fixpoint all_digits (s : string) : bool :=
  match s with
  | EmptyString => true
  | String c s' => is_digit c && all_digits s'
  end.
Definition digits1 (s : string) : bool := negb (String.eqb s "") && all_digits s.

(** [version_pattern.fullmatch(name)] for [python\d+(?:\.\d+)?] *)
Definition version_fullmatch (name : string) : bool :=
  str_startswith name "python" &&
  match str_split "."%char (str_drop 6 name) with
  | [d1] => digits1 d1
  | [d1; d2] => digits1 d1 && digits1 d2
  | _ => false
  end.

(** [lib_root.glob("python*.zip")] on one name *)
Definition zip_glob_match (name : string) : bool :=
  str_startswith name "python" && str_endswith name ".zip" && (10 <=? String.length name)%nat.

(** [sorted(...)] on entries of one directory *)
Fixpoint insert_sorted (x : string) (l : list string) : list string :=
  match l with
  | [] => [x]
  | y :: l' => if String.leb x y then x :: l else y :: insert_sorted x l'
  end.
Definition sort_names (l : list string) : list string := fold_right insert_sorted [] l.

(** ** The state of [_add] *)

Record paths_acc := { guest_paths : list string; seen : gset string }.

Definition paths_acc0 : paths_acc := {| guest_paths := []; seen := ∅ |}.

(** [_add(path)]: append unless seen. *)
Definition _add (path : string) (st : paths_acc) : paths_acc :=
  if decide (path ∈ seen st) then st
  else {| guest_paths := guest_paths st ++ [path]; seen := {[path]} ∪ seen st |}.

Section WithFs.
Context `{FileSystem}.

(** The [for candidate in sorted(lib_root.iterdir())] loop with its
    [break]: the first directory whose name matches. *)
Fixpoint find_version_dir (lib_root : string) (cands : list string) : option string :=
  match cands with
  | [] => None
  | n :: rest =>
      if is_dir (path_join lib_root n) && version_fullmatch n then Some n
      else find_version_dir lib_root rest
  end.

(** [for subdir in ("lib-dynload", "site-packages"): ...] *)
Definition add_subdirs (version_dir guest_base : string) (st : paths_acc) : paths_acc :=
  fold_left (fun st subdir =>
               if is_dir (path_join version_dir subdir)
               then _add (guest_base ++ "/" ++ subdir) st else st)
            ["lib-dynload"; "site-packages"] st.

(** [for zip_candidate in sorted(lib_root.glob("python*.zip")): ...] *)
Definition add_zips (lib_root guest_prefix : string) (st : paths_acc) : paths_acc :=
  fold_left (fun st z => _add (guest_prefix ++ "/lib/" ++ z) st)
            (sort_names (filter zip_glob_match (fs_listdir lib_root))) st.

Definition _discover_stdlib_paths (python_root guest_prefix : string) : list string :=
  let lib_root := path_join python_root "lib" in
  if negb (is_dir lib_root) then []
  else
    match find_version_dir lib_root (sort_names (fs_listdir lib_root)) with
    | None => []
    | Some vname =>
        let version_dir := path_join lib_root vname in
        let guest_base := guest_prefix ++ "/lib/" ++ vname in
        guest_paths (add_zips lib_root guest_prefix
                       (add_subdirs version_dir guest_base (_add guest_base paths_acc0)))
    end.

(** The layout the design describes, with no [seen] set: the versioned
    directory, its subdirectories that exist, the sorted bundles. *)
Definition layout_paths (lib_root guest_prefix vname : string) : list string :=
  let version_dir := path_join lib_root vname in
  let guest_base := guest_prefix ++ "/lib/" ++ vname in
  guest_base ::
    (map (fun sd => (guest_base ++ "/" ++ sd)%string)
         (filter (fun sd => is_dir (path_join version_dir sd)) ["lib-dynload"; "site-packages"]) ++
     map (fun z => (guest_prefix ++ "/lib/" ++ z)%string) (sort_names (filter zip_glob_match (fs_listdir lib_root))))%list.

(** A directory listing names each entry once, and no name has a '/'. *)
Definition listing_ok (d : string) : Prop :=
  NoDup (fs_listdir d) /\ Forall (fun n => str_has_char "/"%char n = false) (fs_listdir d).

End WithFs.

(** A CPython WASI layout. *)
Definition sample_layout : list (string * node) :=
  [("/opt/py", Directory); ("/opt/py/python.wasm", Regular false []);
   ("/opt/py/lib", Directory); ("/opt/py/lib/python3.12", Directory);
   ("/opt/py/lib/python3.12/site-packages", Directory);
   ("/opt/py/lib/python312.zip", Regular false []); ("/opt/py/lib/README", Regular false [])].

(** [seen] is exactly the set of [guest_paths], which has no repetition. *)
Definition acc_inv (st : paths_acc) : Prop :=
  NoDup (guest_paths st) /\ forall x, x ∈ seen st <-> In x (guest_paths st).

Example discover_sample :
  @_discover_stdlib_paths (listed_fs sample_layout) "/opt/py" "/python" =
  ["/python/lib/python3.12"; "/python/lib/python3.12/site-packages"; "/python/lib/python312.zip"].
Proof. reflexivity. Qed.

Example version_fullmatch_cases :
  map version_fullmatch ["python3"; "python3.12"; "python3.12.1"; "python"; "python3."; "pythonx"]
  = [true; true; false; false; false; false].
Proof. reflexivity. Qed.

(** ** The invariant of [_add]'s state *)

Lemma acc_inv0 : acc_inv paths_acc0.
Proof. split; [constructor | intros x; simpl; set_solver]. Qed.

Lemma _add_inv (p : string) (st : paths_acc) : acc_inv st -> acc_inv (_add p st).
Proof.
  intros [Hnd Hseen]. unfold _add. case_decide as Hp; [split; assumption|].
  split; simpl.
  - apply NoDup_app; [exact Hnd | constructor; [intros [] | constructor] |].
    intros x Hx [<-|[]]. apply Hp, Hseen, Hx.
  - intros x. rewrite elem_of_union, elem_of_singleton, in_app_iff, Hseen. simpl. intuition.
Qed.

(** [_add] only appends. *)
Lemma _add_extends (p : string) (st : paths_acc) :
  exists added, guest_paths (_add p st) = (guest_paths st ++ added)%list.
Proof.
  unfold _add. case_decide; [exists []; now rewrite app_nil_r | eexists; reflexivity].
Qed.

(** Every property of the paths that [_add]'s argument has is kept. *)
Lemma _add_Forall (P : string -> Prop) (p : string) (st : paths_acc) :
  P p -> Forall P (guest_paths st) -> Forall P (guest_paths (_add p st)).
Proof.
  intros Hp Hst. unfold _add. case_decide; [exact Hst|]. simpl.
  apply Forall_app. split; [exact Hst | now constructor].
Qed.

Lemma In_insert_sorted (x y : string) (l : list string) :
  In y (insert_sorted x l) <-> y = x \/ In y l.
Proof.
  induction l as [|z l IH]; simpl; [intuition congruence|].
  destruct (String.leb x z); simpl; [intuition congruence | rewrite IH; intuition congruence].
Qed.

Lemma In_sort_names (y : string) (l : list string) : In y (sort_names l) <-> In y l.
Proof.
  induction l as [|x l IH]; simpl; [tauto|]. rewrite In_insert_sorted, IH. intuition congruence.
Qed.

Lemma insert_sorted_perm (x : string) (l : list string) : insert_sorted x l ≡ₚ x :: l.
Proof.
  induction l as [|y l IH]; simpl; [done|].
  destruct (String.leb x y); [done|]. rewrite IH. apply perm_swap.
Qed.

Lemma sort_names_perm (l : list string) : sort_names l ≡ₚ l.
Proof. induction l as [|x l IH]; simpl; [done|]. by rewrite insert_sorted_perm, IH. Qed.

Lemma all_digits_no_z (d : string) : all_digits d = true -> str_has_char "z"%char d = false.
Proof.
  induction d as [|c d IH]; cbn [all_digits str_has_char]; [done|].
  intros [Hc Hd]%andb_true_iff. rewrite IH by exact Hd.
  destruct (Ascii.eqb_spec c "z"%char) as [->|]; [discriminate Hc | done].
Qed.

Lemma digits1_no_z (d : string) : digits1 d = true -> str_has_char "z"%char d = false.
Proof. intros [_ Hd]%andb_true_iff. exact (all_digits_no_z d Hd). Qed.

(** A version directory's name has no 'z' ... *)
Lemma version_no_z (v : string) : version_fullmatch v = true -> str_has_char "z"%char v = false.
Proof.
  unfold version_fullmatch. intros [Hs Hm]%andb_true_iff.
  rewrite (str_startswith_drop v "python" Hs), str_has_char_app,
    (str_split_has_char "z" "." (str_drop _ v)) by discriminate.
  change (String.length "python") with 6%nat. change (str_has_char "z" "python") with false.
  destruct (str_split "." (str_drop 6 v)) as [|d1 [|d2 [|]]]; try discriminate; cbn [existsb].
  - now rewrite (digits1_no_z d1 Hm).
  - apply andb_true_iff in Hm as [H1 H2]. now rewrite (digits1_no_z d1 H1), (digits1_no_z d2 H2).
Qed.

(** ... and a bundle's name has one. *)
Lemma zip_has_z (z : string) : zip_glob_match z = true -> str_has_char "z"%char z = true.
Proof. intros [[_ H]%andb_true_iff _]%andb_true_iff. exact (str_endswith_has_char "z" _ _ H eq_refl). Qed.

(** [_add] over fresh paths appends them all: the [seen] test never fires. *)
Lemma fold_add_fresh (l : list string) (st : paths_acc) :
  acc_inv st -> NoDup (guest_paths st ++ l) ->
  guest_paths (fold_left (fun st x => _add x st) l st) = (guest_paths st ++ l)%list.
Proof.
  revert st. induction l as [|x l IH]; intros st Hinv Hnd; simpl; [now rewrite app_nil_r|].
  assert (Ha : _add x st = {| guest_paths := guest_paths st ++ [x]; seen := {[x]} ∪ seen st |}).
  { unfold _add. case_decide as Hx; [|done]. exfalso. destruct Hinv as [_ Hs].
    apply (NoDup_remove_2 _ _ _ Hnd), in_or_app. left. now apply Hs. }
  rewrite IH; [| now apply _add_inv | ]; rewrite Ha; simpl; now rewrite <- app_assoc.
Qed.

Lemma str_app_String_neq (s t : string) (c : ascii) : (s ++ String c t)%string <> s.
Proof. induction s as [|a s IH]; [discriminate | intros [=]; auto]. Qed.

Lemma NoDup_map_inj {A B} (f : A -> B) (l : list A) :
  (forall x y, f x = f y -> x = y) -> NoDup l -> NoDup (map f l).
Proof. intros Hf. apply NoDup_map_NoDup_ForallPairs. intros x y _ _. apply Hf. Qed.

Section Theorems.
Context `{FileSystem}.

Lemma add_subdirs_inv (vd gb : string) (st : paths_acc) :
  acc_inv st -> acc_inv (add_subdirs vd gb st).
Proof.
  apply fold_left_invariant. intros st' a _ Hinv. destruct (is_dir _); [now apply _add_inv | exact Hinv].
Qed.

Lemma add_zips_inv (lib gp : string) (st : paths_acc) :
  acc_inv st -> acc_inv (add_zips lib gp st).
Proof. apply fold_left_invariant. intros st' a _. apply _add_inv. Qed.

Lemma add_subdirs_extends (vd gb : string) (st : paths_acc) :
  exists added, guest_paths (add_subdirs vd gb st) = (guest_paths st ++ added)%list.
Proof.
  apply (fold_left_invariant (fun st' => exists added, guest_paths st' = (guest_paths st ++ added)%list)).
  - intros st' a _ [added Ha]. destruct (is_dir _); [|now exists added].
    destruct (_add_extends (gb ++ "/" ++ a) st') as [a2 ->]. exists (added ++ a2)%list.
    now rewrite Ha, app_assoc.
  - exists []. now rewrite app_nil_r.
Qed.

Lemma add_zips_extends (lib gp : string) (st : paths_acc) :
  exists added, guest_paths (add_zips lib gp st) = (guest_paths st ++ added)%list.
Proof.
  apply (fold_left_invariant (fun st' => exists added, guest_paths st' = (guest_paths st ++ added)%list)).
  - intros st' a _ [added Ha]. destruct (_add_extends (gp ++ "/lib/" ++ a) st') as [a2 ->].
    exists (added ++ a2)%list. now rewrite Ha, app_assoc.
  - exists []. now rewrite app_nil_r.
Qed.

Lemma find_version_dir_spec (lib : string) (cands : list string) (v : string) :
  find_version_dir lib cands = Some v ->
  In v cands /\ is_dir (path_join lib v) = true /\ version_fullmatch v = true.
Proof.
  induction cands as [|n rest IH]; simpl; [discriminate|].
  destruct (is_dir (path_join lib n)) eqn:Hd, (version_fullmatch n) eqn:Hv; simpl;
    try (intros Hr; destruct (IH Hr) as (? & ? & ?); auto).
  intros [= <-]. auto.
Qed.

Lemma _add_first (g : string) : guest_paths (_add g paths_acc0) = [g].
Proof. reflexivity. Qed.

Lemma add_subdirs_fold (vd gb : string) (st : paths_acc) :
  add_subdirs vd gb st =
  fold_left (fun st x => _add x st)
    (map (fun sd => (gb ++ "/" ++ sd)%string)
         (filter (fun sd => is_dir (path_join vd sd)) ["lib-dynload"; "site-packages"])) st.
Proof.
  unfold add_subdirs. cbn [fold_left filter].
  destruct (is_dir (path_join vd "lib-dynload")), (is_dir (path_join vd "site-packages")); reflexivity.
Qed.

Lemma add_zips_fold (lib gp : string) (st : paths_acc) :
  add_zips lib gp st =
  fold_left (fun st x => _add x st)
    (map (fun z => (gp ++ "/lib/" ++ z)%string) (sort_names (filter zip_glob_match (fs_listdir lib)))) st.
Proof.
  unfold add_zips. generalize (sort_names (filter zip_glob_match (fs_listdir lib))) as l.
  intros l. revert st. induction l; simpl; auto.
Qed.

(** On a well-formed listing, the layout names no path twice: a version
    name has no 'z' and a bundle's has one, and no bundle's name has the
    '/' of a subdirectory's path. *)
Lemma layout_paths_NoDup (lib gp v : string) :
  version_fullmatch v = true -> listing_ok lib -> NoDup (layout_paths lib gp v).
Proof.
  intros Hv [Hnd Hsl]. unfold layout_paths.
  set (gb := (gp ++ "/lib/" ++ v)%string).
  set (zs := sort_names (filter zip_glob_match (fs_listdir lib))).
  assert (Hz : forall z, In z zs -> zip_glob_match z = true /\ str_has_char "/" z = false).
  { intros z Hin. unfold zs in Hin. rewrite In_sort_names, filter_In in Hin. destruct Hin as [Hin Hm].
    split; [exact Hm | exact (proj1 (Forall_forall _ _) Hsl z Hin)]. }
  assert (Hgz : forall z, In z zs -> gb <> (gp ++ "/lib/" ++ z)%string).
  { intros z Hin E. apply (inj (String.append gp)), (inj (String.append "/lib/")) in E. subst z.
    pose proof (zip_has_z v (proj1 (Hz v Hin))) as Hzz. rewrite version_no_z in Hzz by exact Hv. discriminate. }
  assert (Hsz : forall sd z, In z zs -> (gb ++ "/" ++ sd)%string <> (gp ++ "/lib/" ++ z)%string).
  { intros sd z Hin E. unfold gb in E. rewrite !str_app_assoc in E.
    apply (inj (String.append gp)), (inj (String.append "/lib/")) in E.
    pose proof (proj2 (Hz z Hin)) as Hs. rewrite <- E, !str_has_char_app in Hs.
    apply orb_false_iff in Hs as [_ Hs]. apply orb_false_iff in Hs as [Hs _]. discriminate Hs. }
  constructor.
  - rewrite in_app_iff, !in_map_iff. intros [(sd & E & _) | (z & E & Hin)].
    + exact (str_app_String_neq gb _ _ E).
    + exact (Hgz z Hin (eq_sym E)).
  - apply NoDup_app.
    + apply NoDup_map_inj; [exact (fun a b E => inj (String.append "/") _ _ (inj (String.append gb) _ _ E))|].
      apply NoDup_filter. repeat constructor; simpl; intuition discriminate.
    + apply NoDup_map_inj; [exact (fun a b E => inj (String.append "/lib/") _ _ (inj (String.append gp) _ _ E))|].
      apply (Permutation_NoDup (Permutation_sym (sort_names_perm _))), NoDup_filter, Hnd.
    + intros a (sd & <- & _)%in_map_iff (z & E & Hin)%in_map_iff. exact (Hsz sd z Hin (eq_sym E)).
Qed.

(** ** Theorems *)

(** C8: the discovered path list has no duplicates: [_add]'s [seen] set
    keeps the first occurrence only. *)
Theorem _discover_stdlib_paths_NoDup (python_root guest_prefix : string) :
  NoDup (_discover_stdlib_paths python_root guest_prefix).
Proof.
  unfold _discover_stdlib_paths. destruct (is_dir _); simpl; [|constructor].
  destruct (find_version_dir _ _); [|constructor].
  apply add_zips_inv, add_subdirs_inv, _add_inv, acc_inv0.
Qed.

(** Discovery returns the empty list (and no error) exactly when the
    module's [lib] is not a directory or holds no directory named like
    [python3] or [python3.12]. *)
Theorem _discover_stdlib_paths_nil_iff (python_root guest_prefix : string) :
  let lib := path_join python_root "lib" in
  _discover_stdlib_paths python_root guest_prefix = [] <->
  is_dir lib = false \/ find_version_dir lib (sort_names (fs_listdir lib)) = None.
Proof.
  simpl. unfold _discover_stdlib_paths.
  destruct (is_dir _); simpl; [|tauto].
  destruct (find_version_dir _ _) as [v|]; [|tauto].
  set (gb := (guest_prefix ++ "/lib/" ++ v)%string).
  destruct (add_subdirs_extends (path_join (path_join python_root "lib") v) gb (_add gb paths_acc0))
    as [a1 Ha1].
  destruct (add_zips_extends (path_join python_root "lib") guest_prefix
              (add_subdirs (path_join (path_join python_root "lib") v) gb (_add gb paths_acc0)))
    as [a2 ->].
  rewrite Ha1, _add_first. split; [discriminate | intros [H1|H1]; discriminate].
Qed.

(** When discovery finds anything, its first path is the guest path
    of a directory listed in [lib] whose name matches the version
    pattern. *)
Theorem _discover_stdlib_paths_head (python_root guest_prefix g : string) (rest : list string) :
  let lib := path_join python_root "lib" in
  _discover_stdlib_paths python_root guest_prefix = g :: rest ->
  exists v, g = (guest_prefix ++ "/lib/" ++ v)%string /\ In v (fs_listdir lib) /\
            is_dir (path_join lib v) = true /\ version_fullmatch v = true.
Proof.
  simpl. unfold _discover_stdlib_paths.
  destruct (is_dir _); simpl; [|discriminate].
  destruct (find_version_dir _ _) as [v|] eqn:Hv; [|discriminate].
  apply find_version_dir_spec in Hv as (Hin & Hd & Hm). rewrite In_sort_names in Hin.
  set (gb := (guest_prefix ++ "/lib/" ++ v)%string).
  destruct (add_subdirs_extends (path_join (path_join python_root "lib") v) gb (_add gb paths_acc0))
    as [a1 Ha1].
  destruct (add_zips_extends (path_join python_root "lib") guest_prefix
              (add_subdirs (path_join (path_join python_root "lib") v) gb (_add gb paths_acc0)))
    as [a2 ->].
  rewrite Ha1, _add_first. intros [= <- _]. exists v. auto.
Qed.

(** Every discovered path lies under the guest mount:
    [<guest_prefix>/lib/...]. *)
Theorem _discover_stdlib_paths_under_prefix (python_root guest_prefix : string) :
  Forall (fun p => str_startswith p (guest_prefix ++ "/lib/") = true)
         (_discover_stdlib_paths python_root guest_prefix).
Proof.
  assert (Hpre : forall x, str_startswith (guest_prefix ++ "/lib/" ++ x) (guest_prefix ++ "/lib/") = true)
    by (intros x; rewrite <- str_app_assoc; apply str_startswith_app).
  unfold _discover_stdlib_paths. destruct (is_dir _); simpl; [|constructor].
  destruct (find_version_dir _ _) as [v|]; [|constructor].
  set (P := fun st => Forall (fun p => str_startswith p (guest_prefix ++ "/lib/") = true)
                             (guest_paths st)).
  change (P (add_zips (path_join python_root "lib") guest_prefix
               (add_subdirs (path_join (path_join python_root "lib") v)
                  (guest_prefix ++ "/lib/" ++ v) (_add (guest_prefix ++ "/lib/" ++ v) paths_acc0)))).
  unfold add_zips, add_subdirs.
  apply fold_left_invariant; [intros st z _; apply _add_Forall, Hpre|].
  apply fold_left_invariant.
  - intros st sd _ Hst. destruct (is_dir _); [|exact Hst].
    apply _add_Forall; [apply str_startswith_app_r, Hpre | exact Hst].
  - apply _add_Forall; [apply Hpre | constructor].
Qed.

(** C20: On a well-formed listing of [lib] (each entry once, no '/' in a
    name), [_discover_stdlib_paths] is the plain layout: its [seen] set
    never drops a path, and the result is the version directory's guest
    path, then its existing [lib-dynload] and [site-packages], then the
    [python*.zip] bundles in sorted order. *)
Theorem _discover_stdlib_paths_layout (python_root guest_prefix : string) :
  let lib := path_join python_root "lib" in
  listing_ok lib ->
  _discover_stdlib_paths python_root guest_prefix =
    if is_dir lib then
      match find_version_dir lib (sort_names (fs_listdir lib)) with
      | Some v => layout_paths lib guest_prefix v
      | None => []
      end
    else [].
Proof.
  simpl. intros Hok. unfold _discover_stdlib_paths. destruct (is_dir _); simpl; [|reflexivity].
  destruct (find_version_dir _ _) as [v|] eqn:Hv; [|reflexivity].
  apply find_version_dir_spec in Hv as (_ & _ & Hm).
  rewrite add_zips_fold, add_subdirs_fold.
  change (_add ?g paths_acc0) with (fold_left (fun st x => _add x st) [g] paths_acc0).
  rewrite <- !fold_left_app, fold_add_fresh; [reflexivity | exact acc_inv0 | exact (layout_paths_NoDup _ guest_prefix v Hm Hok)].
Qed.

End Theorems.

Lemma _discover_stdlib_paths_head_witness :
  @_discover_stdlib_paths (listed_fs sample_layout) "/opt/py" "/python" =
    "/python/lib/python3.12" :: ["/python/lib/python3.12/site-packages"; "/python/lib/python312.zip"] /\
  exists v, "/python/lib/python3.12" = ("/python" ++ "/lib/" ++ v)%string /\
    In v (@fs_listdir (listed_fs sample_layout) (path_join "/opt/py" "lib")) /\
    @is_dir (listed_fs sample_layout) (path_join (path_join "/opt/py" "lib") v) = true /\
    version_fullmatch v = true.
Proof.
  split; [reflexivity|].
  exact (@_discover_stdlib_paths_head (listed_fs sample_layout) "/opt/py" "/python" _ _ eq_refl).
Defined.

Lemma _discover_stdlib_paths_layout_witness :
  @listing_ok (listed_fs sample_layout) (path_join "/opt/py" "lib") /\
  @_discover_stdlib_paths (listed_fs sample_layout) "/opt/py" "/python" =
    @layout_paths (listed_fs sample_layout) (path_join "/opt/py" "lib") "/python" "python3.12".
Proof.
  assert (Hok : @listing_ok (listed_fs sample_layout) (path_join "/opt/py" "lib"))
    by (split; vm_compute; repeat constructor; simpl; intuition discriminate).
  split; [exact Hok|].
  rewrite (@_discover_stdlib_paths_layout (listed_fs sample_layout) "/opt/py" "/python" Hok). reflexivity.
Defined.

End Discovery.
