(* ===== verification/Shlex.v ===== *)
(** [shlex.split(s)] as [_resolve_wasm_runtime] calls it on
    [PYTHON_WASM_RUNTIME_ARGS] (executor.py, line 149): the POSIX-mode
    [shlex] lexer of the Python library with [whitespace_split = True]
    and no comment characters.  [read_token]'s state ([self.state],
    [self.token], [quoted], [escapedstate]) is a record; [lex_step] is one
    iteration of its [while True] loop on one character, [lex_end] what
    it does at end of input.  The two [ValueError]s ("No closing
    quotation", "No escaped character") are values of [shlex_error].
    [shlex.quote] and [shlex.join], with which an operator writes a list
    of arguments into the variable, are modelled from the library too:
    [shlex_split_join] proves that [shlex.split] reads back what
    [shlex.join] writes, by following the lexer through a bare word, a
    single-quoted text and the ['"'"'] splice of a quote. *)

From Stdlib Require Import String Ascii Bool List Lia.
From S2P Require Import Prelude.
Import ListNotations.
Open Scope string_scope.

Module Shlex.

(** [self.state]: [' '], ['a'], a quote character, or the escape
    character [\]. *)
Inductive lstate := SWhite | SWord | SQuote (q : ascii) | SEscape.

Record lexer := {
  lx_state : lstate;
  lx_token : string;
  lx_quoted : bool;
  lx_escapedstate : lstate;
  lx_tokens : list string     (* what [list(lex)] has collected *)
}.

Inductive shlex_error := NoClosingQuotation | NoEscapedCharacter.

Definition BACKSLASH : ascii := "092"%char.
Definition DQUOTE : ascii := "034"%char.
Definition SQUOTE : ascii := "'"%char.

(** [self.whitespace = ' \t\r\n'] *)
Definition is_ws (c : ascii) : bool :=
  Ascii.eqb c " "%char || Ascii.eqb c "009"%char || Ascii.eqb c "013"%char || Ascii.eqb c "010"%char.

(** [self.quotes]: the single and the double quote *)
Definition is_quote (c : ascii) : bool := Ascii.eqb c SQUOTE || Ascii.eqb c DQUOTE.

Definition snoc (s : string) (c : ascii) : string := s ++ String c EmptyString.

(** [read_token] returns the token and [__next__] collects it; the next
    call starts with an empty token, [quoted = False]. *)
Definition emit (lx : lexer) (st : lstate) : lexer :=
  {| lx_state := st; lx_token := ""; lx_quoted := false;
     lx_escapedstate := lx_escapedstate lx; lx_tokens := lx_tokens lx ++ [lx_token lx] |}.

Definition set_state (lx : lexer) (st : lstate) (tok : string) (quoted : bool) (esc : lstate)
    : lexer :=
  {| lx_state := st; lx_token := tok; lx_quoted := quoted; lx_escapedstate := esc;
     lx_tokens := lx_tokens lx |}.

(** One iteration of [read_token]'s loop on the character [c]. *)
Definition lex_step (lx : lexer) (c : ascii) : lexer :=
  let tok := lx_token lx in
  let quoted := lx_quoted lx in
  let esc := lx_escapedstate lx in
  match lx_state lx with
  | SWhite =>
      if is_ws c then
        if negb (String.eqb tok "") || quoted then emit lx SWhite else lx
      else if Ascii.eqb c BACKSLASH then set_state lx SEscape tok quoted SWord
      else if is_quote c then set_state lx (SQuote c) tok quoted esc
      else set_state lx SWord (String c EmptyString) quoted esc
  | SQuote q =>
      if Ascii.eqb c q then set_state lx SWord tok true esc
      else if Ascii.eqb c BACKSLASH && Ascii.eqb q DQUOTE then set_state lx SEscape tok true (SQuote q)
      else set_state lx (SQuote q) (snoc tok c) true esc
  | SEscape =>
      let tok' := match esc with
                  | SQuote q => if negb (Ascii.eqb c BACKSLASH) && negb (Ascii.eqb c q)
                                then snoc tok BACKSLASH else tok
                  | _ => tok
                  end in
      set_state lx esc (snoc tok' c) quoted esc
  | SWord =>
      if is_ws c then
        if negb (String.eqb tok "") || quoted then emit lx SWhite
        else set_state lx SWhite tok quoted esc
      else if is_quote c then set_state lx (SQuote c) tok quoted esc
      else if Ascii.eqb c BACKSLASH then set_state lx SEscape tok quoted SWord
      else set_state lx SWord (snoc tok c) quoted esc
  end.

(** End of input: the last token if any, or the [ValueError]. *)
Definition lex_end (lx : lexer) : shlex_error + list string :=
  match lx_state lx with
  | SWhite | SWord =>
      if negb (String.eqb (lx_token lx) "") || lx_quoted lx
      then inr (lx_tokens lx ++ [lx_token lx])%list else inr (lx_tokens lx)
  | SQuote _ => inl NoClosingQuotation
  | SEscape => inl NoEscapedCharacter
  end.

Definition lexer0 : lexer :=
  {| lx_state := SWhite; lx_token := ""; lx_quoted := false;
     lx_escapedstate := SWhite; lx_tokens := [] |}.

Fixpoint lex_chars (lx : lexer) (cs : list ascii) : lexer :=
  match cs with
  | [] => lx
  | c :: cs' => lex_chars (lex_step lx c) cs'
  end.

(** [shlex.split(s)] *)
Definition shlex_split (s : string) : shlex_error + list string :=
  lex_end (lex_chars lexer0 (list_ascii_of_string s)).

(** ** [shlex.quote] and [shlex.join], how an operator writes a list of
    arguments into [PYTHON_WASM_RUNTIME_ARGS] *)

(** A character [re.compile(r'[^\w@%+=:,./-]', re.ASCII)] does not find. *)
Definition is_safe (c : ascii) : bool :=
  let n := nat_of_ascii c in
  (Nat.leb 48 n && Nat.leb n 57) || (Nat.leb 65 n && Nat.leb n 90) || (Nat.leb 97 n && Nat.leb n 122) ||
  Ascii.eqb c "_"%char || Ascii.eqb c "@"%char || Ascii.eqb c "%"%char || Ascii.eqb c "+"%char ||
  Ascii.eqb c "="%char || Ascii.eqb c ":"%char || Ascii.eqb c ","%char || Ascii.eqb c "."%char ||
  Ascii.eqb c "/"%char || Ascii.eqb c "-"%char.

Fixpoint all_safe (s : string) : bool :=
  match s with
  | EmptyString => true
  | String c s' => is_safe c && all_safe s'
  end.

(** [s.replace("'", "'\"'\"'")] *)
Fixpoint quote_squotes (s : string) : string :=
  match s with
  | EmptyString => EmptyString
  | String c s' =>
      if Ascii.eqb c SQUOTE
      then String SQUOTE (String DQUOTE (String SQUOTE (String DQUOTE (String SQUOTE (quote_squotes s')))))
      else String c (quote_squotes s')
  end.

(** [shlex.quote(s)] *)
Definition shlex_quote (s : string) : string :=
  if String.eqb s "" then String SQUOTE (String SQUOTE EmptyString)
  else if all_safe s then s
  else String SQUOTE (quote_squotes s ++ String SQUOTE EmptyString).

(** [shlex.join(args)] *)
Definition shlex_join (args : list string) : string := str_join " " (map shlex_quote args).

(** The state [read_token] starts a token in. *)
Definition fresh (esc : lstate) (toks : list string) : lexer :=
  {| lx_state := SWhite; lx_token := ""; lx_quoted := false; lx_escapedstate := esc; lx_tokens := toks |}.

Definition in_word (tok : string) (quoted : bool) (esc : lstate) (toks : list string) : lexer :=
  {| lx_state := SWord; lx_token := tok; lx_quoted := quoted; lx_escapedstate := esc; lx_tokens := toks |}.

Definition in_squote (tok : string) (quoted : bool) (esc : lstate) (toks : list string) : lexer :=
  {| lx_state := SQuote SQUOTE; lx_token := tok; lx_quoted := quoted; lx_escapedstate := esc; lx_tokens := toks |}.

Example shlex_split_words : shlex_split " --dir  /a::python	-W x " =
  inr ["--dir"; "/a::python"; "-W"; "x"].
Proof. reflexivity. Qed.

Example shlex_split_quotes : shlex_split "--env 'A=x y' B=\q '' x'y'z" =
  inr ["--env"; "A=x y"; "B=q"; ""; "xyz"].
Proof. reflexivity. Qed.

Example shlex_split_unbalanced : shlex_split "--env 'A=x" = inl NoClosingQuotation.
Proof. reflexivity. Qed.

(** ** Lemmas of [shlex.join] *)

Lemma str_app_nil_r (s : string) : (s ++ "")%string = s.
Proof. induction s as [|c s IH]; [reflexivity | cbn; now rewrite IH]. Qed.

Lemma list_ascii_of_string_app (a b : string) :
  list_ascii_of_string (a ++ b) = (list_ascii_of_string a ++ list_ascii_of_string b)%list.
Proof. induction a as [|c a IH]; [reflexivity | cbn; now rewrite IH]. Qed.

Lemma lex_chars_app (lx : lexer) (xs ys : list ascii) :
  lex_chars lx (xs ++ ys) = lex_chars (lex_chars lx xs) ys.
Proof. revert lx. induction xs as [|c xs IH]; intros lx; [reflexivity | apply IH]. Qed.

(** A safe character is no whitespace, quote or escape. *)
Lemma safe_char (c : ascii) :
  is_safe c = true -> is_ws c = false /\ Ascii.eqb c BACKSLASH = false /\ is_quote c = false.
Proof. destruct c as [[] [] [] [] [] [] [] []]; vm_compute; intros H; try discriminate H; repeat split. Qed.

Lemma lex_bare (s t : string) (q : bool) (e : lstate) (toks : list string) :
  all_safe s = true -> lex_chars (in_word t q e toks) (list_ascii_of_string s) = in_word (t ++ s) q e toks.
Proof.
  revert t. induction s as [|c s IH]; intros t Hs; [cbn; now rewrite str_app_nil_r|].
  cbn [all_safe] in Hs. apply andb_true_iff in Hs as [Hc Hs]. destruct (safe_char c Hc) as (Hw & Hb & Hq).
  cbn [list_ascii_of_string lex_chars].
  replace (lex_step (in_word t q e toks) c) with (in_word (snoc t c) q e toks)
    by (unfold lex_step; cbn [in_word lx_state lx_token lx_quoted lx_escapedstate]; now rewrite Hw, Hq, Hb).
  rewrite IH by exact Hs. unfold snoc. now rewrite str_app_assoc.
Qed.

Lemma lex_squote_other (c : ascii) (t : string) (q : bool) (e : lstate) (toks : list string) :
  c <> SQUOTE -> lex_step (in_squote t q e toks) c = in_squote (snoc t c) true e toks.
Proof.
  intros Hc. unfold lex_step. cbn [in_squote lx_state lx_token lx_quoted lx_escapedstate].
  destruct (Ascii.eqb_spec c SQUOTE) as [|_]; [contradiction|].
  change (Ascii.eqb SQUOTE DQUOTE) with false. now rewrite andb_false_r.
Qed.

(** Inside single quotes, the escaped text and the closing quote give
    back the text. *)
Lemma lex_squoted (s t : string) (q : bool) (e : lstate) (toks : list string) :
  lex_chars (in_squote t q e toks) (list_ascii_of_string (quote_squotes s ++ String SQUOTE EmptyString)) =
  in_word (t ++ s) true e toks.
Proof.
  revert t q. induction s as [|c s IH]; intros t q; [cbn; now rewrite str_app_nil_r|].
  cbn [quote_squotes]. destruct (Ascii.eqb_spec c SQUOTE) as [->|Hc].
  - transitivity (lex_chars (in_squote (snoc t SQUOTE) true e toks)
                    (list_ascii_of_string (quote_squotes s ++ String SQUOTE EmptyString))); [reflexivity|].
    rewrite IH. unfold snoc. now rewrite str_app_assoc.
  - transitivity (lex_chars (in_squote (snoc t c) true e toks)
                    (list_ascii_of_string (quote_squotes s ++ String SQUOTE EmptyString))).
    { cbn [append list_ascii_of_string lex_chars]. now rewrite lex_squote_other. }
    rewrite IH. unfold snoc. now rewrite str_app_assoc.
Qed.

(** [shlex.quote(a)] is read back as the token [a]. *)
Lemma lex_quote (a : string) (e : lstate) (toks : list string) :
  exists q, lex_chars (fresh e toks) (list_ascii_of_string (shlex_quote a)) = in_word a q e toks /\
            (q = true \/ a <> "").
Proof.
  unfold shlex_quote. destruct (String.eqb_spec a "") as [->|Hne]; [exists true; split; [reflexivity | now left]|].
  destruct (all_safe a) eqn:Hs.
  - exists false. split; [|now right]. destruct a as [|c a']; [contradiction|].
    cbn [all_safe] in Hs. apply andb_true_iff in Hs as [Hc Hs]. destruct (safe_char c Hc) as (Hw & Hb & Hq).
    cbn [list_ascii_of_string lex_chars].
    replace (lex_step (fresh e toks) c) with (in_word (String c EmptyString) false e toks)
      by (unfold lex_step; cbn [fresh lx_state lx_token lx_quoted lx_escapedstate]; now rewrite Hw, Hb, Hq).
    now rewrite lex_bare.
  - exists true. split; [|now left].
    transitivity (lex_chars (in_squote "" false e toks)
                    (list_ascii_of_string (quote_squotes a ++ String SQUOTE EmptyString))); [reflexivity|].
    now rewrite lex_squoted.
Qed.

(** The space [shlex.join] puts after a token ends it. *)
Lemma lex_space (tok : string) (q : bool) (e : lstate) (toks : list string) :
  q = true \/ tok <> "" -> lex_step (in_word tok q e toks) " "%char = fresh e (toks ++ [tok]).
Proof.
  intros H. unfold lex_step. cbn [in_word lx_state lx_token lx_quoted lx_escapedstate].
  change (is_ws " ") with true. cbn iota.
  destruct H as [->|H]; [now rewrite orb_true_r | now rewrite (proj2 (String.eqb_neq _ _) H)].
Qed.

Lemma lex_end_word (tok : string) (q : bool) (e : lstate) (toks : list string) :
  q = true \/ tok <> "" -> lex_end (in_word tok q e toks) = inr (toks ++ [tok])%list.
Proof.
  intros H. unfold lex_end. cbn [in_word lx_state lx_token lx_quoted].
  destruct H as [->|H]; [now rewrite orb_true_r | now rewrite (proj2 (String.eqb_neq _ _) H)].
Qed.

Lemma lex_join (args : list string) (e : lstate) (toks : list string) :
  lex_end (lex_chars (fresh e toks) (list_ascii_of_string (shlex_join args))) = inr (toks ++ args)%list.
Proof.
  unfold shlex_join. revert toks. induction args as [|a [|b rest] IH]; intros toks.
  - cbn. now rewrite app_nil_r.
  - destruct (lex_quote a e toks) as (q & E & Hq). cbn [map str_join]. rewrite E. now apply lex_end_word.
  - destruct (lex_quote a e toks) as (q & E & Hq). cbn [map str_join].
    rewrite !list_ascii_of_string_app, !lex_chars_app, E. cbn [list_ascii_of_string lex_chars].
    rewrite lex_space by exact Hq. rewrite IH. now rewrite <- app_assoc.
Qed.

(** ** Theorems *)

(** [shlex.split] reads back every list of arguments [shlex.join]
    writes: whatever an operator needs to pass the runtime can be put
    in [PYTHON_WASM_RUNTIME_ARGS], spaces, quotes and backslashes
    included. *)
Theorem shlex_split_join (args : list string) : shlex_split (shlex_join args) = inr args.
Proof. exact (lex_join args SWhite []). Qed.

End Shlex.
