(* ===== verification/Resolver.v ===== *)
(** The runtime resolver: [_locate_runtime] (executor.py, lines 94-102)
    and [_resolve_wasm_runtime] (105-151), over the [Fs.FileSystem]
    interface, with the process environment [os.environ] as a [gmap],
    the working directory and the home directory as inputs.  The
    library functions they call are modelled from CPython:
    [os.path.normpath] / [abspath] (posixpath), [shutil.which] with its
    [_access_check], and [shlex.split] ([Shlex.v]).  Every [raise] is a
    value of [resolve_error]; the code threads them with [let*]. *)

From stdpp Require Import base gmap strings list.
From Stdlib Require Import ZArith String Ascii Bool List Lia.
From S2P Require Import Prelude Fs Shlex.
Import ListNotations.
Open Scope string_scope.

Module Resolver.
Import Fs Shlex.

(** ** posixpath *)

(** [os.path.isabs] *)
Definition isabs (p : string) : bool := str_startswith p "/".

(** [os.path.join(a, b)] *)
Definition posix_join (a b : string) : string :=
  if isabs b then b
  else if String.eqb a "" || str_endswith a "/" then a ++ b else a ++ "/" ++ b.

(** The component loop of [os.path.normpath]. *)
Definition normpath_comps (initial_slashes : nat) (comps : list string) : list string :=
  fold_left (fun new_comps comp =>
               if String.eqb comp "" || String.eqb comp "." then new_comps
               else if negb (String.eqb comp "..")
                       || ((initial_slashes =? 0)%nat && (length new_comps =? 0)%nat)
                       || (match last new_comps "" with ".." => negb (length new_comps =? 0)%nat
                                                       | _ => false end)
               then (new_comps ++ [comp])%list
               else removelast new_comps)
            comps [].

(** [os.path.normpath] *)
Definition normpath (path : string) : string :=
  if String.eqb path "" then "."
  else
    let initial_slashes :=
      if str_startswith path "/" then
        if str_startswith path "//" && negb (str_startswith path "///") then 2%nat else 1%nat
      else 0%nat in
    let p := str_join "/" (normpath_comps initial_slashes (str_split "/"%char path)) in
    let p := (string_of_list_ascii (repeat "/"%char initial_slashes) ++ p)%string in
    if String.eqb p "" then "." else p.

(** [os.path.abspath] with the process's working directory [cwd] *)
Definition abspath (cwd path : string) : string :=
  normpath (if isabs path then path else posix_join cwd path).

(** ** shutil.which *)

(** [os.confstr("CS_PATH")] on glibc, used when [PATH] is unset *)
Definition CS_PATH : string := "/bin:/usr/bin".

Section WithFs.
Context `{FileSystem}.

(** [shutil._access_check(fn, os.F_OK | os.X_OK)] *)
Definition access_check (fn : string) : bool :=
  exists_path fn && access_x fn && negb (is_dir fn).

(** The [for dir in path] loop of [which], with its [seen] set. *)
Fixpoint which_loop (cmd : string) (dirs : list string) (seen : gset string) : option string :=
  match dirs with
  | [] => None
  | d :: ds =>
      if decide (d ∈ seen) then which_loop cmd ds seen
      else
        let name := posix_join d cmd in
        if access_check name then Some name else which_loop cmd ds ({[d]} ∪ seen)
  end.

(** [shutil.which(cmd)] *)
Definition which (environ : gmap string string) (cmd : string) : option string :=
  if str_has_char "/"%char cmd then (if access_check cmd then Some cmd else None)
  else
    let path := match environ !! "PATH" with Some p => p | None => CS_PATH end in
    if String.eqb path "" then None
    else which_loop cmd (str_split ":"%char path) ∅.

(** [_locate_runtime(executable)] *)
Definition _locate_runtime (environ : gmap string string) (cwd : string)
    (executable : option string) : option string :=
  match executable with
  | None => None
  | Some e =>
      if String.eqb e "" then None
      else if isabs e || str_has_char "/"%char e then
        let candidate := abspath cwd e in
        if is_file candidate && access_x candidate then Some candidate else None
      else which environ e
  end.

(** The well-known installation locations, in order. *)
Definition default_runtime_paths (home : string) : list string :=
  ["/opt/homebrew/bin/wasmtime"; "/usr/local/bin/wasmtime";
   path_join (path_join (path_join home ".wasmtime") "bin") "wasmtime";
   path_join (path_join (path_join home ".cargo") "bin") "wasmtime"].

(** The [for default_path in (...)] loop with its [break]. *)
Fixpoint first_default (paths : list string) : option string :=
  match paths with
  | [] => None
  | p :: ps => if is_file p && access_x p then Some p else first_default ps
  end.

(** Lines 106-118: the explicit setting, then [wasmtime] on [PATH], then
    the well-known locations. *)
Definition find_runtime (environ : gmap string string) (cwd home : string) : option string :=
  match _locate_runtime environ cwd (environ !! "PYTHON_WASM_RUNTIME") with
  | Some p => Some p
  | None =>
      match _locate_runtime environ cwd (Some "wasmtime") with
      | Some p => Some p
      | None => first_default (default_runtime_paths home)
      end
  end.

End WithFs.

(** ** _resolve_wasm_runtime *)

Inductive resolve_error :=
  | RuntimeNotFound                  (* "WASM runtime binary not found ..." *)
  | ModulePathUnset                  (* "PYTHON_WASM_PATH environment variable must ..." *)
  | ModuleNotFound (path : string)   (* "WASM module not found at PYTHON_WASM_PATH: ..." *)
  | ModuleIsDirectory (path : string)(* "... but a directory was provided: ..." *)
  | ModuleUnreadable                 (* "Unable to read the WASM module ..." *)
  | BadMagic                         (* "... valid WebAssembly module (magic '\0asm') ..." *)
  | ArgsSyntax (e : shlex_error).    (* ValueError of shlex.split, not caught *)

(** [b"\0asm"] *)
Definition WASM_MAGIC : list Z := [0; 0x61; 0x73; 0x6D]%Z.

Definition list_Z_eqb (a b : list Z) : bool :=
  (length a =? length b)%nat && forallb (fun '(x, y) => Z.eqb x y) (combine a b).

Section Resolve.
Context `{FileSystem}.

Definition _resolve_wasm_runtime (environ : gmap string string) (cwd home : string)
    : resolve_error + (string * string * list string) :=
  let* runtime_path := match find_runtime environ cwd home with
                       | Some p => inr p | None => inl RuntimeNotFound end in
  let* wasm_module := match environ !! "PYTHON_WASM_PATH" with
                      | Some m => if String.eqb m "" then inl ModulePathUnset else inr m
                      | None => inl ModulePathUnset
                      end in
  let* _ := raise_unless (exists_path wasm_module) (ModuleNotFound wasm_module) in
  let* _ := raise_unless (negb (is_dir wasm_module)) (ModuleIsDirectory wasm_module) in
  let* magic := match read_prefix wasm_module 4 with
                | Some bs => inr bs | None => inl ModuleUnreadable end in
  let* _ := raise_unless (list_Z_eqb magic WASM_MAGIC) BadMagic in
  let raw_args := match environ !! "PYTHON_WASM_RUNTIME_ARGS" with Some a => a | None => "" end in
  let* extra_args := match shlex_split raw_args with
                     | inr args => inr args | inl e => inl (ArgsSyntax e) end in
  inr (runtime_path, abspath cwd wasm_module, extra_args).

End Resolve.

(** A host with [wasmtime] in [/usr/local/bin] and the module in [/opt/py]. *)
Definition sample_host : list (string * node) :=
  [("/usr/local/bin", Directory); ("/usr/local/bin/wasmtime", Regular true [0x7F; 0x45; 0x4C; 0x46; 2]%Z);
   ("/opt/py", Directory); ("/opt/py/python.wasm", Regular false [0; 0x61; 0x73; 0x6D; 1; 0; 0; 0]%Z);
   ("/opt/py/lib", Directory)].

Definition sample_env : gmap string string :=
  <["PATH" := "/usr/bin:/usr/local/bin"]> (<["PYTHON_WASM_PATH" := "/opt/py/python.wasm"]> ∅).

(** The sample host as a [FileSystem], the instance of the witnesses. *)
Definition sample_fs : FileSystem := listed_fs sample_host.

(** [sample_env] with one more variable. *)
Definition env_with (k v : string) : gmap string string := <[k := v]> sample_env.

(** The server runs in [/opt]: the relative module path is looked up there. *)
Definition cwd_host : list (string * node) :=
  ("py/python.wasm", Regular false [0; 0x61; 0x73; 0x6D]%Z) :: sample_host.

(** A host with the module and no runtime anywhere. *)
Definition no_runtime_host : list (string * node) := [("/opt/py/python.wasm", Regular false WASM_MAGIC)].

Example resolve_sample :
  @_resolve_wasm_runtime (listed_fs sample_host) sample_env "/srv" "/home/u" =
  inr ("/usr/local/bin/wasmtime", "/opt/py/python.wasm", []).
Proof. reflexivity. Qed.

Example resolve_directory :
  @_resolve_wasm_runtime (listed_fs sample_host)
    (<["PYTHON_WASM_PATH" := "/opt/py"]> sample_env) "/srv" "/home/u" = inl (ModuleIsDirectory "/opt/py").
Proof. reflexivity. Qed.

Example normpath_cases :
  map normpath ["/a//b/./c/../d"; "a/../../b"; "//x/y"; "///x"; ""; "/.."]
  = ["/a/b/d"; "../b"; "//x/y"; "/x"; "."; "/"].
Proof. reflexivity. Qed.

(** ** Lemmas *)

(** A result of [normpath] that starts with slashes is absolute. *)
Lemma slashes_then_isabs (k : nat) (x : string) :
  (0 < k)%nat ->
  isabs (let q := (string_of_list_ascii (repeat "/"%char k) ++ x)%string in
         if String.eqb q "" then "." else q) = true.
Proof.
  destruct k as [|k]; [lia|]. intros _. cbv zeta.
  replace (String.eqb _ "") with false by reflexivity.
  exact (str_startswith_app "/" (string_of_list_ascii (repeat "/"%char k) ++ x)).
Qed.

(** [normpath] keeps a path absolute. *)
Lemma normpath_isabs (p : string) : isabs p = true -> isabs (normpath p) = true.
Proof.
  unfold normpath. intros Hp.
  destruct (String.eqb p "") eqn:E; [apply String.eqb_eq in E; subst; discriminate|].
  unfold isabs in Hp. rewrite Hp.
  destruct (_ && _); apply slashes_then_isabs; lia.
Qed.

Lemma posix_join_isabs (a b : string) : isabs a = true -> isabs (posix_join a b) = true.
Proof.
  unfold posix_join. intros Ha. destruct (isabs b) eqn:Hb; [exact Hb|].
  destruct (_ || _); unfold isabs; apply str_startswith_app_r, Ha.
Qed.

Section Lemmas.
Context `{FileSystem}.

Lemma access_check_file (p : string) : is_file p && access_x p = true -> access_check p = true.
Proof.
  unfold access_check, is_file, access_x, exists_path, is_dir.
  destruct (fs_lookup p) as [[x c|]|]; simpl; rewrite ?andb_true_r; congruence.
Qed.

Lemma which_loop_checked (cmd : string) (dirs : list string) (seen : gset string) (p : string) :
  which_loop cmd dirs seen = Some p -> access_check p = true.
Proof.
  revert seen. induction dirs as [|d ds IH]; intros seen; simpl; [discriminate|].
  case_decide; [apply IH|]. destruct (access_check (posix_join d cmd)) eqn:E; [intros Heq; invc Heq; exact E | apply IH].
Qed.

Lemma which_checked (environ : gmap string string) (cmd p : string) :
  which environ cmd = Some p -> access_check p = true.
Proof.
  unfold which. destruct (str_has_char _ _).
  - destruct (access_check cmd) eqn:E; [intros Heq; invc Heq; exact E | discriminate].
  - destruct (String.eqb _ _); [discriminate | apply which_loop_checked].
Qed.

Lemma _locate_runtime_checked (environ : gmap string string) (cwd : string) (e : option string) (p : string) :
  _locate_runtime environ cwd e = Some p -> access_check p = true.
Proof.
  unfold _locate_runtime. destruct e as [e|]; [|discriminate].
  destruct (String.eqb e ""); [discriminate|]. destruct (_ || _).
  - destruct (_ && _) eqn:E; [intros [= <-]; now apply access_check_file | discriminate].
  - apply which_checked.
Qed.

Lemma first_default_checked (ps : list string) (p : string) :
  first_default ps = Some p -> access_check p = true.
Proof.
  induction ps as [|q ps IH]; simpl; [discriminate|].
  destruct (_ && _) eqn:E; [intros [= <-]; now apply access_check_file | exact IH].
Qed.

(** Whatever the lookup order picks exists, is executable and is not a
    directory. *)
Lemma find_runtime_checked (environ : gmap string string) (cwd home p : string) :
  find_runtime environ cwd home = Some p -> access_check p = true.
Proof.
  unfold find_runtime.
  destruct (_locate_runtime _ _ (environ !! _)) eqn:E1; [intros [= <-]; eapply _locate_runtime_checked; eauto|].
  destruct (_locate_runtime _ _ (Some _)) eqn:E2; [intros [= <-]; eapply _locate_runtime_checked; eauto|].
  apply first_default_checked.
Qed.

Lemma list_Z_eqb_eq (a b : list Z) : list_Z_eqb a b = true -> a = b.
Proof.
  revert b. induction a as [|x a IH]; intros [|y b]; unfold list_Z_eqb; simpl; try discriminate; [reflexivity|].
  intros Hab. apply andb_true_iff in Hab as [Hl Hf]. apply andb_true_iff in Hf as [Hxy Hf].
  apply Z.eqb_eq in Hxy as ->. f_equal. apply IH. unfold list_Z_eqb. rewrite Hl, Hf. reflexivity.
Qed.

Lemma is_file_of (p : string) : exists_path p = true -> is_dir p = false -> is_file p = true.
Proof. unfold exists_path, is_dir, is_file. destruct (fs_lookup p) as [[]|]; congruence. Qed.

Lemma list_Z_eqb_refl (a : list Z) : list_Z_eqb a a = true.
Proof.
  unfold list_Z_eqb. rewrite Nat.eqb_refl. induction a as [|x a IH]; [reflexivity|].
  simpl. rewrite Z.eqb_refl. exact IH.
Qed.

(** Every success of [_resolve_wasm_runtime], step by step. *)
Lemma _resolve_wasm_runtime_inr (environ : gmap string string) (cwd home r m : string)
    (args : list string) :
  _resolve_wasm_runtime environ cwd home = inr (r, m, args) ->
  find_runtime environ cwd home = Some r /\
  exists mraw, environ !! "PYTHON_WASM_PATH" = Some mraw /\ mraw <> "" /\
    exists_path mraw = true /\ is_dir mraw = false /\
    read_prefix mraw 4 = Some WASM_MAGIC /\ m = abspath cwd mraw /\
    shlex_split (default "" (environ !! "PYTHON_WASM_RUNTIME_ARGS")) = inr args.
Proof.
  unfold _resolve_wasm_runtime. intros Hres. exc_inv Hres.
  repeat match goal with
  | Hr : raise_unless _ _ = inr _ |- _ => apply raise_unless_inr in Hr
  | Hm : (match ?x with _ => _ end) = inr _ |- _ => destruct x eqn:?; try discriminate
  end.
  simplify_eq.
  repeat match goal with
  | Hb : negb _ = true |- _ => apply negb_true_iff in Hb
  | Hb : list_Z_eqb _ _ = true |- _ => apply list_Z_eqb_eq in Hb
  end; subst. split; [reflexivity|].
  eexists; repeat split; eauto. now apply String.eqb_neq.
Qed.

Lemma abspath_isabs (cwd p : string) : isabs cwd = true -> isabs (abspath cwd p) = true.
Proof.
  intros Hc. unfold abspath. apply normpath_isabs.
  destruct (isabs p) eqn:Ep; [exact Ep | now apply posix_join_isabs].
Qed.

Lemma isabs_app (c : ascii) (a b : string) : isabs (String c a) = false -> isabs (String c a ++ b) = false.
Proof.
  unfold isabs. intros Ha. apply not_true_iff_false. intros Hab.
  apply str_startswith_char in Hab as [r Hr]. injection Hr as -> _.
  change (String "/" a) with ("/" ++ a)%string in Ha. now rewrite str_startswith_app in Ha.
Qed.

(** [os.path.join] of two relative paths is relative. *)
Lemma posix_join_rel (a b : string) : isabs a = false -> isabs b = false -> isabs (posix_join a b) = false.
Proof.
  intros Ha Hb. unfold posix_join. rewrite Hb. destruct a as [|c a]; [exact Hb|].
  destruct (_ || _); now apply isabs_app.
Qed.

Lemma which_bare (environ : gmap string string) (cmd path : string) :
  str_has_char "/"%char cmd = false -> environ !! "PATH" = Some path -> path <> "" ->
  which environ cmd = which_loop cmd (str_split ":"%char path) ∅.
Proof. intros Hc Hp Hne. unfold which. rewrite Hc, Hp. apply String.eqb_neq in Hne. now rewrite Hne. Qed.

End Lemmas.

(** ** Theorems *)

Section Theorems.
Context `{FileSystem}.

(** C5: A successful [_resolve_wasm_runtime] names a runtime that exists,
    is executable and is not a directory, and a module that is the
    absolute form of [PYTHON_WASM_PATH], is a regular file and starts
    with the magic [\0asm]. *)
Theorem _resolve_wasm_runtime_ok (environ : gmap string string) (cwd home r m : string)
    (args : list string) :
  _resolve_wasm_runtime environ cwd home = inr (r, m, args) ->
  access_check r = true /\
  exists mraw, environ !! "PYTHON_WASM_PATH" = Some mraw /\ m = abspath cwd mraw /\
    is_file mraw = true /\ read_prefix mraw 4 = Some WASM_MAGIC.
Proof.
  intros Hres. apply _resolve_wasm_runtime_inr in Hres as (Hr & mraw & Hm & _ & He & Hd & Hmagic & -> & _).
  split; [now apply (find_runtime_checked environ cwd home)|].
  exists mraw. repeat split; auto using is_file_of.
Qed.

(** Run from an absolute working directory, the module path the
    resolver returns is absolute. *)
Theorem _resolve_wasm_runtime_module_abs (environ : gmap string string) (cwd home r m : string)
    (args : list string) :
  isabs cwd = true ->
  _resolve_wasm_runtime environ cwd home = inr (r, m, args) -> isabs m = true.
Proof.
  intros Hc Hres. apply _resolve_wasm_runtime_inr in Hres as (_ & mraw & _ & _ & _ & _ & _ & -> & _).
  now apply abspath_isabs.
Qed.

(** Without a runtime the resolver fails with the runtime error,
    whatever [PYTHON_WASM_PATH] holds: the runtime is checked first. *)
Theorem _resolve_wasm_runtime_no_runtime (environ : gmap string string) (cwd home : string) :
  find_runtime environ cwd home = None ->
  _resolve_wasm_runtime environ cwd home = inl RuntimeNotFound.
Proof. intros Hf. unfold _resolve_wasm_runtime. now rewrite Hf. Qed.

(** With a runtime found and [PYTHON_WASM_PATH] unset or empty, the
    resolver fails with [ModulePathUnset]. *)
Theorem _resolve_wasm_runtime_unset (environ : gmap string string) (cwd home r : string) :
  find_runtime environ cwd home = Some r ->
  environ !! "PYTHON_WASM_PATH" = None \/ environ !! "PYTHON_WASM_PATH" = Some "" ->
  _resolve_wasm_runtime environ cwd home = inl ModulePathUnset.
Proof. intros Hf Hm. unfold _resolve_wasm_runtime. rewrite Hf. now destruct Hm as [-> | ->]. Qed.

(** A [PYTHON_WASM_PATH] that names a directory is rejected with
    [ModuleIsDirectory] before anything is read. *)
Theorem _resolve_wasm_runtime_directory (environ : gmap string string) (cwd home r m : string) :
  find_runtime environ cwd home = Some r ->
  environ !! "PYTHON_WASM_PATH" = Some m -> m <> "" -> is_dir m = true ->
  _resolve_wasm_runtime environ cwd home = inl (ModuleIsDirectory m).
Proof.
  intros Hf Hm Hne Hd. unfold _resolve_wasm_runtime, raise_unless. rewrite Hf, Hm.
  apply String.eqb_neq in Hne. rewrite Hne. cbn.
  replace (exists_path m) with true by (revert Hd; unfold is_dir, exists_path; destruct (fs_lookup m); congruence).
  now rewrite Hd.
Qed.

(** A regular file whose first four bytes are not [\0asm] (say the
    runtime binary itself) is rejected with [BadMagic]. *)
Theorem _resolve_wasm_runtime_bad_magic (environ : gmap string string) (cwd home r m : string)
    (x : bool) (bs : list Z) :
  find_runtime environ cwd home = Some r ->
  environ !! "PYTHON_WASM_PATH" = Some m -> m <> "" ->
  fs_lookup m = Some (Regular x bs) -> firstn 4 bs <> WASM_MAGIC ->
  _resolve_wasm_runtime environ cwd home = inl BadMagic.
Proof.
  intros Hf Hm Hne Hl Hb. unfold _resolve_wasm_runtime, raise_unless, exists_path, is_dir, read_prefix.
  apply String.eqb_neq in Hne. rewrite Hf, Hm, Hne. cbn [bind_exc]. rewrite Hl. cbn [bind_exc negb].
  destruct (list_Z_eqb _ _) eqn:E; [apply list_Z_eqb_eq in E; contradiction | reflexivity].
Qed.

(** C34: A syntax error in [PYTHON_WASM_RUNTIME_ARGS] (an unbalanced
    quote) surfaces as the [ValueError] of [shlex.split], after every
    check of the runtime and module has passed. *)
Theorem _resolve_wasm_runtime_args_error (environ : gmap string string) (cwd home r m a : string)
    (x : bool) (bs : list Z) (e : shlex_error) :
  find_runtime environ cwd home = Some r ->
  environ !! "PYTHON_WASM_PATH" = Some m -> m <> "" ->
  fs_lookup m = Some (Regular x bs) -> firstn 4 bs = WASM_MAGIC ->
  environ !! "PYTHON_WASM_RUNTIME_ARGS" = Some a -> shlex_split a = inl e ->
  _resolve_wasm_runtime environ cwd home = inl (ArgsSyntax e).
Proof.
  intros Hf Hm Hne Hl Hb Ha He. unfold _resolve_wasm_runtime, raise_unless, exists_path, is_dir, read_prefix.
  apply String.eqb_neq in Hne. rewrite Hf, Hm, Hne. cbn [bind_exc]. rewrite Hl. cbn [bind_exc negb].
  rewrite Hb, list_Z_eqb_refl. cbn [bind_exc]. now rewrite Ha, He.
Qed.

(** C9: An operator who writes the runtime's extra arguments with
    [shlex.join] gets exactly those arguments: [_resolve_wasm_runtime]
    never fails on their syntax, and when it succeeds it passes them on
    as they were, spaces, quotes and backslashes included. *)
Theorem _resolve_wasm_runtime_join_args (environ : gmap string string) (cwd home : string) (args : list string) :
  environ !! "PYTHON_WASM_RUNTIME_ARGS" = Some (shlex_join args) ->
  match _resolve_wasm_runtime environ cwd home with
  | inr (_, _, extra) => extra = args
  | inl e => forall se, e <> ArgsSyntax se
  end.
Proof.
  intros Ha. destruct (_resolve_wasm_runtime environ cwd home) as [e|[[r m] extra]] eqn:E.
  - intros se ->. unfold _resolve_wasm_runtime in E. rewrite Ha, shlex_split_join in E.
    unfold bind_exc, raise_unless in E. repeat case_match; simplify_eq.
  - apply _resolve_wasm_runtime_inr in E as (_ & _ & _ & _ & _ & _ & _ & _ & Hs).
    rewrite Ha in Hs. change (shlex_split (shlex_join args) = inr extra) in Hs.
    rewrite shlex_split_join in Hs. now injection Hs.
Qed.

(** C35: [shutil.which] returns the entry of [PATH] joined with the
    name as it is.  With [PYTHON_WASM_RUNTIME] unset and [wasmtime] in a
    first [PATH] entry that is relative, the runtime the service picks is
    a relative path, whatever the rest of the file system: Popen(cmd,
    cwd=workdir) then looks it up relative to the temporary directory
    instead of the server's working directory. *)
Theorem find_runtime_relative (environ : gmap string string) (cwd home path d : string) (ds : list string) :
  environ !! "PYTHON_WASM_RUNTIME" = None -> environ !! "PATH" = Some path -> path <> "" ->
  str_split ":"%char path = d :: ds -> isabs d = false -> access_check (posix_join d "wasmtime") = true ->
  find_runtime environ cwd home = Some (posix_join d "wasmtime") /\ isabs (posix_join d "wasmtime") = false.
Proof.
  intros Hr Hp Hne Hs Hd Ha. split; [|apply posix_join_rel; [exact Hd | reflexivity]].
  unfold find_runtime. rewrite Hr.
  change (_locate_runtime environ cwd (Some "wasmtime")) with (which environ "wasmtime").
  rewrite (which_bare environ "wasmtime" path eq_refl Hp Hne), Hs. cbn [which_loop].
  rewrite decide_False by set_solver. now rewrite Ha.
Qed.

End Theorems.

(** ** The theorems on the sample host *)

#[local] Existing Instance sample_fs.

Lemma _resolve_wasm_runtime_ok_witness :
  _resolve_wasm_runtime sample_env "/srv" "/home/u" =
    inr ("/usr/local/bin/wasmtime", "/opt/py/python.wasm", []) /\
  access_check "/usr/local/bin/wasmtime" = true /\
  exists mraw, sample_env !! "PYTHON_WASM_PATH" = Some mraw /\ "/opt/py/python.wasm" = abspath "/srv" mraw /\
    is_file mraw = true /\ read_prefix mraw 4 = Some WASM_MAGIC.
Proof. split; [reflexivity | exact (_resolve_wasm_runtime_ok sample_env "/srv" "/home/u" _ _ _ eq_refl)]. Defined.

Lemma _resolve_wasm_runtime_module_abs_witness :
  isabs "/opt" = true /\
  @_resolve_wasm_runtime (listed_fs cwd_host) (env_with "PYTHON_WASM_PATH" "py/python.wasm") "/opt" "/home/u" =
    inr ("/usr/local/bin/wasmtime", "/opt/py/python.wasm", []) /\
  isabs "/opt/py/python.wasm" = true.
Proof.
  split; [reflexivity|]. split; [reflexivity|].
  exact (@_resolve_wasm_runtime_module_abs (listed_fs cwd_host) (env_with "PYTHON_WASM_PATH" "py/python.wasm")
           "/opt" "/home/u" "/usr/local/bin/wasmtime" _ [] eq_refl eq_refl).
Defined.

Lemma _resolve_wasm_runtime_no_runtime_witness :
  @find_runtime (listed_fs no_runtime_host) sample_env "/srv" "/home/u" = None /\
  @_resolve_wasm_runtime (listed_fs no_runtime_host) sample_env "/srv" "/home/u" = inl RuntimeNotFound.
Proof. split; [reflexivity | apply _resolve_wasm_runtime_no_runtime; reflexivity]. Defined.

Lemma _resolve_wasm_runtime_unset_witness :
  find_runtime (env_with "PYTHON_WASM_PATH" "") "/srv" "/home/u" = Some "/usr/local/bin/wasmtime" /\
  _resolve_wasm_runtime (env_with "PYTHON_WASM_PATH" "") "/srv" "/home/u" = inl ModulePathUnset.
Proof.
  split; [reflexivity|]. apply (_resolve_wasm_runtime_unset _ _ _ "/usr/local/bin/wasmtime"); [reflexivity|].
  right. reflexivity.
Defined.

Lemma _resolve_wasm_runtime_directory_witness :
  is_dir "/opt/py" = true /\
  _resolve_wasm_runtime (env_with "PYTHON_WASM_PATH" "/opt/py") "/srv" "/home/u" =
    inl (ModuleIsDirectory "/opt/py").
Proof.
  split; [reflexivity|].
  apply (_resolve_wasm_runtime_directory _ _ _ "/usr/local/bin/wasmtime"); first [reflexivity | discriminate].
Defined.

Lemma _resolve_wasm_runtime_bad_magic_witness :
  firstn 4 [0x7F; 0x45; 0x4C; 0x46; 2]%Z <> WASM_MAGIC /\
  _resolve_wasm_runtime (env_with "PYTHON_WASM_PATH" "/usr/local/bin/wasmtime") "/srv" "/home/u" =
    inl BadMagic.
Proof.
  split; [discriminate|].
  apply (_resolve_wasm_runtime_bad_magic _ _ _ "/usr/local/bin/wasmtime" "/usr/local/bin/wasmtime" true [0x7F; 0x45; 0x4C; 0x46; 2]%Z);
    first [reflexivity | discriminate].
Defined.

Lemma _resolve_wasm_runtime_args_error_witness :
  shlex_split "--env 'A=x" = inl NoClosingQuotation /\
  _resolve_wasm_runtime (env_with "PYTHON_WASM_RUNTIME_ARGS" "--env 'A=x") "/srv" "/home/u" =
    inl (ArgsSyntax NoClosingQuotation).
Proof.
  split; [reflexivity|].
  apply (_resolve_wasm_runtime_args_error _ _ _ "/usr/local/bin/wasmtime" "/opt/py/python.wasm" "--env 'A=x"
           false [0; 0x61; 0x73; 0x6D; 1; 0; 0; 0]%Z); first [reflexivity | discriminate].
Defined.

Lemma find_runtime_relative_witness :
  let fs := listed_fs [("tools", Directory); ("tools/wasmtime", Regular true [])] in
  (<["PATH" := "tools"]> ∅ : gmap string string) !! "PYTHON_WASM_RUNTIME" = None /\
  @find_runtime fs (<["PATH" := "tools"]> ∅) "/srv" "/home/u" = Some "tools/wasmtime" /\
  isabs "tools/wasmtime" = false.
Proof.
  cbv zeta. split; [reflexivity|].
  exact (@find_runtime_relative (listed_fs [("tools", Directory); ("tools/wasmtime", Regular true [])])
           (<["PATH" := "tools"]> ∅) "/srv" "/home/u" "tools" "tools" [] eq_refl eq_refl ltac:(discriminate)
           eq_refl eq_refl eq_refl).
Defined.

(** The sample host, with two extra arguments written by [shlex.join]. *)
Lemma _resolve_wasm_runtime_join_args_witness :
  (<["PYTHON_WASM_RUNTIME_ARGS" := shlex_join ["--dir"; "/srv/data dir::/data"]]> sample_env) !!
    "PYTHON_WASM_RUNTIME_ARGS" = Some (shlex_join ["--dir"; "/srv/data dir::/data"]) /\
  _resolve_wasm_runtime (<["PYTHON_WASM_RUNTIME_ARGS" := shlex_join ["--dir"; "/srv/data dir::/data"]]> sample_env)
    "/srv" "/home/u" = inr ("/usr/local/bin/wasmtime", "/opt/py/python.wasm", ["--dir"; "/srv/data dir::/data"]).
Proof.
  assert (Ha : (<["PYTHON_WASM_RUNTIME_ARGS" := shlex_join ["--dir"; "/srv/data dir::/data"]]> sample_env) !!
                 "PYTHON_WASM_RUNTIME_ARGS" = Some (shlex_join ["--dir"; "/srv/data dir::/data"])) by reflexivity.
  split; [exact Ha|].
  pose proof (_resolve_wasm_runtime_join_args _ "/srv" "/home/u" _ Ha) as Hj.
  destruct (_resolve_wasm_runtime _ "/srv" "/home/u") as [e|[[r m] extra]] eqn:E; [vm_compute in E; discriminate|].
  subst extra. vm_compute in E. now injection E as -> ->.
Defined.

End Resolver.
