(* ===== verification/Supervisor.v ===== *)
(** The process supervisor: [_limit_preexec] (executor.py, lines 32-64)
    and the spawn, wait, kill and drain of [execute_python] (285-327).

    The child is described by what the code cannot control: when the
    runtime and the processes it starts (which inherit its process group
    and its pipes) exit by themselves, the runtime's exit status and the
    bytes it writes.  Times are milliseconds after the spawn.  The code's
    decisions are the definitions: which limits the hook sets and whether
    it calls [os.setsid()], when [communicate] gives up, whom [os.killpg]
    and [proc.kill] reach, whether the drain [proc.communicate()] returns,
    and how the result record is filled. *)

From Stdlib Require Import ZArith List Bool Lia.
From S2P Require Import Prelude Utf8 Sanitizer.
Import ListNotations.

Module Supervisor.
Import Utf8 Sanitizer.
Open Scope Z_scope.

(** ** _limit_preexec *)

(** The [resource.RLIMIT_*] the hook sets, in its order. *)
Inductive rlimit := RLIMIT_CPU | RLIMIT_AS | RLIMIT_FSIZE | RLIMIT_NOFILE | RLIMIT_NPROC.

Scheme Equality for rlimit.

(** What the hook leaves in the child: the (soft = hard) limit of each
    resource it managed to set ([None]: inherited from the server), and
    whether [os.setsid()] made the child the leader of its own process
    group. *)
Record child_setup := {
  cs_limits : rlimit -> option Z;
  cs_setsid : bool
}.

Definition child_setup0 : child_setup := {| cs_limits := fun _ => None; cs_setsid := false |}.

(** The [(resource, value)] pairs of the five [try] blocks, in order. *)
Definition preexec_limits (cpu_time_sec memory_limit_mb : Z) : list (rlimit * Z) :=
  [(RLIMIT_CPU, cpu_time_sec); (RLIMIT_AS, memory_limit_mb * 1024 * 1024);
   (RLIMIT_FSIZE, 16 * 1024 * 1024); (RLIMIT_NOFILE, 64); (RLIMIT_NPROC, 64)].

Section Preexec.

(** Whether [resource.setrlimit(r, (v, v))] succeeds in the child: the
    kernel refuses to raise a hard limit, CPython refuses values it
    cannot convert; both raise, and the hook's [except Exception: pass]
    swallows it. *)
Variable setrlimit_ok : rlimit -> Z -> bool.

(** [try: resource.setrlimit(r, (v, v)) except Exception: pass] *)
Definition try_setrlimit (st : child_setup) (r : rlimit) (v : Z) : child_setup :=
  if setrlimit_ok r v then
    {| cs_limits := fun r' => if rlimit_beq r' r then Some v else cs_limits st r';
       cs_setsid := cs_setsid st |}
  else st.

(** [_apply], the hook [_limit_preexec] returns, run in the child:
    [if resource is None: return], the five limits, then [os.setsid()]. *)
Definition _limit_preexec (resource_available : bool) (cpu_time_sec memory_limit_mb : Z)
    (st : child_setup) : child_setup :=
  if negb resource_available then st
  else
    let st := fold_left (fun st '(r, v) => try_setrlimit st r v)
                        (preexec_limits cpu_time_sec memory_limit_mb) st in
    {| cs_limits := cs_limits st; cs_setsid := true |}.

End Preexec.

(** ** The child as the OS runs it *)

Record child := {
  runtime_exits_at : option Z;        (* [None]: runs until killed *)
  returncode : Z;                     (* its status when it exits by itself *)
  helpers_exit_at : list (option Z);  (* its descendants, holding the pipes *)
  child_stdout : list Z;              (* bytes written before exit or kill *)
  child_stderr : list Z;
  started_at : Z;   (* from [start] (line 230) to [Popen]'s return: encoding, assembly, the
                       temporary directory, fork and exec *)
  cleanup_ms : Z;   (* the removal of the temporary directory when the [with] block ends *)
  popen_raises : bool  (* [Popen] raises [OSError]: the runtime is gone or no longer executable *)
}.

(** Every process holding the write ends of the pipes: the runtime first. *)
Definition holders (ch : child) : list (option Z) := runtime_exits_at ch :: helpers_exit_at ch.

(** The pipes reach end of file when the last holder exits; [None]:
    some holder never exits. *)
Fixpoint close_time (exits : list (option Z)) : option Z :=
  match exits with
  | [] => Some 0
  | None :: _ => None
  | Some t :: es => match close_time es with Some u => Some (Z.max t u) | None => None end
  end.

(** A [SIGKILL] at time [t] to a process that exits at [e]. *)
Definition kill_at (t : Z) (e : option Z) : option Z :=
  match e with Some u => Some (Z.min u t) | None => Some t end.

(** [proc.communicate(input=..., timeout=timeout_ms / 1000.0)]: [inr t]
    when the pipes close and the runtime is reaped at [t] within the
    timeout, [inl timeout_ms] for the [TimeoutExpired] raised then. *)
Definition communicate_timeout (exits : list (option Z)) (timeout_ms : Z) : Z + Z :=
  match close_time exits with
  | Some t => if t <=? timeout_ms then inr t else inl timeout_ms
  | None => inl timeout_ms
  end.

(** [os.killpg(proc.pid, SIGKILL)] at [t]: it reaches the whole group when
    the child called [setsid()]; otherwise no group has the child's pid,
    the call raises and [except Exception: pass] swallows it. *)
Definition killpg_at (posix setsid : bool) (t : Z) (exits : list (option Z)) : list (option Z) :=
  if posix && setsid then map (kill_at t) exits else exits.

(** [proc.kill()] at [t]: the runtime only. *)
Definition kill_runtime_at (t : Z) (exits : list (option Z)) : list (option Z) :=
  match exits with e :: es => kill_at t e :: es | [] => [] end.

(** The [except subprocess.TimeoutExpired:] branch: kill the group, kill
    the runtime, then [out, err = proc.communicate()] without a timeout,
    which returns when the pipes close ([None]: never). *)
Definition kill_and_drain (posix setsid : bool) (t : Z) (ch : child) : option Z :=
  close_time (kill_runtime_at t (killpg_at posix setsid t (holders ch))).

(** ** execute_python's supervision *)

(** [ExecutionResult], with [stdout]/[stderr] as code points. *)
Record ExecutionResult := {
  stdout : list Z;
  stderr : list Z;
  exit_code : option Z;
  timed_out : bool;
  duration_ms : Z
}.

Inductive exec_outcome :=
  | Returned (r : ExecutionResult)
  | PopenFailed        (* [subprocess.Popen] raised: nothing runs *)
  | StdinUnencodable   (* [stdin.encode('utf-8')] raised after the spawn *)
  | Blocked.           (* the drain [proc.communicate()] never returns *)

(** Line 316: [int((time.perf_counter() - start) * 1000)] for a
    supervision that returned [t] after the spawn. *)
Definition elapsed (ch : child) (t : Z) : Z := started_at ch + t + cleanup_ms ch.

(** Lines 316-327: the duration, both streams through [_truncate],
    [exit_code = None if timed_out else proc.returncode]. *)
Definition collect (ch : child) (max_output_bytes : Z) (to : bool) (code : option Z) (t : Z)
    : ExecutionResult :=
  {| stdout := _truncate (child_stdout ch) max_output_bytes;
     stderr := _truncate (child_stderr ch) max_output_bytes;
     exit_code := if to then None else code; timed_out := to; duration_ms := elapsed ch t |}.

(** Lines 302-316 after the input is encoded: wait with the deadline, on
    [TimeoutExpired] kill and drain. *)
Definition wait_with_deadline (setup : child_setup) (posix : bool) (ch : child)
    (timeout_ms max_output_bytes : Z) : exec_outcome :=
  match communicate_timeout (holders ch) timeout_ms with
  | inr t => Returned (collect ch max_output_bytes false (Some (returncode ch)) t)
  | inl deadline =>
      (* [proc.returncode] after the drain: [-SIGKILL] unless the runtime had exited *)
      let rc := match runtime_exits_at ch with
                | Some u => if u <=? deadline then returncode ch else -9
                | None => -9
                end in
      match kill_and_drain posix (cs_setsid setup) deadline ch with
      | Some t => Returned (collect ch max_output_bytes true (Some rc) t)
      | None => Blocked
      end
  end.

(** Lines 291-327: [Popen] starts the child with the hook (its
    [OSError] propagates), then the [try] block first encodes the input,
    and only [TimeoutExpired] is caught. *)
Definition supervise (setup : child_setup) (posix : bool) (ch : child) (stdin : option (list Z))
    (timeout_ms max_output_bytes : Z) : exec_outcome :=
  if popen_raises ch then PopenFailed
  else
    match option_map utf8_encode stdin with
    | Some None => StdinUnencodable
    | _ => wait_with_deadline setup posix ch timeout_ms max_output_bytes
    end.

(** [preexec_fn=preexec if os.name == "posix" else None], with the
    [cpu_time_limit_sec] / [memory_limit_mb] defaults 2 and 256. *)
Definition child_setup_of (setrlimit_ok : rlimit -> Z -> bool) (posix resource_available : bool)
    (cpu_time_limit_sec memory_limit_mb : option Z) : child_setup :=
  if posix then
    _limit_preexec setrlimit_ok resource_available
      (match cpu_time_limit_sec with Some c => c | None => 2 end)
      (match memory_limit_mb with Some m => m | None => 256 end) child_setup0
  else child_setup0.

(** The limit the hook asks for each resource. *)
Definition limit_value (cpu_time_sec memory_limit_mb : Z) (r : rlimit) : Z :=
  match r with
  | RLIMIT_CPU => cpu_time_sec
  | RLIMIT_AS => memory_limit_mb * 1024 * 1024
  | RLIMIT_FSIZE => 16 * 1024 * 1024
  | RLIMIT_NOFILE => 64
  | RLIMIT_NPROC => 64
  end.

(** A group that is all dead by [t]: every holder exits, at [t] at the latest. *)
Definition dead_by (t : Z) (exits : list (option Z)) : Prop :=
  Forall (fun e => exists u, e = Some u /\ u <= t) exits.

(** A program that prints [hi] and exits with status 3 after 120 ms. *)
Definition quick : child :=
  {| runtime_exits_at := Some 120; returncode := 3; helpers_exit_at := [];
     child_stdout := [0x68; 0x69; 0x0A]; child_stderr := []; started_at := 4; cleanup_ms := 1;
     popen_raises := false |}.

(** A runaway that also started a process of its own. *)
Definition runaway : child :=
  {| runtime_exits_at := None; returncode := 0; helpers_exit_at := [Some 50; None];
     child_stdout := repeat 0x61 100; child_stderr := []; started_at := 4; cleanup_ms := 1;
     popen_raises := false |}.

(** An OS that accepts every limit. *)
Definition all_ok (_ : rlimit) (_ : Z) : bool := true.

(** ** Lemmas *)

Lemma rlimit_beq_iff (a b : rlimit) : rlimit_beq a b = true <-> a = b.
Proof. split; [apply internal_rlimit_dec_bl | apply internal_rlimit_dec_lb]. Qed.

Lemma close_time_dead_by (t : Z) (exits : list (option Z)) :
  0 <= t -> dead_by t exits -> exists c, close_time exits = Some c /\ c <= t.
Proof.
  intros Ht. induction 1 as [|e es [u [-> Hu]] _ [c [Hc Hle]]]; [exists 0; split; [reflexivity | lia]|].
  simpl. rewrite Hc. eexists; split; [reflexivity | lia].
Qed.

Lemma kill_at_le (t : Z) (e : option Z) : exists u, kill_at t e = Some u /\ u <= t.
Proof. destruct e as [u|]; simpl; eexists; split; [reflexivity | lia | reflexivity | lia]. Qed.

(** After [os.killpg] of a group the child leads, the group is dead by [t]. *)
Lemma killpg_dead_by (t : Z) (exits : list (option Z)) :
  dead_by t (kill_runtime_at t (killpg_at true true t exits)).
Proof.
  unfold killpg_at, dead_by. simpl.
  assert (H : Forall (fun e => exists u, e = Some u /\ u <= t) (map (kill_at t) exits)).
  { apply Forall_forall. intros e He. apply in_map_iff in He as (e0 & <- & _). apply kill_at_le. }
  destruct exits as [|e es]; [constructor|]. simpl in *. inversion H; subst.
  constructor; [apply kill_at_le | assumption].
Qed.

(** The hook's loop sets each limit at most once, in its own [try]. *)
Lemma fold_try_setrlimit (ok : rlimit -> Z -> bool) (l : list (rlimit * Z)) (st : child_setup) (r : rlimit) :
  cs_limits (fold_left (fun st '(r, v) => try_setrlimit ok st r v) l st) r =
  fold_left (fun acc '(r', v) => if rlimit_beq r r' && ok r' v then Some v else acc) l (cs_limits st r).
Proof.
  revert st. induction l as [|[r' v] l IH]; intros st; [reflexivity|]. simpl. rewrite IH. f_equal.
  unfold try_setrlimit. destruct (ok r' v); [|now rewrite andb_false_r]. simpl. now rewrite andb_true_r.
Qed.

Lemma communicate_timeout_inr (exits : list (option Z)) (timeout_ms t : Z) :
  communicate_timeout exits timeout_ms = inr t -> close_time exits = Some t /\ t <= timeout_ms.
Proof.
  unfold communicate_timeout. destruct (close_time exits) as [c|]; [|discriminate].
  destruct (Z.leb_spec c timeout_ms); intros Hc; invc Hc; split; [reflexivity | lia].
Qed.

Lemma communicate_timeout_inl (exits : list (option Z)) (timeout_ms d : Z) :
  communicate_timeout exits timeout_ms = inl d ->
  d = timeout_ms /\ ~ (exists t, close_time exits = Some t /\ t <= timeout_ms).
Proof.
  unfold communicate_timeout. intros Hc.
  destruct (close_time exits) as [c|]; [destruct (Z.leb_spec c timeout_ms)|]; invc Hc;
    (split; [reflexivity | intros (t & Ht & Hle); try discriminate; invc Ht; lia]).
Qed.

(** A second [SIGKILL] changes nothing. *)
Lemma kill_runtime_after_killpg (t : Z) (exits : list (option Z)) :
  kill_runtime_at t (map (kill_at t) exits) = map (kill_at t) exits.
Proof.
  destruct exits as [|[u|] es]; [reflexivity | |]; simpl; do 2 f_equal; lia.
Qed.



(** A [SIGKILL] to the whole group at [t] closes the pipes at [t] or
    earlier, when the group was done already. *)
Lemma close_time_kill (t : Z) (exits : list (option Z)) :
  0 <= t ->
  close_time (map (kill_at t) exits) =
  Some (match close_time exits with Some c => Z.min c t | None => t end).
Proof.
  intros Ht. induction exits as [|[u|] es IH]; simpl; [f_equal; lia| |];
    rewrite IH; destruct (close_time es); f_equal; lia.
Qed.

(** Killing at [t] a group that was not all dead by [t] closes the pipes
    exactly at [t]. *)
Lemma close_time_killed (t : Z) (exits : list (option Z)) :
  0 <= t -> ~ (exists c, close_time exits = Some c /\ c <= t) ->
  close_time (map (kill_at t) exits) = Some t.
Proof.
  intros Ht Hn. rewrite close_time_kill by exact Ht.
  destruct (close_time exits) as [c|]; [|reflexivity].
  destruct (Z.le_gt_cases c t); [exfalso; eauto | f_equal; lia].
Qed.

Lemma child_setup_of_setsid (ok : rlimit -> Z -> bool) (cpu mem : option Z) :
  cs_setsid (child_setup_of ok true true cpu mem) = true.
Proof. reflexivity. Qed.

Lemma supervise_encodable (setup : child_setup) (posix : bool) (ch : child) (stdin : option (list Z))
    (timeout_ms max_output_bytes : Z) :
  popen_raises ch = false -> option_map utf8_encode stdin <> Some None ->
  supervise setup posix ch stdin timeout_ms max_output_bytes =
  wait_with_deadline setup posix ch timeout_ms max_output_bytes.
Proof. unfold supervise. intros ->. destruct (option_map _ _) as [[?|]|]; congruence. Qed.

(** The two ways [supervise] returns a result. *)
Lemma supervise_Returned (setup : child_setup) (posix : bool) (ch : child) (stdin : option (list Z))
    (timeout_ms max_output_bytes : Z) (r : ExecutionResult) :
  supervise setup posix ch stdin timeout_ms max_output_bytes = Returned r ->
  stdout r = _truncate (child_stdout ch) max_output_bytes /\
  stderr r = _truncate (child_stderr ch) max_output_bytes /\
  exists t, duration_ms r = elapsed ch t /\
  ((timed_out r = false /\ exit_code r = Some (returncode ch) /\
    communicate_timeout (holders ch) timeout_ms = inr t) \/
   (timed_out r = true /\ exit_code r = None /\
    communicate_timeout (holders ch) timeout_ms = inl timeout_ms /\
    kill_and_drain posix (cs_setsid setup) timeout_ms ch = Some t)).
Proof.
  unfold supervise. destruct (popen_raises ch); [discriminate|].
  destruct (option_map utf8_encode stdin) as [[?|]|]; [| discriminate |];
  unfold wait_with_deadline; destruct (communicate_timeout _ _) as [d|t] eqn:Ec;
  try (pose proof (communicate_timeout_inl _ _ _ Ec) as [-> _];
       destruct (kill_and_drain _ _ _ _) eqn:Ek; [|discriminate]);
  intros Hr; invc Hr; simpl; (split; [reflexivity|]); (split; [reflexivity|]); eexists; intuition eauto.
Qed.

(** With the hook's [setsid()], the wait ends by the deadline. *)
Lemma supervise_by_deadline (ok : rlimit -> Z -> bool) (cpu mem : option Z) (ch : child)
    (stdin : option (list Z)) (timeout_ms max_output_bytes : Z) :
  popen_raises ch = false -> 0 <= timeout_ms -> option_map utf8_encode stdin <> Some None ->
  exists r, supervise (child_setup_of ok true true cpu mem) true ch stdin timeout_ms max_output_bytes
            = Returned r /\ duration_ms r <= elapsed ch timeout_ms.
Proof.
  intros Hp HT Hs. rewrite supervise_encodable by assumption. unfold wait_with_deadline.
  destruct (communicate_timeout _ _) as [d|t] eqn:Ec.
  - apply communicate_timeout_inl in Ec as [-> _].
    unfold kill_and_drain. rewrite child_setup_of_setsid.
    destruct (close_time_dead_by timeout_ms _ HT (killpg_dead_by timeout_ms (holders ch))) as [c [-> Hc]].
    eexists; split; [reflexivity | simpl; unfold elapsed; lia].
  - apply communicate_timeout_inr in Ec as [_ Ht]. eexists; split; [reflexivity | simpl; unfold elapsed; lia].
Qed.

(** A child that starts and whose pipes close by the deadline is
    collected with its own status at that moment. *)
Lemma supervise_closes (setup : child_setup) (posix : bool) (ch : child) (T cap t : Z) :
  popen_raises ch = false -> close_time (holders ch) = Some t -> t <= T ->
  supervise setup posix ch None T cap = Returned (collect ch cap false (Some (returncode ch)) t).
Proof.
  intros Hp Hc Ht. unfold supervise, wait_with_deadline, communicate_timeout. rewrite Hp, Hc.
  cbn [option_map]. now rewrite (proj2 (Z.leb_le t T) Ht).
Qed.

(** A holder that never exits keeps the pipes open for ever. *)
Lemma close_time_None (exits : list (option Z)) : In None exits -> close_time exits = None.
Proof.
  induction exits as [|e es IH]; intros Hin; [destruct Hin|].
  destruct Hin as [->|Hin]; [reflexivity|]. destruct e; cbn; [now rewrite IH | reflexivity].
Qed.

(** Without the [resource] module the hook is a no-op, on every OS. *)
Lemma child_setup_of_no_resource (ok : rlimit -> Z -> bool) (posix : bool) (cpu mem : option Z) :
  child_setup_of ok posix false cpu mem = child_setup0.
Proof. now destruct posix. Qed.

(** ** Theorems *)

(** C3: With the [resource] module on a POSIX host, every request whose
    runtime starts and whose input can be encoded comes back, at the
    latest at the deadline after the spawn: [setsid()] put the runtime and every process it started
    in one group, [killpg] reaches them all, and the drain returns.  The
    duration the code reports adds the time before the spawn and the
    removal of the temporary directory. *)
Theorem supervise_returns_by_deadline (ok : rlimit -> Z -> bool) (cpu mem : option Z) (ch : child)
    (stdin : option (list Z)) (timeout_ms max_output_bytes : Z) :
  popen_raises ch = false -> 0 <= timeout_ms -> option_map utf8_encode stdin <> Some None ->
  exists r, supervise (child_setup_of ok true true cpu mem) true ch stdin timeout_ms max_output_bytes
            = Returned r /\ duration_ms r <= elapsed ch timeout_ms.
Proof. apply supervise_by_deadline. Qed.

(** [exit_code] is [None] exactly when the request timed out. *)
Theorem supervise_exit_code_iff (setup : child_setup) (posix : bool) (ch : child)
    (stdin : option (list Z)) (timeout_ms max_output_bytes : Z) (r : ExecutionResult) :
  supervise setup posix ch stdin timeout_ms max_output_bytes = Returned r ->
  (exit_code r = None <-> timed_out r = true).
Proof. intros Hr. apply supervise_Returned in Hr as (_ & _ & t & _ & [(-> & -> & _) | (-> & -> & _)]); intuition congruence. Qed.

(** A request that did not time out reports the runtime's own exit
    status, and it returned when the pipes closed, within the timeout. *)
Theorem supervise_completed (setup : child_setup) (posix : bool) (ch : child)
    (stdin : option (list Z)) (timeout_ms max_output_bytes : Z) (r : ExecutionResult) :
  supervise setup posix ch stdin timeout_ms max_output_bytes = Returned r -> timed_out r = false ->
  exit_code r = Some (returncode ch) /\
  exists t, close_time (holders ch) = Some t /\ t <= timeout_ms /\ duration_ms r = elapsed ch t.
Proof.
  intros Hr Ht. apply supervise_Returned in Hr as (_ & _ & t & Hd & [(_ & Hc & Ec) | (Ht' & _)]); [|congruence].
  apply communicate_timeout_inr in Ec as [He Hle]. eauto.
Qed.

(** C11: A request times out exactly when some process holding the
    pipes was still running at the deadline; with the hook's [setsid()]
    it then returns exactly at the deadline after the spawn, and reports
    that time plus what came before the spawn and after the drain. *)
Theorem supervise_timed_out (ok : rlimit -> Z -> bool) (cpu mem : option Z) (ch : child)
    (stdin : option (list Z)) (timeout_ms max_output_bytes : Z) (r : ExecutionResult) :
  0 <= timeout_ms ->
  supervise (child_setup_of ok true true cpu mem) true ch stdin timeout_ms max_output_bytes = Returned r ->
  (timed_out r = true <-> ~ (exists t, close_time (holders ch) = Some t /\ t <= timeout_ms)) /\
  (timed_out r = true -> duration_ms r = elapsed ch timeout_ms).
Proof.
  intros HT Hr. apply supervise_Returned in Hr as (_ & _ & t & Hd & [(Ht & _ & Ec) | (Ht & _ & Ec & Hk)]).
  - apply communicate_timeout_inr in Ec as [He Hle]. rewrite Ht.
    split; [split; [discriminate | intros Hn; exfalso; eauto] | discriminate].
  - apply communicate_timeout_inl in Ec as [_ Hn]. rewrite Ht. split; [tauto|intros _].
    unfold kill_and_drain, killpg_at in Hk. rewrite child_setup_of_setsid in Hk. cbn [andb] in Hk.
    rewrite kill_runtime_after_killpg, close_time_killed in Hk by assumption. congruence.
Qed.

(** Both streams of the result are the child's output through
    [_truncate], timed out or not. *)
Theorem supervise_streams (setup : child_setup) (posix : bool) (ch : child)
    (stdin : option (list Z)) (timeout_ms max_output_bytes : Z) (r : ExecutionResult) :
  supervise setup posix ch stdin timeout_ms max_output_bytes = Returned r ->
  stdout r = _truncate (child_stdout ch) max_output_bytes /\
  stderr r = _truncate (child_stderr ch) max_output_bytes.
Proof. intros Hr. apply supervise_Returned in Hr. tauto. Qed.

(** C36: [Popen] runs before the input is encoded.  For an input that
    is not encodable (a lone surrogate), whatever the child does: when
    [Popen] raises, that [OSError] is what [execute_python] raises; when
    it starts the child, the [UnicodeEncodeError] raises out of
    [execute_python] with the child spawned and neither killed nor
    waited for. *)
Theorem supervise_stdin_unencodable (setup : child_setup) (posix : bool) (ch : child)
    (s : list Z) (timeout_ms max_output_bytes : Z) :
  utf8_encode s = None ->
  supervise setup posix ch (Some s) timeout_ms max_output_bytes =
    if popen_raises ch then PopenFailed else StdinUnencodable.
Proof. intros Hs. unfold supervise. destruct (popen_raises ch); [reflexivity|]. cbn [option_map]. now rewrite Hs. Qed.

(** A [Popen] that raises (the runtime removed or made non-executable
    since the lookup) ends the supervision before anything runs: no
    result, no timeout. *)
Theorem supervise_popen_failed (setup : child_setup) (posix : bool) (ch : child)
    (stdin : option (list Z)) (timeout_ms max_output_bytes : Z) :
  popen_raises ch = true -> supervise setup posix ch stdin timeout_ms max_output_bytes = PopenFailed.
Proof. intros Hp. unfold supervise. now rewrite Hp. Qed.

(** With the [resource] module the hook sets each limit to the value
    it asks for exactly when the OS accepts that one call, whatever
    happened to the others, and always calls [setsid()]. *)
Theorem _limit_preexec_spec (ok : rlimit -> Z -> bool) (cpu mem : Z) (st : child_setup) (r : rlimit) :
  cs_limits (_limit_preexec ok true cpu mem st) r =
    (if ok r (limit_value cpu mem r) then Some (limit_value cpu mem r) else cs_limits st r) /\
  cs_setsid (_limit_preexec ok true cpu mem st) = true.
Proof.
  split; [|reflexivity]. unfold _limit_preexec. cbn [negb cs_limits]. rewrite fold_try_setrlimit.
  destruct r; simpl; repeat destruct (ok _ _); reflexivity.
Qed.

(** C37: Without the [resource] module the hook returns before
    [os.setsid()], so [killpg] reaches nobody: any child that starts, is
    given an encodable input and has a descendant that never exits and
    keeps the pipes open blocks the drain [proc.communicate()] for ever,
    whatever the deadline and the limits. *)
Theorem supervise_blocks_without_resource (ok : rlimit -> Z -> bool) (posix : bool) (cpu mem : option Z)
    (ch : child) (stdin : option (list Z)) (timeout_ms max_output_bytes : Z) :
  popen_raises ch = false -> option_map utf8_encode stdin <> Some None -> In None (helpers_exit_at ch) ->
  supervise (child_setup_of ok posix false cpu mem) posix ch stdin timeout_ms max_output_bytes = Blocked.
Proof.
  intros Hp Hs Hn. rewrite supervise_encodable by assumption. rewrite child_setup_of_no_resource.
  unfold wait_with_deadline, communicate_timeout, kill_and_drain.
  rewrite (close_time_None (holders ch)) by (right; exact Hn).
  replace (killpg_at posix (cs_setsid child_setup0) timeout_ms (holders ch)) with (holders ch)
    by (now destruct posix).
  unfold holders, kill_runtime_at. now rewrite close_time_None by (right; exact Hn).
Qed.

(** ** The theorems on sample children *)

Lemma supervise_returns_by_deadline_witness :
  popen_raises runaway = false /\ 0 <= 1000 /\ option_map utf8_encode (Some [0x78]) <> Some None /\
  exists r, supervise (child_setup_of all_ok true true None None) true runaway (Some [0x78]) 1000 65536
            = Returned r /\ duration_ms r <= elapsed runaway 1000.
Proof.
  split; [reflexivity|]. split; [lia|]. split; [discriminate|].
  apply supervise_returns_by_deadline; [reflexivity | lia | discriminate].
Defined.

Lemma supervise_exit_code_iff_witness :
  supervise child_setup0 true quick None 1000 65536 =
    Returned (collect quick 65536 false (Some 3) 120) /\
  (exit_code (collect quick 65536 false (Some 3) 120) = None <->
   timed_out (collect quick 65536 false (Some 3) 120) = true).
Proof.
  split; [reflexivity|]. apply (supervise_exit_code_iff child_setup0 true quick None 1000 65536). reflexivity.
Defined.

Lemma supervise_completed_witness :
  supervise child_setup0 true quick None 1000 65536 = Returned (collect quick 65536 false (Some 3) 120) /\
  exit_code (collect quick 65536 false (Some 3) 120) = Some 3 /\
  exists t, close_time (holders quick) = Some t /\ t <= 1000 /\
            duration_ms (collect quick 65536 false (Some 3) 120) = elapsed quick t.
Proof.
  split; [reflexivity|].
  exact (supervise_completed child_setup0 true quick None 1000 65536 _ eq_refl eq_refl).
Defined.

Lemma supervise_timed_out_witness :
  supervise (child_setup_of all_ok true true None None) true runaway None 1000 65536 =
    Returned (collect runaway 65536 true (Some (-9)) 1000) /\
  (timed_out (collect runaway 65536 true (Some (-9)) 1000) = true <->
     ~ (exists t, close_time (holders runaway) = Some t /\ t <= 1000)) /\
  (timed_out (collect runaway 65536 true (Some (-9)) 1000) = true ->
     duration_ms (collect runaway 65536 true (Some (-9)) 1000) = elapsed runaway 1000).
Proof.
  split; [reflexivity|].
  apply (supervise_timed_out all_ok None None runaway None 1000 65536); [lia | reflexivity].
Defined.

Lemma supervise_streams_witness :
  supervise (child_setup_of all_ok true true None None) true runaway None 1000 40 =
    Returned (collect runaway 40 true (Some (-9)) 1000) /\
  stdout (collect runaway 40 true (Some (-9)) 1000) = _truncate (repeat 0x61 100) 40 /\
  stderr (collect runaway 40 true (Some (-9)) 1000) = _truncate [] 40.
Proof.
  split; [reflexivity|].
  exact (supervise_streams (child_setup_of all_ok true true None None) true runaway None 1000 40 _ eq_refl).
Defined.

Lemma supervise_stdin_unencodable_witness :
  utf8_encode [0x61; 0xD800] = None /\
  supervise (child_setup_of all_ok true true None None) true runaway (Some [0x61; 0xD800]) 1000 65536
    = StdinUnencodable.
Proof. split; [reflexivity | exact (supervise_stdin_unencodable _ true runaway [0x61; 0xD800] 1000 65536 eq_refl)]. Defined.

Lemma supervise_blocks_without_resource_witness :
  popen_raises runaway = false /\ option_map utf8_encode (Some [0x78]) <> Some None /\
  In None (helpers_exit_at runaway) /\
  supervise (child_setup_of all_ok true false None None) true runaway (Some [0x78]) 1000 65536 = Blocked.
Proof.
  assert (Hs : option_map utf8_encode (Some [0x78]) <> Some None) by discriminate.
  assert (Hn : In None (helpers_exit_at runaway)) by (right; left; reflexivity).
  split; [reflexivity|]. split; [exact Hs|]. split; [exact Hn|].
  exact (supervise_blocks_without_resource all_ok true None None runaway _ 1000 65536 eq_refl Hs Hn).
Defined.

End Supervisor.
