(* ===== verification/Lifecycle.v ===== *)
(** The supervisor's life cycle as the design describes it (section 4.4
    of the specification: [Idle -> Spawning -> Running -> {Completed,
    TimedOut} -> Reaped]), as a step relation over the phases of one
    execution, and the refinement theorem: every result the code's
    supervision ([Supervisor.supervise] behind a hook that called
    [setsid()]) returns is the result of a run of that machine.  The
    invariant of [ExecutionResult] in the data model (an exit code
    exactly when not timed out, a duration between 0 and the timeout)
    holds in every reachable phase, by induction on the runs, and so of
    every result of the code. *)

From Stdlib Require Import ZArith List Bool Lia Relations.
From S2P Require Import Prelude Utf8 Sanitizer Supervisor.
Import ListNotations.

Module Lifecycle.
Import Utf8 Sanitizer Supervisor.
Open Scope Z_scope.

Inductive phase :=
  | Idle
  | Spawning
  | Running
  | Completed (rc t : Z)   (* the process exited and the streams drained at [t] *)
  | TimedOut              (* the deadline elapsed first *)
  | Terminated (t : Z)    (* the group was killed and drained at [t] *)
  | Reaped (r : ExecutionResult).

Section Machine.
Variable ch : child.
Variables timeout_ms max_output_bytes : Z.

(** The result of a run: the streams through the sanitizer, the time
    the code measures around a run that ended [t] after the spawn. *)
Definition reap (exit : option Z) (to : bool) (t : Z) : ExecutionResult :=
  {| stdout := _truncate (child_stdout ch) max_output_bytes;
     stderr := _truncate (child_stderr ch) max_output_bytes;
     exit_code := exit; timed_out := to; duration_ms := elapsed ch t |}.

Inductive lc_step : phase -> phase -> Prop :=
  | lc_spawn : lc_step Idle Spawning
  | lc_start : lc_step Spawning Running
  | lc_complete t :
      close_time (holders ch) = Some t -> t <= timeout_ms ->
      lc_step Running (Completed (returncode ch) t)
  | lc_expire :
      ~ (exists t, close_time (holders ch) = Some t /\ t <= timeout_ms) ->
      lc_step Running TimedOut
  | lc_kill : lc_step TimedOut (Terminated timeout_ms)
  | lc_reap_completed rc t : lc_step (Completed rc t) (Reaped (reap (Some rc) false t))
  | lc_reap_terminated t : lc_step (Terminated t) (Reaped (reap None true t)).

Definition lc_star : phase -> phase -> Prop := clos_refl_trans_1n phase lc_step.

(** What every phase guarantees. *)
Definition phase_ok (p : phase) : Prop :=
  match p with
  | Completed _ t | Terminated t => 0 <= t <= timeout_ms
  | Reaped r => (exit_code r = None <-> timed_out r = true) /\ elapsed ch 0 <= duration_ms r <= elapsed ch timeout_ms
  | _ => True
  end.

End Machine.

(** The data model's invariant of [ExecutionResult]: an exit code
    exactly when not timed out, and a duration between the overhead of
    the run and the timeout plus that overhead. *)
Definition result_ok (ch : child) (timeout_ms : Z) (r : ExecutionResult) : Prop :=
  (exit_code r = None <-> timed_out r = true) /\ elapsed ch 0 <= duration_ms r <= elapsed ch timeout_ms.

(** ** Lemmas *)

Lemma close_time_nonneg (es : list (option Z)) (t : Z) : close_time es = Some t -> 0 <= t.
Proof.
  revert t. induction es as [|[u|] es IH]; simpl; intros t Ht; [some_eq Ht; lia | | discriminate].
  destruct (close_time es) as [c|]; [|discriminate]. some_eq Ht. specialize (IH c eq_refl). lia.
Qed.

Lemma lc_step_ok (ch : child) (T cap : Z) (p q : phase) :
  0 <= T -> lc_step ch T cap p q -> phase_ok ch T p -> phase_ok ch T q.
Proof.
  intros HT Hs. destruct Hs; simpl; intros Hp; unfold elapsed in *; try tauto;
    [pose proof (close_time_nonneg _ _ H); lia | lia | split; [split; discriminate | lia] | split; [tauto | lia]].
Qed.

Lemma lc_star_ok (ch : child) (T cap : Z) (p q : phase) :
  0 <= T -> lc_star ch T cap p q -> phase_ok ch T p -> phase_ok ch T q.
Proof. intros HT. induction 1; eauto using lc_step_ok. Qed.

(** With the hook's [setsid()], a timed-out supervision returns at the
    deadline. *)
Lemma kill_and_drain_setsid (T : Z) (ch : child) :
  0 <= T -> ~ (exists t, close_time (holders ch) = Some t /\ t <= T) ->
  kill_and_drain true true T ch = Some T.
Proof.
  intros HT Hn. unfold kill_and_drain, killpg_at. cbn [andb].
  rewrite kill_runtime_after_killpg. now apply close_time_killed.
Qed.

(** Every result of the supervision is reaped by a run of the machine. *)
Lemma supervise_lifecycle (ok : rlimit -> Z -> bool) (cpu mem : option Z) (ch : child)
    (stdin : option (list Z)) (T cap : Z) (r : ExecutionResult) :
  0 <= T ->
  supervise (child_setup_of ok true true cpu mem) true ch stdin T cap = Returned r ->
  lc_star ch T cap Idle (Reaped r).
Proof.
  intros HT Hr. apply supervise_Returned in Hr as (Ho & He & t & Hd & [(Ht & Hc & Ec) | (Ht & Hc & Ec & Hk)]).
  - apply communicate_timeout_inr in Ec as [Hcl Hle].
    assert (Er : r = reap ch cap (Some (returncode ch)) false t).
    { destruct r; simpl in *; subst; reflexivity. }
    rewrite Er. eapply Relation_Operators.rt1n_trans; [constructor|]. eapply Relation_Operators.rt1n_trans; [constructor|].
    eapply Relation_Operators.rt1n_trans; [apply lc_complete; eassumption|].
    eapply Relation_Operators.rt1n_trans; [constructor | apply Relation_Operators.rt1n_refl].
  - apply communicate_timeout_inl in Ec as [_ Hn].
    rewrite child_setup_of_setsid, kill_and_drain_setsid in Hk by assumption.
    assert (Er : r = reap ch cap None true T).
    { destruct r; simpl in *; subst. unfold reap. f_equal. congruence. }
    rewrite Er. eapply Relation_Operators.rt1n_trans; [constructor|]. eapply Relation_Operators.rt1n_trans; [constructor|].
    eapply Relation_Operators.rt1n_trans; [apply lc_expire; exact Hn|]. eapply Relation_Operators.rt1n_trans; [constructor|].
    eapply Relation_Operators.rt1n_trans; [constructor | apply Relation_Operators.rt1n_refl].
Qed.

(** ** Theorems *)

(** C17: The supervision refines the design's life cycle: with the
    hook's [setsid()], every result [supervise] returns is reaped by a
    run [Idle -> Spawning -> Running -> Completed -> Reaped] (the pipes
    closed by the deadline, the runtime's own status) or [Idle ->
    Spawning -> Running -> TimedOut -> Terminated -> Reaped] (killed and
    drained at the deadline, no status). *)
Theorem supervise_refines_lifecycle (ok : rlimit -> Z -> bool) (cpu mem : option Z) (ch : child)
    (stdin : option (list Z)) (T cap : Z) (r : ExecutionResult) :
  0 <= T ->
  supervise (child_setup_of ok true true cpu mem) true ch stdin T cap = Returned r ->
  lc_star ch T cap Idle (Reaped r).
Proof. apply supervise_lifecycle. Qed.

(** C18: Every result of the supervision satisfies the data model's
    invariant of [ExecutionResult]: the exit code is absent exactly
    when the request timed out, and the duration lies between 0 and
    the timeout. *)
Theorem supervise_result_ok (ok : rlimit -> Z -> bool) (cpu mem : option Z) (ch : child)
    (stdin : option (list Z)) (T cap : Z) (r : ExecutionResult) :
  0 <= T ->
  supervise (child_setup_of ok true true cpu mem) true ch stdin T cap = Returned r ->
  result_ok ch T r.
Proof.
  intros HT Hr. exact (lc_star_ok ch T cap Idle (Reaped r) HT (supervise_lifecycle ok cpu mem ch stdin T cap r HT Hr) I).
Qed.

Lemma supervise_refines_lifecycle_witness :
  match supervise (child_setup_of all_ok true true None None) true runaway None 1000 65536 with
  | Returned r => lc_star runaway 1000 65536 Idle (Reaped r)
  | _ => False
  end.
Proof.
  destruct (supervise (child_setup_of all_ok true true None None) true runaway None 1000 65536) as [r| | |] eqn:E;
    try (vm_compute in E; discriminate).
  exact (supervise_refines_lifecycle all_ok None None runaway None 1000 65536 r ltac:(lia) E).
Defined.

Lemma supervise_result_ok_witness :
  match supervise (child_setup_of all_ok true true None None) true quick None 1000 65536 with
  | Returned r => result_ok quick 1000 r
  | _ => False
  end.
Proof.
  destruct (supervise (child_setup_of all_ok true true None None) true quick None 1000 65536) as [r| | |] eqn:E;
    try (vm_compute in E; discriminate).
  exact (supervise_result_ok all_ok None None quick None 1000 65536 r ltac:(lia) E).
Defined.

End Lifecycle.
