(* ===== verification/Executor.v ===== *)
(** [execute_python] end to end (executor.py, lines 190-327): resolve the
    runtime and the module ([Resolver.v]), take the module's directory
    ([Path(wasm_module).resolve().parent]), discover the stdlib paths
    ([Discovery.v]), encode the code ([Utf8.v], [Base64.v]), assemble the
    command ([Assembler.v]) and supervise the child ([Supervisor.v]).

    What the spawned runtime does is an input: [run] maps the invocation
    (argv and environment) to the child the OS runs.  The guest side of
    the payload is modelled as far as the theorems need it: the runtime
    hands the guest the first [--env PY_CODE_B64=...] of its options
    ([env_arg_value]; [wasmtime] is not part of the repository) and the
    bootstrap script's line 87 decodes it ([guest_code]). *)

From stdpp Require Import base gmap strings list.
From Stdlib Require Import ZArith String Ascii Bool List Lia.
From S2P Require Import Prelude Utf8 Base64 Sanitizer Assembler Fs Discovery Shlex Resolver Supervisor.
Import ListNotations.
Open Scope string_scope.

Module Executor.
Import Utf8 Base64 Sanitizer Assembler Fs Discovery Shlex Resolver Supervisor.

(** ** The module's directory *)

(** The part of [s] before its last ['/'], if any. *)
Fixpoint before_last_slash (s : string) : option string :=
  match s with
  | EmptyString => None
  | String c s' =>
      match before_last_slash s' with
      | Some r => Some (String c r)
      | None => if Ascii.eqb c "/"%char then Some EmptyString else None
      end
  end.

(** [Path(wasm_module).resolve().parent] for the absolute, normalised
    path [_resolve_wasm_runtime] returns (no symbolic links: [resolve()]
    keeps it as it is). *)
Definition python_root_of (wasm_module : string) : string :=
  match before_last_slash wasm_module with
  | Some EmptyString => "/"
  | Some r => r
  | None => "."
  end.

(** ** execute_python *)

Inductive exec_error :=
  | ResolveFailed (e : resolve_error)   (* the [RuntimeError]s of the resolver *)
  | CodeUnencodable.                    (* [code.encode("utf-8")] raised, before the spawn *)

Inductive execution :=
  | Failed (e : exec_error)                       (* no process was created *)
  | Spawned (inv : invocation) (o : exec_outcome).

Section Execute.
Context `{FileSystem}.
Variable setrlimit_ok : rlimit -> Z -> bool.
Variables posix resource_available : bool.
(** The child the OS runs for an invocation. *)
Variable run : invocation -> child.

Definition execute_python (environ : gmap string string) (cwd home : string)
    (code : list Z) (stdin : option (list Z)) (timeout_ms max_output_bytes : Z)
    (cpu_time_limit_sec memory_limit_mb : option Z) : execution :=
  match _resolve_wasm_runtime environ cwd home with
  | inl e => Failed (ResolveFailed e)
  | inr (runtime_path, wasm_module, runtime_args) =>
      let python_root := python_root_of wasm_module in
      let stdlib_paths := _discover_stdlib_paths python_root guest_prefix in
      match utf8_encode code with
      | None => Failed CodeUnencodable
      | Some code_bytes =>
          let encoded_code := string_of_bytes (b64encode code_bytes) in
          let inv := assemble runtime_path wasm_module python_root runtime_args stdlib_paths
                       encoded_code (environ !! "PYTHON_WASM_FORCE_ISOLATED")
                       (environ !! "PYTHON_WASM_DISABLE_ISOLATED") environ in
          let setup := child_setup_of setrlimit_ok posix resource_available
                         cpu_time_limit_sec memory_limit_mb in
          Spawned inv (supervise setup posix (run inv) stdin timeout_ms max_output_bytes)
      end
  end.

End Execute.

(** ** The guest's view of the payload *)

(** The value of the first [--env NAME=VAL] (or [--env=NAME=VAL]) option
    whose [NAME=] is [prefix], scanning as [_ensure_env_arg] does. *)
Fixpoint env_arg_value (prefix : string) (args : list string) : option string :=
  match args with
  | [] => None
  | existing :: rest =>
      if String.eqb existing "--env" then
        match rest with
        | next :: _ =>
            if str_startswith next prefix then Some (str_drop (String.length prefix) next)
            else env_arg_value prefix rest
        | [] => env_arg_value prefix rest
        end
      else if str_startswith existing "--env=" && str_startswith (str_drop 6 existing) prefix
      then Some (str_drop (6 + String.length prefix) existing)
      else env_arg_value prefix rest
  end.

(** [bytes.decode("utf-8")], strict: the decoding when the bytes are
    well-formed UTF-8, that is when they are the encoding of what the
    decoder read, and [UnicodeDecodeError] otherwise. *)
Definition utf8_decode_strict (bs : list Z) : option (list Z) :=
  let cs := utf8_decode bs in
  match utf8_encode cs with
  | Some bs' => if list_eq_dec Z.eq_dec bs' bs then Some cs else None
  | None => None
  end.

(** [_os.environ['PY_CODE_B64']]: the key's [--env] prefix. *)
Definition CODE_PREFIX : string := "PY_CODE_B64=".

(** Line 87 of the bootstrap script:
    [_code = base64.b64decode(_os.environ['PY_CODE_B64']).decode('utf-8')]. *)
Definition guest_code (runtime_args : list string) : option (list Z) :=
  match env_arg_value CODE_PREFIX runtime_args with
  | None => None
  | Some v =>
      match b64decode (bytes_of_string v) with
      | inr bs => utf8_decode_strict bs
      | inl _ => None
      end
  end.

(** The first value of [k] in an ordered list of updates. *)
Fixpoint first_value (k : string) (updates : list (string * string)) : option string :=
  match updates with
  | [] => None
  | (k', v) :: us => if String.eqb k' k then Some v else first_value k us
  end.

(** A name the host injects: no [=], and not an option itself. *)
Definition key_ok (k : string) : bool :=
  negb (str_has_char "="%char k) && negb (str_startswith k "-").

(** ** Lemmas *)

Lemma env_arg_value_after (p x : string) (l xs : list string) :
  env_arg_present p l = false -> str_startswith x p = false ->
  env_arg_value p (l ++ x :: xs) = env_arg_value p (x :: xs).
Proof.
  intros Hl Hx. induction l as [|e l IH]; [reflexivity|]. simpl in Hl |- *.
  destruct (String.eqb e "--env").
  - destruct l as [|n l]; simpl; [now rewrite Hx|].
    destruct (str_startswith n p); [discriminate|]. apply IH, Hl.
  - destruct (_ && _); [discriminate | apply IH, Hl].
Qed.

Lemma python_root_of_abs (m : string) :
  str_startswith m "/" = true -> str_startswith (python_root_of m) "/" = true.
Proof.
  intros H. apply str_startswith_char in H as [r ->]. unfold python_root_of. simpl.
  destruct (before_last_slash r) as [[|c t]|]; exact (str_startswith_app "/" _).
Qed.

(** A string without [=] starts with no [k=]. *)
Lemma startswith_no_eq (k s : string) :
  str_has_char "="%char s = false -> str_startswith s (k ++ "=") = false.
Proof.
  unfold str_startswith. revert s. induction k as [|c k IH]; intros [|c' s] Hs; try reflexivity.
  - rewrite str_app_Empty, prefix_String. rewrite has_char_String in Hs.
    destruct (ascii_dec "=" c'); [subst; rewrite Ascii.eqb_refl in Hs; discriminate | reflexivity].
  - rewrite str_app_String, prefix_String. rewrite has_char_String in Hs. apply orb_false_iff in Hs as [_ Hs].
    destruct (ascii_dec c c'); [apply IH, Hs | reflexivity].
Qed.

Lemma env_arg_present_value (p : string) (l : list string) :
  env_arg_present p l = match env_arg_value p l with Some _ => true | None => false end.
Proof.
  induction l as [|e l IH]; [reflexivity|]. simpl.
  destruct (String.eqb e "--env"); [destruct l as [|n l']; [exact IH|]; destruct (str_startswith n p); [reflexivity | exact IH]|].
  destruct (_ && _); [reflexivity | exact IH].
Qed.

Lemma env_arg_value_app_Some (p v : string) (l1 l2 : list string) :
  env_arg_value p l1 = Some v -> env_arg_value p (l1 ++ l2) = Some v.
Proof.
  induction l1 as [|e l1 IH]; [discriminate|]. simpl.
  destruct (String.eqb e "--env").
  - destruct l1 as [|n l1']; [discriminate|]. simpl. destruct (str_startswith n p); [exact id | exact IH].
  - destruct (_ && _); [exact id | exact IH].
Qed.

Lemma startswith_first (s t : string) (c : ascii) :
  str_startswith s (String c t) = true -> str_startswith s (String c "") = true.
Proof.
  unfold str_startswith. destruct s as [|c' s]; [discriminate|]. rewrite !prefix_String.
  destruct (ascii_dec c c'); [intros _; destruct s; reflexivity | discriminate].
Qed.

(** Scanning one injection [--env K=V] for [k=]: a name without [=]
    that does not start with [-] is no option of its own. *)
Lemma env_arg_value_inject (k K V : string) :
  str_has_char "="%char k = false -> str_has_char "="%char K = false -> str_startswith K "-" = false ->
  env_arg_value (k ++ "=") ["--env"; K ++ "=" ++ V] = if String.eqb K k then Some V else None.
Proof.
  intros Hk HK HK2. simpl. destruct (String.eqb_spec K k) as [->|Hne].
  - rewrite <- str_app_assoc, str_startswith_app, str_drop_app. reflexivity.
  - destruct (str_startswith _ (k ++ "=")) eqn:Es; [exfalso; exact (Hne (startswith_key_eq k K V Hk HK Es))|].
    assert (Hd : str_startswith (K ++ "=" ++ V) "-" = false).
    { destruct K as [|c K']; [reflexivity|]. rewrite str_app_String. revert HK2. unfold str_startswith.
      rewrite !prefix_String. destruct (ascii_dec "-" c); [intros H; destruct K'; discriminate H | reflexivity]. }
    assert (He : String.eqb (K ++ "=" ++ V) "--env" = false).
    { destruct (String.eqb_spec (K ++ "=" ++ V) "--env") as [E|]; [|reflexivity]. rewrite E in Hd. discriminate. }
    assert (Hs : str_startswith (K ++ "=" ++ V) "--env=" = false).
    { destruct (str_startswith _ "--env=") eqn:E; [|reflexivity]. apply startswith_first in E. congruence. }
    rewrite He, Hs. reflexivity.
Qed.

Lemma env_arg_value_None (p : string) (l : list string) :
  env_arg_value p l = None -> env_arg_present p l = false.
Proof. rewrite env_arg_present_value. now intros ->. Qed.

(** One [_ensure_env_arg]: the injection of [k] is the caller's, or the
    appended one when it is [k]'s. *)
Lemma _ensure_env_arg_value (args : list string) (k K V : string) :
  str_has_char "="%char k = false -> key_ok K = true ->
  env_arg_value (k ++ "=") (_ensure_env_arg args K V) =
  match env_arg_value (k ++ "=") args with
  | Some v => Some v
  | None => if String.eqb K k then Some V else None
  end.
Proof.
  intros Hk HK. unfold key_ok in HK. apply andb_true_iff in HK as [HK1 HK2].
  apply negb_true_iff in HK1, HK2. unfold _ensure_env_arg.
  destruct (env_arg_value (k ++ "=") args) as [v|] eqn:Ev.
  - destruct (env_arg_present _ args); [exact Ev | now apply env_arg_value_app_Some].
  - destruct (env_arg_present (K ++ "=") args) eqn:Ep.
    + destruct (String.eqb_spec K k) as [->|]; [|exact Ev].
      rewrite env_arg_present_value, Ev in Ep. discriminate.
    + rewrite env_arg_value_after by (apply env_arg_value_None, Ev || apply startswith_no_eq; reflexivity).
      now apply env_arg_value_inject.
Qed.

Lemma ensure_env_args_value (args : list string) (updates : list (string * string)) (k : string) :
  str_has_char "="%char k = false -> Forall (fun kv => key_ok kv.1 = true) updates ->
  env_arg_value (k ++ "=") (ensure_env_args args updates) =
  match env_arg_value (k ++ "=") args with Some v => Some v | None => first_value k updates end.
Proof.
  intros Hk. revert args. induction updates as [|[K V] us IH]; intros args Hu.
  - simpl. destruct (env_arg_value _ args); reflexivity.
  - inversion Hu as [|? ? HK Hus]; subst. change (ensure_env_args args ((K, V) :: us))
      with (ensure_env_args (_ensure_env_arg args K V) us).
    rewrite IH by exact Hus. rewrite _ensure_env_arg_value by assumption.
    simpl. destruct (env_arg_value _ args); [reflexivity|]. destruct (String.eqb K k); reflexivity.
Qed.

(** The mapping option is no injection. *)
Lemma add_mapping_value (root : string) (args : list string) (k : string) :
  str_startswith root "/" = true ->
  env_arg_value (k ++ "=") (add_mapping root args) = env_arg_value (k ++ "=") args.
Proof.
  intros Hr. unfold add_mapping. destruct (_has_mapping args); [reflexivity|].
  destruct (env_arg_value (k ++ "=") args) eqn:Ev; [now apply env_arg_value_app_Some|].
  rewrite env_arg_value_after by (apply env_arg_value_None, Ev || apply startswith_no_eq; reflexivity).
  assert (Hm : str_startswith (host_mapping root) "/" = true) by (unfold host_mapping; now apply str_startswith_app_r).
  destruct (abs_not_env_option _ Hm) as [Hm1 Hm2]. simpl. rewrite Hm1, Hm2. reflexivity.
Qed.

Lemma env_updates_keys_ok (enc : string) (sp : list string) :
  Forall (fun kv => key_ok kv.1 = true) (env_updates enc sp).
Proof. unfold env_updates. destruct (String.eqb _ ""); repeat constructor. Qed.

(** The injection of a name the caller's arguments do not inject is the
    first of [env_updates] for it. *)
Lemma assembled_env_value (root enc : string) (args0 sp : list string) (k : string) :
  str_startswith root "/" = true -> str_has_char "="%char k = false ->
  env_arg_present (k ++ "=") args0 = false ->
  env_arg_value (k ++ "=") (assembled_runtime_args root args0 sp enc) = first_value k (env_updates enc sp).
Proof.
  intros Hr Hk Ha. unfold assembled_runtime_args.
  rewrite ensure_env_args_value, add_mapping_value by (assumption || apply env_updates_keys_ok).
  rewrite env_arg_present_value in Ha. destruct (env_arg_value _ args0); [discriminate | reflexivity].
Qed.

(** The payload injection is the first for its key when the caller's
    arguments have none: it follows the mapping and, at most, the
    [PYTHONUNBUFFERED] injection. *)
Lemma assembled_code_value (root enc : string) (args0 sp : list string) :
  str_startswith root "/" = true -> env_arg_present CODE_PREFIX args0 = false ->
  env_arg_value CODE_PREFIX (assembled_runtime_args root args0 sp enc) = Some enc.
Proof.
  intros Hr Ha. change CODE_PREFIX with ("PY_CODE_B64" ++ "=")%string in *.
  rewrite assembled_env_value by (assumption || reflexivity). unfold env_updates.
  destruct (String.eqb _ ""); reflexivity.
Qed.

Lemma utf8_decode_strict_encode (s bs : list Z) :
  Forall is_code_point s -> utf8_encode s = Some bs -> utf8_decode_strict bs = Some s.
Proof.
  intros Hs He. unfold utf8_decode_strict. rewrite (utf8_decode_of_encode s bs Hs He), He.
  destruct (list_eq_dec Z.eq_dec bs bs); [reflexivity | contradiction].
Qed.

(** The payload survives the trip through the string of the [--env]
    option: [.decode("ascii")] on the host, [b64decode] on the guest. *)
Lemma payload_roundtrip (bs : list Z) :
  Forall is_byte bs -> b64decode (bytes_of_string (string_of_bytes (b64encode bs))) = inr bs.
Proof.
  intros Hbs. rewrite bytes_of_string_of_bytes; [now apply b64_roundtrip|].
  eapply Forall_impl; [|apply b64encode_ascii]. simpl. lia.
Qed.

(** The guest decodes the payload the host encoded. *)
Lemma guest_code_payload (args : list string) (code bs : list Z) :
  Forall is_code_point code -> utf8_encode code = Some bs ->
  env_arg_value CODE_PREFIX args = Some (string_of_bytes (b64encode bs)) ->
  guest_code args = Some code.
Proof.
  intros Hc He Hv. unfold guest_code. rewrite Hv.
  rewrite payload_roundtrip by exact (utf8_encode_bytes code bs Hc He).
  now apply utf8_decode_strict_encode.
Qed.

Lemma argv_assemble (rt m root : string) (args0 sp : list string) (enc : string)
    (f d : option string) (environ : gmap string string) :
  argv (assemble rt m root args0 sp enc f d environ) =
  ([rt; "run"] ++ assembled_runtime_args root args0 sp enc ++ [m] ++ python_args (use_isolated f d))%list.
Proof. reflexivity. Qed.

Section Theorems.
Context `{FileSystem}.
Variable setrlimit_ok : rlimit -> Z -> bool.
Variable run : invocation -> child.

(** The cases of a spawn. *)
Lemma execute_python_Spawned (posix res : bool) (environ : gmap string string) (cwd home : string)
    (code : list Z) (stdin : option (list Z)) (timeout_ms max_output_bytes : Z)
    (cpu mem : option Z) (inv : invocation) (o : exec_outcome) :
  execute_python setrlimit_ok posix res run environ cwd home code stdin timeout_ms max_output_bytes cpu mem
    = Spawned inv o ->
  exists rt m args0 bs,
    _resolve_wasm_runtime environ cwd home = inr (rt, m, args0) /\ utf8_encode code = Some bs /\
    inv = assemble rt m (python_root_of m) args0 (_discover_stdlib_paths (python_root_of m) guest_prefix)
            (string_of_bytes (b64encode bs)) (environ !! "PYTHON_WASM_FORCE_ISOLATED")
            (environ !! "PYTHON_WASM_DISABLE_ISOLATED") environ /\
    o = supervise (child_setup_of setrlimit_ok posix res cpu mem) posix (run inv) stdin timeout_ms
          max_output_bytes.
Proof.
  unfold execute_python. destruct (_resolve_wasm_runtime _ _ _) as [e|[[rt m] args0]]; [discriminate|].
  destruct (utf8_encode code) as [bs|]; [|discriminate]. intros Hs. invc Hs. eauto 8.
Qed.

(** A resolved runtime and an encodable program: the child is spawned
    and supervised. *)
Lemma execute_python_spawns (posix res : bool) (environ : gmap string string) (cwd home : string)
    (code : list Z) (stdin : option (list Z)) (timeout_ms max_output_bytes : Z)
    (cpu mem : option Z) (rt m : string) (args0 : list string) (bs : list Z) :
  _resolve_wasm_runtime environ cwd home = inr (rt, m, args0) -> utf8_encode code = Some bs ->
  exists inv, execute_python setrlimit_ok posix res run environ cwd home code stdin timeout_ms max_output_bytes cpu mem
    = Spawned inv (supervise (child_setup_of setrlimit_ok posix res cpu mem) posix (run inv) stdin timeout_ms
                     max_output_bytes).
Proof. intros Hr He. unfold execute_python. rewrite Hr, He. eauto. Qed.

End Theorems.

(** ** Theorems *)

Section Claims.
Context `{FileSystem}.
Variable setrlimit_ok : rlimit -> Z -> bool.
Variable run : invocation -> child.

(** C4: End to end, the guest runs the submitted code: the runtime's
    options carry one [--env PY_CODE_B64=...] the guest reads first, and
    the bootstrap's [b64decode(...).decode('utf-8')] gives back exactly
    the code, unless [PYTHON_WASM_RUNTIME_ARGS] injects the key itself. *)
Theorem execute_python_payload (posix res : bool) (environ : gmap string string) (cwd home : string)
    (code : list Z) (stdin : option (list Z)) (timeout_ms max_output_bytes : Z)
    (cpu mem : option Z) (inv : invocation) (o : exec_outcome) :
  isabs cwd = true -> Forall is_code_point code ->
  (forall args0, shlex_split (default "" (environ !! "PYTHON_WASM_RUNTIME_ARGS")) = inr args0 ->
                 env_arg_present CODE_PREFIX args0 = false) ->
  execute_python setrlimit_ok posix res run environ cwd home code stdin timeout_ms max_output_bytes cpu mem
    = Spawned inv o ->
  exists rt m rargs,
    argv inv = ([rt; "run"] ++ rargs ++ [m] ++
                python_args (use_isolated (environ !! "PYTHON_WASM_FORCE_ISOLATED")
                                          (environ !! "PYTHON_WASM_DISABLE_ISOLATED")))%list /\
    guest_code rargs = Some code.
Proof.
  intros Hc Hcode Hargs Hx. apply execute_python_Spawned in Hx as (rt & m & args0 & bs & R & E & -> & _).
  apply _resolve_wasm_runtime_inr in R as (_ & mraw & _ & _ & _ & _ & _ & Hm & Hsh).
  eexists rt, m, _. split; [apply argv_assemble|].
  apply (guest_code_payload _ code bs Hcode E). apply assembled_code_value; [| exact (Hargs _ Hsh)].
  apply python_root_of_abs. subst m. now apply abspath_isabs.
Qed.

(** C13: No process is created when the resolution fails: the
    configuration error is the result (a module path naming a
    directory, say). *)
Theorem execute_python_no_spawn (posix res : bool) (environ : gmap string string) (cwd home : string)
    (code : list Z) (stdin : option (list Z)) (timeout_ms max_output_bytes : Z)
    (cpu mem : option Z) (e : resolve_error) :
  _resolve_wasm_runtime environ cwd home = inl e ->
  execute_python setrlimit_ok posix res run environ cwd home code stdin timeout_ms max_output_bytes cpu mem
    = Failed (ResolveFailed e).
Proof. intros R. unfold execute_python. now rewrite R. Qed.

(** On a POSIX host with the [resource] module, every execution whose
    runtime starts and whose input can be encoded returns its result, at the
    latest at the request's deadline after the spawn. *)
Theorem execute_python_returns (environ : gmap string string) (cwd home : string)
    (code : list Z) (stdin : option (list Z)) (timeout_ms max_output_bytes : Z)
    (cpu mem : option Z) (inv : invocation) (o : exec_outcome) :
  0 <= timeout_ms -> option_map utf8_encode stdin <> Some None ->
  execute_python setrlimit_ok true true run environ cwd home code stdin timeout_ms max_output_bytes cpu mem
    = Spawned inv o -> popen_raises (run inv) = false ->
  exists r, o = Returned r /\ duration_ms r <= elapsed (run inv) timeout_ms.
Proof.
  intros HT Hs Hx Hp. apply execute_python_Spawned in Hx as (_ & _ & _ & _ & _ & _ & _ & ->).
  exact (supervise_by_deadline setrlimit_ok cpu mem _ stdin timeout_ms max_output_bytes Hp HT Hs).
Qed.

(** Code with a lone surrogate is rejected before the spawn (unlike
    such an input, see [supervise_stdin_unencodable]). *)
Theorem execute_python_code_unencodable (posix res : bool) (environ : gmap string string)
    (cwd home : string) (code : list Z) (stdin : option (list Z)) (timeout_ms max_output_bytes : Z)
    (cpu mem : option Z) (rt m : string) (args0 : list string) :
  _resolve_wasm_runtime environ cwd home = inr (rt, m, args0) -> utf8_encode code = None ->
  execute_python setrlimit_ok posix res run environ cwd home code stdin timeout_ms max_output_bytes cpu mem
    = Failed CodeUnencodable.
Proof. intros R E. unfold execute_python. now rewrite R, E. Qed.

End Claims.

Example python_root_of_cases :
  map python_root_of ["/opt/py/python.wasm"; "/python.wasm"] = ["/opt/py"; "/"].
Proof. reflexivity. Qed.

(** ** The theorems on the sample host of [Resolver.v] *)

Definition sample_code : list Z := ⟪"print(1)"⟫.

Lemma sample_code_ok : Forall is_code_point sample_code.
Proof.
  apply Forall_forall. intros x Hx. vm_compute in Hx. unfold is_code_point.
  repeat (destruct Hx as [<- | Hx]; [lia|]). destruct Hx.
Qed.

Lemma execute_python_payload_witness :
  isabs "/srv" = true /\ Forall is_code_point sample_code /\
  (forall args0, shlex_split (default "" (sample_env !! "PYTHON_WASM_RUNTIME_ARGS")) = inr args0 ->
                 env_arg_present CODE_PREFIX args0 = false) /\
  match @execute_python sample_fs all_ok true true (fun _ => quick) sample_env "/srv" "/home/u"
          sample_code None 1000 65536 None None with
  | Spawned inv _ =>
      exists rt m rargs,
        argv inv = ([rt; "run"] ++ rargs ++ [m] ++
                    python_args (use_isolated (sample_env !! "PYTHON_WASM_FORCE_ISOLATED")
                                              (sample_env !! "PYTHON_WASM_DISABLE_ISOLATED")))%list /\
        guest_code rargs = Some sample_code
  | Failed _ => False
  end.
Proof.
  pose proof sample_code_ok as Hc.
  assert (Ha : forall args0, shlex_split (default "" (sample_env !! "PYTHON_WASM_RUNTIME_ARGS")) = inr args0 ->
                 env_arg_present CODE_PREFIX args0 = false).
  { intros a Hs. replace a with (@nil string) by (vm_compute in Hs; congruence). reflexivity. }
  split; [reflexivity|]. split; [exact Hc|]. split; [exact Ha|].
  destruct (@execute_python sample_fs all_ok true true (fun _ => quick) sample_env "/srv" "/home/u"
              sample_code None 1000 65536 None None) as [e|inv o] eqn:E.
  - vm_compute in E. discriminate.
  - exact (execute_python_payload all_ok (fun _ => quick) true true sample_env "/srv" "/home/u" sample_code None
             1000 65536 None None _ _ eq_refl Hc Ha E).
Defined.

Lemma execute_python_no_spawn_witness :
  @_resolve_wasm_runtime sample_fs (env_with "PYTHON_WASM_PATH" "/opt/py") "/srv" "/home/u" =
    inl (ModuleIsDirectory "/opt/py") /\
  @execute_python sample_fs all_ok true true (fun _ => quick) (env_with "PYTHON_WASM_PATH" "/opt/py")
    "/srv" "/home/u" sample_code None 1000 65536 None None = Failed (ResolveFailed (ModuleIsDirectory "/opt/py")).
Proof. split; [reflexivity | apply execute_python_no_spawn; reflexivity]. Defined.

Lemma execute_python_returns_witness :
  (0 <= 1000)%Z /\ option_map utf8_encode (Some [0x78]) <> Some None /\
  match @execute_python sample_fs all_ok true true (fun _ => runaway) sample_env "/srv" "/home/u"
          sample_code (Some [0x78]) 1000 65536 None None with
  | Spawned _ o => exists r, o = Returned r /\ duration_ms r <= elapsed runaway 1000
  | Failed _ => False
  end.
Proof.
  split; [lia|]. split; [discriminate|].
  destruct (@execute_python sample_fs all_ok true true (fun _ => runaway) sample_env "/srv" "/home/u"
              sample_code (Some [0x78]) 1000 65536 None None) as [e|inv o] eqn:E.
  - vm_compute in E. discriminate.
  - refine (execute_python_returns all_ok (fun _ => runaway) sample_env "/srv" "/home/u" sample_code
              (Some [0x78]) 1000 65536 None None inv o _ _ E _); [lia | discriminate | reflexivity].
Defined.

Lemma execute_python_code_unencodable_witness :
  @_resolve_wasm_runtime sample_fs sample_env "/srv" "/home/u" =
    inr ("/usr/local/bin/wasmtime", "/opt/py/python.wasm", []) /\
  utf8_encode [0x61; 0xD800] = None /\
  @execute_python sample_fs all_ok true true (fun _ => quick) sample_env "/srv" "/home/u"
    [0x61; 0xD800] None 1000 65536 None None = Failed CodeUnencodable.
Proof.
  split; [reflexivity|]. split; [reflexivity|].
  apply (execute_python_code_unencodable all_ok (fun _ => quick) true true sample_env "/srv" "/home/u"
           _ None 1000 65536 None None "/usr/local/bin/wasmtime" "/opt/py/python.wasm" []); reflexivity.
Defined.

End Executor.
