(* ===== verification/Guest.v ===== *)
(** The guest side of the invocation: [_WASM_BOOTSTRAP_SCRIPT]
    (executor.py, lines 75-91) run by the interpreter inside the
    sandbox.  The guest's [os.environ] is what the runtime's [--env]
    options inject (the first injection of a name, as
    [Executor.env_arg_value] reads it); the script sets [sys.prefix]
    and [sys.exec_prefix], puts the stdlib paths in front of [sys.path]
    ([Assembler.bootstrap_sys_path]), then decodes [PY_CODE_B64] with
    [base64.b64decode] and a strict [.decode('utf-8')], and hands the
    program to [exec] under [__name__ == '__main__'].  Each exception
    the script can raise is a constructor of [guest_error].  The
    theorem composes the host's assembly with the script: the guest
    runs exactly the submitted program with the prefix and the paths
    the host computed. *)

From stdpp Require Import base gmap strings list.
From Stdlib Require Import ZArith String Ascii Bool List Lia.
From S2P Require Import Prelude Utf8 Base64 Assembler Executor.
Import ListNotations.
Open Scope string_scope.

Module Guest.
Import Utf8 Base64 Assembler Executor.

(** [_os.environ.get(name)] in the guest. *)
Definition guest_getenv (runtime_args : list string) (name : string) : option string :=
  env_arg_value (name ++ "=") runtime_args.

(** The part of the guest's [sys] the script changes. *)
Record guest_sys := { sys_prefix : string; sys_exec_prefix : string; sys_path : list string }.

(** The exceptions of the script (those of [exec] itself, the user
    program's, are the guest interpreter's). *)
Inductive guest_error :=
  | KeyError (name : string)       (* [_os.environ['PY_CODE_B64']] *)
  | BinasciiError (e : a2b_error)  (* [base64.b64decode] *)
  | UnicodeDecodeError.            (* [.decode('utf-8')] *)

(** [_globals = {'__name__': '__main__'}] *)
Definition main_globals : list (string * string) := [("__name__", "__main__")].

(** The script: the program [exec] runs, with the [sys] it runs in. *)
Definition bootstrap (runtime_args : list string) (sys : guest_sys) : guest_error + (guest_sys * list Z) :=
  let getenv := guest_getenv runtime_args in
  let sys1 :=
    match getenv "PYTHON_WASM_PREFIX" with
    | Some p =>
        if String.eqb p "" then sys
        else {| sys_prefix := p; sys_exec_prefix := p; sys_path := sys_path sys |}
    | None => sys
    end in
  let sys2 := {| sys_prefix := sys_prefix sys1; sys_exec_prefix := sys_exec_prefix sys1;
                 sys_path := bootstrap_sys_path (getenv "PYTHON_WASM_STDLIB_PATHS") (sys_path sys1) |} in
  match getenv "PY_CODE_B64" with
  | None => inl (KeyError "PY_CODE_B64")
  | Some v =>
      match b64decode (bytes_of_string v) with
      | inl e => inl (BinasciiError e)
      | inr bs =>
          match utf8_decode_strict bs with
          | Some code => inr (sys2, code)
          | None => inl UnicodeDecodeError
          end
      end
  end.

(** The names the host injects for the script. *)
Definition script_keys : list string := ["PY_CODE_B64"; "PYTHON_WASM_PREFIX"; "PYTHON_WASM_STDLIB_PATHS"].

(** ** Lemmas *)

(** What the guest reads of a name the caller's arguments do not inject. *)
Lemma assembled_getenv (root enc : string) (args0 sp : list string) (k : string) :
  str_startswith root "/" = true -> str_has_char "="%char k = false ->
  env_arg_present (k ++ "=") args0 = false ->
  guest_getenv (assembled_runtime_args root args0 sp enc) k = first_value k (env_updates enc sp).
Proof.
  intros Hr Hk Ha. unfold guest_getenv. now apply assembled_env_value.
Qed.


Lemma first_value_code (enc : string) (sp : list string) :
  first_value "PY_CODE_B64" (env_updates enc sp) = Some enc.
Proof. reflexivity. Qed.

Lemma first_value_prefix (enc : string) (sp : list string) :
  first_value "PYTHON_WASM_PREFIX" (env_updates enc sp) = Some guest_prefix.
Proof. reflexivity. Qed.

Lemma first_value_paths (enc : string) (sp : list string) :
  first_value "PYTHON_WASM_STDLIB_PATHS" (env_updates enc sp) = Some (str_join ":" sp).
Proof. reflexivity. Qed.

(** ** Theorems *)

(** C15: Host and guest together: when the operator's runtime arguments
    inject none of the script's names, the bootstrap script in the
    guest sets [sys.prefix] and [sys.exec_prefix] to the guest prefix,
    puts the discovered stdlib paths not yet on [sys.path] in front of
    it in order, and runs exactly the submitted program. *)
Theorem bootstrap_assembled (root : string) (args0 sp : list string) (code bs : list Z) (sys : guest_sys) :
  str_startswith root "/" = true ->
  Forall (fun k => env_arg_present (k ++ "=") args0 = false) script_keys ->
  Forall is_code_point code -> utf8_encode code = Some bs ->
  Forall (fun p => p <> "" /\ str_has_char ":"%char p = false) sp -> NoDup sp ->
  bootstrap (assembled_runtime_args root args0 sp (string_of_bytes (b64encode bs))) sys =
  inr ({| sys_prefix := guest_prefix; sys_exec_prefix := guest_prefix;
          sys_path := (filter (fun p => negb (existsb (String.eqb p) (sys_path sys))) sp ++ sys_path sys)%list |},
       code).
Proof.
  intros Hr Hk Hc He Hsp Hnd. unfold script_keys in Hk.
  inversion Hk as [|? ? Hk1 Hk']; inversion Hk' as [|? ? Hk2 Hk'']; inversion Hk'' as [|? ? Hk3 _]; subst.
  unfold bootstrap. rewrite !assembled_getenv by (assumption || reflexivity).
  rewrite first_value_code, first_value_prefix, first_value_paths. cbv zeta.
  change (String.eqb guest_prefix "") with false. cbn iota.
  rewrite payload_roundtrip by exact (utf8_encode_bytes code bs Hc He).
  rewrite (utf8_decode_strict_encode code bs Hc He). cbn [sys_prefix sys_exec_prefix sys_path].
  rewrite bootstrap_sys_path_join_eq by assumption. reflexivity.
Qed.

Lemma bootstrap_assembled_witness :
  bootstrap (assembled_runtime_args "/opt/py" [] ["/python/lib/python3.12"]
               (string_of_bytes (b64encode sample_code)))
            {| sys_prefix := "/usr"; sys_exec_prefix := "/usr"; sys_path := ["/usr/lib/python312.zip"] |} =
  inr ({| sys_prefix := guest_prefix; sys_exec_prefix := guest_prefix;
          sys_path := ["/python/lib/python3.12"; "/usr/lib/python312.zip"] |}, sample_code).
Proof.
  apply (bootstrap_assembled "/opt/py" [] ["/python/lib/python3.12"] sample_code sample_code
           {| sys_prefix := "/usr"; sys_exec_prefix := "/usr"; sys_path := ["/usr/lib/python312.zip"] |});
    [reflexivity | repeat constructor | exact sample_code_ok | reflexivity
    | repeat constructor; discriminate | repeat constructor; simpl; tauto].
Defined.

End Guest.
