(* ===== verification/Api.v ===== *)
(** The HTTP layer and the process configuration around the executor:
    [src/app/core/config.py] ([_int_from_env] with Python's [int()] of
    [PyInt.v], [Settings.from_env], the [lru_cache] of [get_settings]),
    [src/app/models/schemas.py] (the request's validation and the
    response model), [src/app/api/routes.py] ([execute]: the timeout
    policy, then [execute_python]) and [src/app/main.py] ([healthz], the
    host and port of [run]).  FastAPI, pydantic's JSON decoding and
    uvicorn are not modelled: a request arrives as its three fields, a
    response leaves as its status and body.  Environment strings are
    ASCII here. *)

From stdpp Require Import base gmap strings list.
From Stdlib Require Import ZArith String Ascii Bool List Lia.
From S2P Require Import Prelude PyInt Utf8 Sanitizer Assembler Fs Resolver Supervisor Executor.
Import ListNotations.
Open Scope string_scope.

Module Api.
Import PyInt Utf8 Assembler Fs Resolver Supervisor Executor.

(** ** config.py *)

(** [_int_from_env(name, default)] *)
Definition _int_from_env (environ : gmap string string) (name : string) (default : Z) : Z :=
  match environ !! name with
  | None => default
  | Some raw => match int_of_string raw with Some v => v | None => default end
  end.

Record Settings := {
  max_exec_timeout_ms : Z;
  max_output_bytes : Z;
  cpu_time_limit_sec : Z;
  memory_limit_mb : Z
}.

(** The dataclass defaults. *)
Definition default_settings : Settings :=
  {| max_exec_timeout_ms := 5000; max_output_bytes := 1000000;
     cpu_time_limit_sec := 2; memory_limit_mb := 256 |}.

(** [Settings.from_env()] *)
Definition from_env (environ : gmap string string) : Settings :=
  {| max_exec_timeout_ms := _int_from_env environ "MAX_EXEC_TIMEOUT_MS" 5000;
     max_output_bytes := _int_from_env environ "MAX_OUTPUT_BYTES" 1000000;
     cpu_time_limit_sec := _int_from_env environ "CPU_TIME_LIMIT_SEC" 2;
     memory_limit_mb := _int_from_env environ "MEMORY_LIMIT_MB" 256 |}.

(** [@lru_cache(maxsize=1) get_settings()]: the cache is the process's
    state; the first call reads the environment of that moment. *)
Definition get_settings (cache : option Settings) (environ : gmap string string)
    : Settings * option Settings :=
  match cache with
  | Some s => (s, cache)
  | None => let s := from_env environ in (s, Some s)
  end.

(** ** schemas.py *)

(** The body's fields as JSON gives them ([None]: absent). *)
Record raw_request := { rq_code : option (list Z); rq_stdin : option (list Z); rq_timeout_ms : option Z }.

(** [ExecuteRequest] *)
Record ExecuteRequest := { code : list Z; stdin : option (list Z); timeout_ms : Z }.

Inductive validation_error := MissingCode | TimeoutBelowOne.

(** Pydantic's validation of [ExecuteRequest]: [code] required,
    [timeout_ms] defaults to 2000 and must be [>= 1]. *)
Definition validate_request (r : raw_request) : validation_error + ExecuteRequest :=
  match rq_code r with
  | None => inl MissingCode
  | Some c =>
      let t := match rq_timeout_ms r with Some t => t | None => 2000%Z end in
      if (t <? 1)%Z then inl TimeoutBelowOne
      else inr {| code := c; stdin := rq_stdin r; timeout_ms := t |}
  end.

(** ** routes.py and main.py *)

(** [ExecuteResponse] (schemas.py): the response model. *)
Record ExecuteResponse := {
  resp_stdout : list Z; resp_stderr : list Z; resp_exit_code : option Z;
  resp_timed_out : bool; resp_duration_ms : Z }.

(** [ExecuteResponse(stdout=result.stdout, ...)]: field by field. *)
Definition response_of (r : ExecutionResult) : ExecuteResponse :=
  {| resp_stdout := stdout r; resp_stderr := stderr r; resp_exit_code := exit_code r;
     resp_timed_out := timed_out r; resp_duration_ms := duration_ms r |}.

Inductive http_response :=
  | HTTP200 (body : ExecuteResponse)
  | HTTP422 (detail : string)          (* validation, or the timeout policy *)
  | HTTP500                            (* an exception out of [execute_python] *)
  | NoResponse.                        (* [execute_python] never returns *)

(** [f"timeout_ms exceeds maximum of {settings.max_exec_timeout_ms} ms"] *)
Definition timeout_detail (max_ms : Z) : string :=
  "timeout_ms exceeds maximum of " ++ show_int max_ms ++ " ms".

Section Routes.
Context `{FileSystem}.
Variable setrlimit_ok : rlimit -> Z -> bool.
Variables posix resource_available : bool.
Variable run : invocation -> child.

(** The body of [execute(req)] once [settings] is known: the policy
    check, then [execute_python] with the settings' caps and limits,
    its result returned as an [ExecuteResponse]. *)
Definition execute_with (settings : Settings) (environ : gmap string string) (cwd home : string)
    (req : ExecuteRequest) : http_response :=
  if (timeout_ms req >? max_exec_timeout_ms settings)%Z then
    HTTP422 (timeout_detail (max_exec_timeout_ms settings))
  else
    match execute_python setrlimit_ok posix resource_available run environ cwd home
            (code req) (stdin req) (timeout_ms req) (max_output_bytes settings)
            (Some (cpu_time_limit_sec settings)) (Some (memory_limit_mb settings)) with
    | Failed _ => HTTP500
    | Spawned _ (Returned r) => HTTP200 (response_of r)
    | Spawned _ PopenFailed => HTTP500
    | Spawned _ StdinUnencodable => HTTP500
    | Spawned _ Blocked => NoResponse
    end.

(** [execute(req)]: [settings = get_settings()] through the cache. *)
Definition execute (cache : option Settings) (environ : gmap string string) (cwd home : string)
    (req : ExecuteRequest) : http_response * option Settings :=
  let '(settings, cache') := get_settings cache environ in
  (execute_with settings environ cwd home req, cache').

(** [POST /v1/execute]: validation, then [execute]. *)
Definition post_execute (cache : option Settings) (environ : gmap string string) (cwd home : string)
    (r : raw_request) : http_response * option Settings :=
  match validate_request r with
  | inl _ => (HTTP422 "validation error", cache)
  | inr req => execute cache environ cwd home req
  end.

End Routes.

(** [GET /healthz] *)
Definition healthz : list (string * string) := [("status", "ok")].

(** [run()]: the host and port given to uvicorn; [None] is the
    [ValueError] of [int(port_str)], which [run] does not catch. *)
Definition run_config (environ : gmap string string) : option (string * Z) :=
  let host := match environ !! "HOST" with Some h => h | None => "127.0.0.1" end in
  match environ !! "PORT" with
  | Some p => if String.eqb p "" then Some (host, 8000%Z) else option_map (fun port => (host, port)) (int_of_string p)
  | None => Some (host, 8000%Z)
  end.

(** ** Theorems *)

(** [_int_from_env] reads a variable written as [int]'s documentation
    allows (whitespace, sign, single underscores) and falls back to the
    default on anything else, as on a missing variable. *)
Theorem _int_from_env_spec (environ : gmap string string) (name : string) (default : Z) :
  (environ !! name = None -> _int_from_env environ name default = default) /\
  (forall raw n, environ !! name = Some raw -> int_literal (list_ascii_of_string raw) n ->
                 _int_from_env environ name default = n) /\
  (forall raw, environ !! name = Some raw -> (forall n, ~ int_literal (list_ascii_of_string raw) n) ->
               _int_from_env environ name default = default).
Proof.
  unfold _int_from_env. repeat split.
  - now intros ->.
  - intros raw n -> Hl. now rewrite (int_of_string_complete raw n Hl).
  - intros raw -> Hn. destruct (int_of_string raw) as [v|] eqn:E; [|reflexivity].
    destruct (Hn v (int_of_string_sound raw v E)).
Qed.

(** C39: [run()] fails at start-up ([int(port_str)] raises [ValueError],
    which nothing catches) exactly when [PORT] is set, non-empty, and
    not an integer as [int] reads it. *)
Theorem run_config_error (environ : gmap string string) :
  run_config environ = None <->
  exists p, environ !! "PORT" = Some p /\ p <> "" /\ forall n, ~ int_literal (list_ascii_of_string p) n.
Proof.
  unfold run_config. destruct (environ !! "PORT") as [p|].
  - destruct (String.eqb_spec p "") as [->|Hne].
    + split; [discriminate | intros (q & [= <-] & Hq & _); contradiction].
    + destruct (int_of_string p) as [v|] eqn:E; cbn [option_map].
      * split; [discriminate|]. intros (q & [= <-] & _ & Hn). destruct (Hn v (int_of_string_sound p v E)).
      * split; [intros _; exists p; repeat split; [exact Hne|] | reflexivity].
        intros n Hl. rewrite (int_of_string_complete p n Hl) in E. discriminate.
  - split; [discriminate | intros (q & Hq & _); discriminate].
Qed.

Lemma run_config_error_witness :
  run_config (<["PORT" := "80 80"]> ∅) = None /\
  exists p, (<["PORT" := "80 80"]> (∅ : gmap string string)) !! "PORT" = Some p /\ p <> "" /\
            forall n, ~ int_literal (list_ascii_of_string p) n.
Proof. split; [reflexivity | apply run_config_error; reflexivity]. Defined.


Section RouteTheorems.
Context `{FileSystem}.
Variable setrlimit_ok : rlimit -> Z -> bool.
Variable run : invocation -> child.

(** The settings after a call: the cached ones, or those of the
    environment of the first call. *)
Lemma get_settings_cache (cache : option Settings) (environ : gmap string string) :
  snd (get_settings cache environ) = Some (fst (get_settings cache environ)).
Proof. destruct cache; reflexivity. Qed.

(** An answered execution ran within the policy. *)
Lemma execute_HTTP200 (posix res : bool) (cache : option Settings) (environ : gmap string string)
    (cwd home : string) (req : ExecuteRequest) (r : ExecuteResponse) (c' : option Settings) :
  execute setrlimit_ok posix res run cache environ cwd home req = (HTTP200 r, c') ->
  (timeout_ms req <= max_exec_timeout_ms (fst (get_settings cache environ)))%Z /\
  exists inv r0, execute_python setrlimit_ok posix res run environ cwd home (code req) (stdin req)
                (timeout_ms req) (max_output_bytes (fst (get_settings cache environ)))
                (Some (cpu_time_limit_sec (fst (get_settings cache environ))))
                (Some (memory_limit_mb (fst (get_settings cache environ)))) = Spawned inv (Returned r0)
             /\ r = response_of r0.
Proof.
  unfold execute, execute_with. destruct (get_settings cache environ) as [st c0]. cbn [fst].
  destruct (Z.gtb_spec (timeout_ms req) (max_exec_timeout_ms st)); [discriminate|].
  destruct (execute_python _ _ _ _ _ _ _ _ _ _ _ _ _) as [e|inv [r0| | |]] eqn:E; try discriminate.
  intros Hr. invc Hr. split; [lia | eauto].
Qed.

(** A request the policy allows, whose runtime starts and closes its
    pipes by the deadline, is answered 200 with the sanitized streams,
    the runtime's status and the time the code measures. *)
Lemma execute_completes (posix res : bool) (cache : option Settings) (environ : gmap string string)
    (cwd home : string) (req : ExecuteRequest) (rt m : string) (args0 : list string) (bs : list Z) (t : Z) :
  _resolve_wasm_runtime environ cwd home = inr (rt, m, args0) -> utf8_encode (code req) = Some bs ->
  stdin req = None -> (timeout_ms req <= max_exec_timeout_ms (fst (get_settings cache environ)))%Z ->
  (forall inv, popen_raises (run inv) = false /\ close_time (holders (run inv)) = Some t) ->
  (t <= timeout_ms req)%Z ->
  exists inv, execute setrlimit_ok posix res run cache environ cwd home req =
    (HTTP200 (response_of (collect (run inv) (max_output_bytes (fst (get_settings cache environ)))
                             false (Some (returncode (run inv))) t)),
     snd (get_settings cache environ)).
Proof.
  intros Hr He Hs Ht Hrun Htt. unfold execute, execute_with. destruct (get_settings cache environ) as [st c'].
  cbn [fst snd] in *. destruct (Z.gtb_spec (timeout_ms req) (max_exec_timeout_ms st)); [lia|].
  destruct (execute_python_spawns setrlimit_ok run posix res environ cwd home (code req) (stdin req)
              (timeout_ms req) (max_output_bytes st) (Some (cpu_time_limit_sec st)) (Some (memory_limit_mb st))
              rt m args0 bs Hr He) as [inv ->].
  destruct (Hrun inv) as [Hp Hc]. exists inv. rewrite Hs, (supervise_closes _ _ _ _ _ t Hp Hc Htt). reflexivity.
Qed.

(** C27: Every text a 200 carries can be encoded as UTF-8, which
    Starlette's [JSONResponse.render] does with [.encode("utf-8")]: the
    sanitizer's [errors="replace"] decoding leaves no lone surrogate,
    whatever bytes the guest wrote. *)
Theorem execute_response_encodable (posix res : bool) (cache : option Settings) (environ : gmap string string)
    (cwd home : string) (req : ExecuteRequest) (r : ExecuteResponse) (c' : option Settings) :
  (forall inv, Forall is_byte (child_stdout (run inv)) /\ Forall is_byte (child_stderr (run inv))) ->
  execute setrlimit_ok posix res run cache environ cwd home req = (HTTP200 r, c') ->
  (exists bo, utf8_encode (resp_stdout r) = Some bo) /\ (exists be, utf8_encode (resp_stderr r) = Some be).
Proof.
  intros Hb Hx. apply execute_HTTP200 in Hx as [_ [inv [r0 [Hx ->]]]].
  apply execute_python_Spawned in Hx as (_ & _ & _ & _ & _ & _ & _ & Ho). symmetry in Ho.
  apply supervise_Returned in Ho as (Hso & Hse & _). destruct (Hb inv) as [Bo Be].
  cbn [response_of resp_stdout resp_stderr]. rewrite Hso, Hse.
  split; apply utf8_encode_scalars, Sanitizer._truncate_valid; assumption.
Qed.

(** C16: The HTTP layer answers 200 only for a valid request whose
    [timeout_ms] lies between 1 and the configured maximum; on a POSIX
    host with the [resource] module that answer came by the deadline
    after the spawn, and reports at most the timeout plus the time the
    code measures before the spawn and after the drain. *)
Theorem post_execute_within_policy (cache : option Settings) (environ : gmap string string)
    (cwd home : string) (raw : raw_request) (r : ExecuteResponse) (c' : option Settings) :
  post_execute setrlimit_ok true true run cache environ cwd home raw = (HTTP200 r, c') ->
  exists req, validate_request raw = inr req /\
    (1 <= timeout_ms req <= max_exec_timeout_ms (fst (get_settings cache environ)))%Z /\
    exists inv, (resp_duration_ms r <= elapsed (run inv) (timeout_ms req))%Z.
Proof.
  unfold post_execute. destruct (validate_request raw) as [e|req] eqn:V; [discriminate|].
  intros Hx. apply execute_HTTP200 in Hx as [Hmax [inv [r0 [Hx ->]]]].
  assert (H1 : (1 <= timeout_ms req)%Z).
  { unfold validate_request in V. destruct (rq_code raw); [|discriminate].
    destruct (Z.ltb_spec (match rq_timeout_ms raw with Some t => t | None => 2000%Z end) 1); [discriminate|].
    invc V. simpl. lia. }
  exists req. split; [reflexivity|]. split; [lia|].
  apply execute_python_Spawned in Hx as (_ & _ & _ & _ & _ & _ & _ & Ho).
  assert (Hp : popen_raises (run inv) = false).
  { unfold supervise in Ho. destruct (popen_raises (run inv)); [discriminate | reflexivity]. }
  assert (Hs : option_map utf8_encode (stdin req) <> Some None).
  { intros Hn. unfold supervise in Ho. rewrite Hp, Hn in Ho. discriminate. }
  destruct (supervise_by_deadline setrlimit_ok (Some (cpu_time_limit_sec (fst (get_settings cache environ))))
              (Some (memory_limit_mb (fst (get_settings cache environ)))) (run inv) (stdin req)
              (timeout_ms req) (max_output_bytes (fst (get_settings cache environ))) Hp ltac:(lia) Hs)
    as (r' & Hr' & Hd).
  rewrite <- Ho in Hr'. invc Hr'. exists inv. exact Hd.
Qed.

(** [get_settings] reads the environment once: after the first
    call every later call returns the same settings, whatever the
    environment has become. *)
Theorem get_settings_frozen (cache : option Settings) (env1 env2 : gmap string string) :
  get_settings (snd (get_settings cache env1)) env2 = get_settings cache env1.
Proof. rewrite get_settings_cache. destruct cache; reflexivity. Qed.

(** C14: A runtime that resolves but cannot be started ([Popen] raises:
    removed or made non-executable since the lookup) is reported as a
    server error, neither as a result nor as a timeout. *)
Theorem execute_popen_failed (posix res : bool) (cache : option Settings) (environ : gmap string string)
    (cwd home : string) (req : ExecuteRequest) (rt m : string) (args0 : list string) (bs : list Z) :
  (timeout_ms req <= max_exec_timeout_ms (fst (get_settings cache environ)))%Z ->
  _resolve_wasm_runtime environ cwd home = inr (rt, m, args0) -> utf8_encode (code req) = Some bs ->
  (forall inv, popen_raises (run inv) = true) ->
  fst (execute setrlimit_ok posix res run cache environ cwd home req) = HTTP500.
Proof.
  intros Ht Hr He Hp. unfold execute, execute_with. destruct (get_settings cache environ) as [st c'].
  cbn [fst] in *. destruct (Z.gtb_spec (timeout_ms req) (max_exec_timeout_ms st)); [lia|].
  destruct (execute_python_spawns setrlimit_ok run posix res environ cwd home (code req) (stdin req)
              (timeout_ms req) (max_output_bytes st) (Some (cpu_time_limit_sec st)) (Some (memory_limit_mb st))
              rt m args0 bs Hr He) as [inv ->].
  rewrite supervise_popen_failed by apply Hp. reflexivity.
Qed.

End RouteTheorems.

(** A well-formed request with a timeout of one second. *)
Definition sample_request : raw_request :=
  {| rq_code := Some sample_code; rq_stdin := None; rq_timeout_ms := Some 1000%Z |}.

Lemma post_execute_within_policy_witness :
  match @post_execute sample_fs all_ok true true (fun _ => quick) None sample_env "/srv" "/home/u"
          sample_request with
  | (HTTP200 r, c') =>
      exists req, validate_request sample_request = inr req /\
        (1 <= timeout_ms req <= max_exec_timeout_ms (fst (get_settings None sample_env)))%Z /\
        exists inv : invocation, (resp_duration_ms r <= elapsed quick (timeout_ms req))%Z
  | _ => False
  end.
Proof.
  destruct (@post_execute sample_fs all_ok true true (fun _ => quick) None sample_env "/srv" "/home/u"
              sample_request) as [[r| | |] c'] eqn:E; try (vm_compute in E; discriminate).
  exact (post_execute_within_policy all_ok (fun _ => quick) None sample_env "/srv" "/home/u"
           sample_request r c' E).
Defined.

(** The runtime of [sample_env] once it can no longer be started. *)
Lemma execute_popen_failed_witness :
  fst (@execute sample_fs all_ok true true (fun _ => {| runtime_exits_at := None; returncode := 0;
         helpers_exit_at := []; child_stdout := []; child_stderr := []; started_at := 3;
         cleanup_ms := 1; popen_raises := true |}) None sample_env "/srv" "/home/u"
         {| code := sample_code; stdin := None; timeout_ms := 1000 |}) = HTTP500.
Proof.
  apply (execute_popen_failed all_ok _ true true None sample_env "/srv" "/home/u"
           {| code := sample_code; stdin := None; timeout_ms := 1000 |}
           "/usr/local/bin/wasmtime" "/opt/py/python.wasm" [] sample_code);
    [vm_compute; discriminate | reflexivity | reflexivity | reflexivity].
Defined.

Lemma execute_response_encodable_witness :
  match fst (@execute sample_fs all_ok true true (fun _ => quick) None sample_env "/srv" "/home/u"
               {| code := sample_code; stdin := None; timeout_ms := 1000 |}) with
  | HTTP200 r => (exists bo, utf8_encode (resp_stdout r) = Some bo) /\ (exists be, utf8_encode (resp_stderr r) = Some be)
  | _ => False
  end.
Proof.
  destruct (@execute sample_fs all_ok true true (fun _ => quick) None sample_env "/srv" "/home/u"
              {| code := sample_code; stdin := None; timeout_ms := 1000 |}) as [[r| | |] c'] eqn:E;
    try (vm_compute in E; discriminate).
  refine (execute_response_encodable all_ok (fun _ => quick) true true None sample_env "/srv" "/home/u" _ r c' _ E).
  intros _. split; repeat constructor; unfold is_byte; lia.
Defined.

End Api.
