(* ===== verification/App.v ===== *)
(** The application of [src/app/main.py]: [create_app]'s route table
    (the [/healthz] route, the API router mounted under [/v1], and the
    documentation routes FastAPI adds from the URLs it is given), the
    dispatch of a request to its endpoint as Starlette's router does it
    (first full match, otherwise 405 for a path known under another
    method, otherwise 404), and the server as the sequence of requests
    it handles, threading [get_settings]'s cache from one request to the
    next.  The refinement theorem relates this server to one whose
    settings are fixed: they are those of the environment at the first
    valid [POST /v1/execute]. *)

From stdpp Require Import base gmap strings list.
From Stdlib Require Import ZArith String Bool List Lia.
From S2P Require Import Prelude Fs Assembler Supervisor Executor Api.
Import ListNotations.
Open Scope string_scope.

Module App.
Import Fs Assembler Supervisor Executor Api.

(** ** create_app *)

Inductive endpoint := Healthz | Execute | OpenAPI | SwaggerUI | SwaggerRedirect | ReDoc.

Record route := { r_method : string; r_path : string; r_endpoint : endpoint }.

Record FastAPI := {
  title : string; version : string;
  docs_url : string; redoc_url : string; openapi_url : string;
  app_routes : list route }.

Definition GET (p : string) (e : endpoint) : route := {| r_method := "GET"; r_path := p; r_endpoint := e |}.

(** routes.py: [router = APIRouter()] and [@router.post("/execute")] *)
Definition api_router : list route :=
  [{| r_method := "POST"; r_path := "/execute"; r_endpoint := Execute |}].

(** [app.include_router(router, prefix=prefix)] *)
Definition include_router (prefix : string) (rs : list route) : list route :=
  map (fun r => {| r_method := r_method r; r_path := prefix ++ r_path r; r_endpoint := r_endpoint r |}) rs.

(** The routes [FastAPI.setup] adds for the given URLs, in its order
    (the OAuth2 redirect of the Swagger UI at its default URL). *)
Definition doc_routes (openapi docs redoc : string) : list route :=
  [GET openapi OpenAPI; GET docs SwaggerUI; GET "/docs/oauth2-redirect" SwaggerRedirect; GET redoc ReDoc].

(** [create_app()] *)
Definition create_app : FastAPI :=
  let openapi := "/openapi.json" in
  let docs := "/docs" in
  let redoc := "/redoc" in
  {| title := "Code Interpreter API"; version := "0.1.0";
     docs_url := docs; redoc_url := redoc; openapi_url := openapi;
     app_routes := doc_routes openapi docs redoc ++ [GET "/healthz" Healthz]
                   ++ include_router "/v1" api_router |}.

(** ** Dispatch *)

Inductive dispatch_result := Found (e : endpoint) | MethodNotAllowed | NotFound.

(** Starlette's [Router.__call__]: the first route matching path and
    method wins; a route matching the path only is remembered. *)
Fixpoint dispatch_loop (m p : string) (rs : list route) (partial : bool) : dispatch_result :=
  match rs with
  | [] => if partial then MethodNotAllowed else NotFound
  | r :: rs' =>
      if String.eqb (r_path r) p then
        if String.eqb (r_method r) m then Found (r_endpoint r) else dispatch_loop m p rs' true
      else dispatch_loop m p rs' partial
  end.

Definition dispatch (app : FastAPI) (m p : string) : dispatch_result :=
  dispatch_loop m p (app_routes app) false.

Record http_request := { method : string; path : string; body : raw_request }.

Inductive reply :=
  | ReplyJSON (fields : list (string * string))   (* [healthz]'s dictionary *)
  | ReplyExecute (r : http_response)
  | ReplyDocs (e : endpoint)
  | Reply404
  | Reply405.

Section Server.
Context `{FileSystem}.
Variable setrlimit_ok : rlimit -> Z -> bool.
Variables posix resource_available : bool.
Variable run : invocation -> child.

(** One request of the running application, with the settings cache. *)
Definition handle (app : FastAPI) (cache : option Settings) (environ : gmap string string)
    (cwd home : string) (rq : http_request) : reply * option Settings :=
  match dispatch app (method rq) (path rq) with
  | Found Execute =>
      let '(r, cache') := post_execute setrlimit_ok posix resource_available run cache environ cwd home (body rq) in
      (ReplyExecute r, cache')
  | Found Healthz => (ReplyJSON healthz, cache)
  | Found e => (ReplyDocs e, cache)
  | MethodNotAllowed => (Reply405, cache)
  | NotFound => (Reply404, cache)
  end.

(** The process handling its requests one after the other, each with
    the process environment at the time it arrives. *)
Fixpoint serve (app : FastAPI) (cache : option Settings) (cwd home : string)
    (trace : list (gmap string string * http_request)) : list reply * option Settings :=
  match trace with
  | [] => ([], cache)
  | (environ, rq) :: trace' =>
      let '(rp, cache') := handle app cache environ cwd home rq in
      let '(rps, cache'') := serve app cache' cwd home trace' in
      (rp :: rps, cache'')
  end.

(** ** The specification: a server with fixed settings *)

Definition handle_fixed (app : FastAPI) (settings : Settings) (environ : gmap string string)
    (cwd home : string) (rq : http_request) : reply :=
  match dispatch app (method rq) (path rq) with
  | Found Execute =>
      match validate_request (body rq) with
      | inl _ => ReplyExecute (HTTP422 "validation error")
      | inr req => ReplyExecute (execute_with setrlimit_ok posix resource_available run settings environ cwd home req)
      end
  | Found Healthz => ReplyJSON healthz
  | Found e => ReplyDocs e
  | MethodNotAllowed => Reply405
  | NotFound => Reply404
  end.

End Server.

(** Whether a request reaches [get_settings()]: a valid body posted to
    the execute endpoint. *)
Definition reads_settings (app : FastAPI) (rq : http_request) : bool :=
  match dispatch app (method rq) (path rq) with
  | Found Execute => match validate_request (body rq) with inl _ => false | inr _ => true end
  | _ => false
  end.

(** The environment [get_settings] is first called in, if any. *)
Fixpoint settings_env (app : FastAPI) (trace : list (gmap string string * http_request))
    : option (gmap string string) :=
  match trace with
  | [] => None
  | (environ, rq) :: trace' => if reads_settings app rq then Some environ else settings_env app trace'
  end.

(** ** Lemmas *)

Section Lemmas.
Context `{FileSystem}.
Variable setrlimit_ok : rlimit -> Z -> bool.
Variables posix resource_available : bool.
Variable run : invocation -> child.

(** One request: the reply is the fixed server's for the settings
    [get_settings] returns, and the cache changes only when
    [get_settings] is called. *)
Lemma handle_fixed_step (app : FastAPI) (cache : option Settings) (environ : gmap string string)
    (cwd home : string) (rq : http_request) :
  handle setrlimit_ok posix resource_available run app cache environ cwd home rq =
    (handle_fixed setrlimit_ok posix resource_available run app (fst (get_settings cache environ)) environ cwd home rq,
     if reads_settings app rq then snd (get_settings cache environ) else cache).
Proof.
  unfold handle, handle_fixed, reads_settings, post_execute, execute.
  destruct (dispatch app _ _) as [[]| |]; try reflexivity.
  destruct (validate_request _); [reflexivity|]. destruct (get_settings cache environ); reflexivity.
Qed.

(** A request that does not read the settings is answered the same
    under any settings. *)
Lemma handle_fixed_irrelevant (app : FastAPI) (s1 s2 : Settings) (environ : gmap string string)
    (cwd home : string) (rq : http_request) :
  reads_settings app rq = false ->
  handle_fixed setrlimit_ok posix resource_available run app s1 environ cwd home rq =
  handle_fixed setrlimit_ok posix resource_available run app s2 environ cwd home rq.
Proof.
  unfold reads_settings, handle_fixed.
  destruct (dispatch app _ _) as [[]| |]; try reflexivity. destruct (validate_request _); easy.
Qed.

Lemma serve_cons (app : FastAPI) (cache : option Settings) (cwd home : string)
    (environ : gmap string string) (rq : http_request) (trace : list (gmap string string * http_request)) :
  serve setrlimit_ok posix resource_available run app cache cwd home ((environ, rq) :: trace) =
  let rc := handle setrlimit_ok posix resource_available run app cache environ cwd home rq in
  let rs := serve setrlimit_ok posix resource_available run app (snd rc) cwd home trace in
  (fst rc :: fst rs, snd rs).
Proof. simpl. destruct (handle _ _ _ _ _ _ _ _ _ _) as [rp c1]. simpl. destruct (serve _ _ _ _ _ _ _ _ _); reflexivity. Qed.

(** The simulation: a cache holding [s], or an empty cache whose first
    fill will be [s], answers every trace as the fixed server of [s]. *)
Lemma serve_fixed_sim (app : FastAPI) (cwd home : string) (s : Settings)
    (trace : list (gmap string string * http_request)) (cache : option Settings) :
  match cache with
  | Some s' => s' = s
  | None => forall e, settings_env app trace = Some e -> from_env e = s
  end ->
  fst (serve setrlimit_ok posix resource_available run app cache cwd home trace) =
  map (fun '(environ, rq) => handle_fixed setrlimit_ok posix resource_available run app s environ cwd home rq) trace.
Proof.
  revert cache. induction trace as [|[environ rq] trace IH]; intros cache Hc; [reflexivity|].
  rewrite serve_cons, handle_fixed_step. cbn [fst snd settings_env map] in *.
  destruct (reads_settings app rq) eqn:Er.
  - assert (Hs : fst (get_settings cache environ) = s) by (destruct cache; simpl; auto).
    rewrite Hs. f_equal. apply IH. rewrite get_settings_cache. exact Hs.
  - f_equal; [|exact (IH cache Hc)].
    destruct cache as [s'|]; [subst; reflexivity | apply handle_fixed_irrelevant, Er].
Qed.

End Lemmas.

(** ** Theorems *)

Example dispatch_cases :
  dispatch create_app "POST" "/v1/execute" = Found Execute /\
  dispatch create_app "GET" "/v1/execute" = MethodNotAllowed /\
  dispatch create_app "POST" "/execute" = NotFound /\
  dispatch create_app "GET" "/healthz" = Found Healthz.
Proof. vm_compute. auto. Qed.

(** [POST /v1/execute] is the only method and path of the
    application that reaches the execute endpoint, so the only way to
    run code. *)
Theorem dispatch_execute_iff (m p : string) :
  dispatch create_app m p = Found Execute <-> m = "POST" /\ p = "/v1/execute".
Proof.
  unfold dispatch. cbn [create_app app_routes doc_routes include_router api_router map app].
  cbn [dispatch_loop r_path r_method r_endpoint GET].
  split.
  - repeat (case_match; try discriminate); intros; simplify_eq;
      repeat match goal with H : String.eqb _ _ = true |- _ => apply String.eqb_eq in H end; auto.
  - intros [-> ->]. vm_compute. reflexivity.
Qed.

Section ServerTheorems.
Context `{FileSystem}.
Variable setrlimit_ok : rlimit -> Z -> bool.
Variables posix resource_available : bool.
Variable run : invocation -> child.

(** C22: The application refines a server with fixed settings: over any
    sequence of requests, each with the process environment of its
    arrival, the replies of the application started with an empty
    [get_settings] cache are those of the server whose settings are
    read from the environment of the first valid [POST /v1/execute]
    (any settings when there is none: no reply depends on them). *)
Theorem serve_refines_fixed (app : FastAPI) (cwd home : string)
    (trace : list (gmap string string * http_request)) :
  fst (serve setrlimit_ok posix resource_available run app None cwd home trace) =
  map (fun '(environ, rq) =>
         handle_fixed setrlimit_ok posix resource_available run app
           (match settings_env app trace with Some e => from_env e | None => default_settings end)
           environ cwd home rq) trace.
Proof. apply serve_fixed_sim. intros e ->. reflexivity. Qed.

(** The cache is filled by the first valid [POST /v1/execute] and
    never changes afterwards: after any sequence of requests it holds
    the settings of that request's environment, or nothing. *)
Theorem serve_cache (app : FastAPI) (cache : option Settings) (cwd home : string)
    (trace : list (gmap string string * http_request)) :
  snd (serve setrlimit_ok posix resource_available run app cache cwd home trace) =
  match cache with
  | Some s => Some s
  | None => option_map from_env (settings_env app trace)
  end.
Proof.
  revert cache. induction trace as [|[environ rq] trace IH]; intros cache; [destruct cache; reflexivity|].
  rewrite serve_cons, handle_fixed_step. cbn [snd settings_env]. rewrite IH.
  destruct (reads_settings app rq), cache; reflexivity.
Qed.

End ServerTheorems.

End App.
