(* ===== verification/Threads.v ===== *)
(** Requests handled concurrently.  FastAPI runs a [def] endpoint such
    as [routes.execute] in a worker thread, so several requests can be
    inside [settings = get_settings()] (routes.py, line 20) at once.
    [@lru_cache(maxsize=1)] (config.py, lines 35-37) looks the cache up,
    calls [Settings.from_env()] on a miss without holding a lock, and
    stores the result only if no other thread stored one meanwhile; the
    calling thread uses its own result either way.  Each thread's call
    is split into these atomic steps ([thread_step]); a schedule is an
    explicit list of steps of the threads and of changes of the
    environment ([run_schedule]).  Theorems: once filled, the cache
    never changes under any interleaving; with an environment that does
    not change, every request uses the settings of that environment
    whatever the interleaving, and from its return on the cache holds
    them whatever steps and changes of the environment follow; a change of the environment between two
    first requests makes them run with different settings. *)

From stdpp Require Import base gmap strings list.
From Stdlib Require Import ZArith String Bool List Lia.
From S2P Require Import Prelude Api.
Import ListNotations.
Open Scope string_scope.

Module Threads.
Import Api.

(** Where a thread is in [get_settings()]. *)
Inductive tphase :=
  | TStart                 (* before the cache lookup *)
  | TCompute               (* missed: about to read [os.environ] *)
  | TStore (s : Settings)  (* [from_env()] returned [s] *)
  | TUse (s : Settings).   (* [get_settings()] returned [s] to [execute] *)

Record cstate := { c_cache : option Settings; c_environ : gmap string string; c_threads : list tphase }.

Inductive action := Run (i : nat) | SetEnv (environ : gmap string string).

(** One atomic step of a thread in the cached call; [None] once it has
    returned. *)
Definition thread_step (cache : option Settings) (environ : gmap string string) (ph : tphase)
    : option (option Settings * tphase) :=
  match ph with
  | TStart => match cache with Some s => Some (cache, TUse s) | None => Some (cache, TCompute) end
  | TCompute => Some (cache, TStore (from_env environ))
  | TStore s => Some (match cache with Some c => Some c | None => Some s end, TUse s)
  | TUse _ => None
  end.

(** One step of the process: thread [i] moves, or the environment
    changes; [None] when the step is not possible. *)
Definition cstep_fn (a : action) (st : cstate) : option cstate :=
  match a with
  | SetEnv environ => Some {| c_cache := c_cache st; c_environ := environ; c_threads := c_threads st |}
  | Run i =>
      match c_threads st !! i with
      | Some ph =>
          match thread_step (c_cache st) (c_environ st) ph with
          | Some (cache', ph') =>
              Some {| c_cache := cache'; c_environ := c_environ st; c_threads := <[i := ph']> (c_threads st) |}
          | None => None
          end
      | None => None
      end
  end.

Fixpoint run_schedule (sched : list action) (st : cstate) : option cstate :=
  match sched with
  | [] => Some st
  | a :: sched' => match cstep_fn a st with Some st' => run_schedule sched' st' | None => None end
  end.

(** [n] requests arriving at a process whose cache is still empty. *)
Definition cstate0 (environ : gmap string string) (n : nat) : cstate :=
  {| c_cache := None; c_environ := environ; c_threads := repeat TStart n |}.

Definition is_run (a : action) : bool := match a with Run _ => true | SetEnv _ => false end.

(** What a fixed environment [e] guarantees of a state: every settings
    value computed or returned is [from_env e], the cache holds nothing
    or that value, and it is filled as soon as one call has returned. *)
Definition uniform (e : gmap string string) (st : cstate) : Prop :=
  c_environ st = e /\ (c_cache st = None \/ c_cache st = Some (from_env e)) /\
  Forall (fun ph => match ph with TStore s | TUse s => s = from_env e | _ => True end) (c_threads st) /\
  (forall i s, c_threads st !! i = Some (TUse s) -> c_cache st <> None).

(** Two first requests, the environment changing between their reads. *)
Definition racing_schedule (e2 : gmap string string) : list action :=
  [Run 0; Run 1; Run 0; SetEnv e2; Run 1; Run 0; Run 1].

(** ** Lemmas *)

Lemma thread_step_cache (cache : option Settings) (environ : gmap string string) (ph ph' : tphase)
    (cache' : option Settings) (s : Settings) :
  thread_step cache environ ph = Some (cache', ph') -> cache = Some s -> cache' = Some s.
Proof. intros H ->. destruct ph; cbn in H; congruence. Qed.

Lemma cstep_cache (a : action) (st st' : cstate) (s : Settings) :
  cstep_fn a st = Some st' -> c_cache st = Some s -> c_cache st' = Some s.
Proof.
  destruct a as [i|environ]; cbn; [|intros [= <-]; auto].
  destruct (c_threads st !! i) as [ph|]; [|discriminate].
  destruct (thread_step _ _ ph) as [[c' ph']|] eqn:E; [|discriminate]. intros [= <-] Hc. cbn.
  exact (thread_step_cache _ _ _ _ _ _ E Hc).
Qed.

(** A call returns only once the cache is filled. *)
Lemma thread_step_use (cache cache' : option Settings) (environ : gmap string string) (ph : tphase) (s : Settings) :
  thread_step cache environ ph = Some (cache', TUse s) -> cache' <> None.
Proof. destruct ph; cbn; repeat case_match; congruence. Qed.

(** A thread step keeps a fixed environment's uniformity. *)
Lemma cstep_uniform (e : gmap string string) (a : action) (st st' : cstate) :
  is_run a = true -> uniform e st -> cstep_fn a st = Some st' -> uniform e st'.
Proof.
  destruct a as [i|environ]; [|discriminate]. intros _ (He & Hc & Hall & Huse). cbn.
  destruct (c_threads st !! i) as [ph|] eqn:Ei; [|discriminate].
  destruct (thread_step (c_cache st) (c_environ st) ph) as [[c' ph']|] eqn:Es; [|discriminate]. intros [= <-].
  assert (Hph := Forall_lookup_1 _ _ _ _ Hall Ei). cbn in Hph.
  assert (Hnew : (c' = None \/ c' = Some (from_env e)) /\
                 match ph' with TStore s | TUse s => s = from_env e | _ => True end).
  { destruct ph as [| |s|s]; cbn in Es.
    - destruct (c_cache st) as [c|] eqn:Ec; injection Es as <- <-; [|split; [now left | exact I]].
      destruct Hc as [Hc|Hc]; [discriminate | injection Hc as ->; auto].
    - injection Es as <- <-. split; [exact Hc | cbn; now rewrite He].
    - injection Es as <- <-. split; [destruct (c_cache st); [exact Hc | right; now subst] | exact Hph].
    - discriminate. }
  destruct Hnew as [Hc' Hph']. split; [exact He|]. split; [exact Hc'|]. split; [now apply Forall_insert|].
  intros j s Hj. cbn in Hj |- *. apply list_lookup_insert_Some in Hj as [(-> & -> & _)|(_ & Hj)].
  - exact (thread_step_use _ _ _ _ _ Es).
  - destruct (c_cache st) as [c|] eqn:Ec; [|exfalso; exact (Huse j s Hj eq_refl)].
    now rewrite (thread_step_cache _ _ _ _ _ c Es eq_refl).
Qed.

Lemma run_uniform (e : gmap string string) (sched : list action) (st st' : cstate) :
  Forall (fun a => is_run a = true) sched -> uniform e st -> run_schedule sched st = Some st' -> uniform e st'.
Proof.
  intros Hs. revert st. induction Hs as [|a sched Ha _ IH]; intros st Hu; cbn; [now intros [= <-]|].
  destruct (cstep_fn a st) as [st1|] eqn:E; [|discriminate]. apply IH. exact (cstep_uniform e a st st1 Ha Hu E).
Qed.

Lemma uniform0 (e : gmap string string) (n : nat) : uniform e (cstate0 e n).
Proof.
  split; [reflexivity|]. split; [now left|]. cbn. split.
  - apply Forall_forall. intros x Hx. apply repeat_spec in Hx. now subst.
  - intros i s Hi. apply list_elem_of_lookup_2, list_elem_of_In, repeat_spec in Hi. discriminate.
Qed.

(** ** Theorems *)

(** Once [get_settings]' cache holds settings, no interleaving of the
    threads or change of the environment replaces them. *)
Theorem cache_stable (sched : list action) (st st' : cstate) (s : Settings) :
  run_schedule sched st = Some st' -> c_cache st = Some s -> c_cache st' = Some s.
Proof.
  revert st. induction sched as [|a sched IH]; intros st; cbn; [now intros [= <-]|].
  destruct (cstep_fn a st) as [st1|] eqn:E; [|discriminate]. intros Hr Hc. exact (IH st1 Hr (cstep_cache a st st1 s E Hc)).
Qed.

(** C10: With an environment that does not change, under every
    interleaving of the [get_settings()] calls of [n] concurrent
    requests, a request that has got its settings got those of that
    environment, and by then the cache holds them: no later step of any
    thread, and no later change of the environment, replaces them. *)
Theorem concurrent_fixed_env (e : gmap string string) (n : nat) (sched : list action) (st' : cstate) :
  Forall (fun a => is_run a = true) sched -> run_schedule sched (cstate0 e n) = Some st' ->
  forall i s, c_threads st' !! i = Some (TUse s) ->
  s = from_env e /\
  forall sched2 st'', run_schedule sched2 st' = Some st'' -> c_cache st'' = Some (from_env e).
Proof.
  intros Hs Hr i s Hi. destruct (run_uniform e sched _ st' Hs (uniform0 e n) Hr) as (_ & Hc & Hall & Huse).
  split; [exact (Forall_lookup_1 _ _ _ _ Hall Hi)|].
  destruct Hc as [Hc|Hc]; [exfalso; exact (Huse i s Hi Hc)|].
  intros sched2 st'' H2. exact (cache_stable sched2 st' st'' _ H2 Hc).
Qed.

(** Two first requests whose reads of the environment straddle a
    change run with different settings; the cache keeps the first
    stored. *)
Example racing_first_requests :
  run_schedule (racing_schedule (<["MAX_EXEC_TIMEOUT_MS" := "1000"]> ∅)) (cstate0 ∅ 2) =
    Some {| c_cache := Some (from_env ∅); c_environ := <["MAX_EXEC_TIMEOUT_MS" := "1000"]> ∅;
            c_threads := [TUse (from_env ∅); TUse (from_env (<["MAX_EXEC_TIMEOUT_MS" := "1000"]> ∅))] |} /\
  max_exec_timeout_ms (from_env ∅) = 5000%Z /\
  max_exec_timeout_ms (from_env (<["MAX_EXEC_TIMEOUT_MS" := "1000"]> ∅)) = 1000%Z.
Proof. split; [|split]; vm_compute; reflexivity. Qed.

Lemma concurrent_fixed_env_witness :
  Forall (fun a => is_run a = true) [Run 0; Run 1; Run 1; Run 0; Run 0] /\
  match run_schedule [Run 0; Run 1; Run 1; Run 0; Run 0] (cstate0 ∅ 2) with
  | Some st' => c_threads st' !! 0 = Some (TUse (from_env ∅)) /\
      forall sched2 st'', run_schedule sched2 st' = Some st'' -> c_cache st'' = Some (from_env ∅)
  | None => False
  end.
Proof.
  assert (Hs : Forall (fun a => is_run a = true) [Run 0; Run 1; Run 1; Run 0; Run 0]) by repeat constructor.
  split; [exact Hs|].
  destruct (run_schedule [Run 0; Run 1; Run 1; Run 0; Run 0] (cstate0 ∅ 2)) as [st'|] eqn:E;
    [|vm_compute in E; discriminate].
  assert (Hi : c_threads st' !! 0 = Some (TUse (from_env ∅))) by (vm_compute in E; injection E as <-; reflexivity).
  split; [exact Hi | exact (proj2 (concurrent_fixed_env ∅ 2 _ st' Hs E 0 _ Hi))].
Defined.

End Threads.
