(* ===== verification/Tests.v ===== *)
(** The integration tests of [src/tests]: the helpers that decide
    whether a test runs ([_runtime_available] and
    [_require_wasm_environment] of [test_hello_world.py]) over the same
    [Fs.FileSystem] as the resolver, and both tests
    ([test_execute_returns_expected_payload] and, in
    [test_data_stack.py], [test_numpy_pandas_matplotlib_stack]) as a
    request to [App.create_app] behind that gate followed by their
    assertions on the reply ([client_test]).  The guest's behaviour is
    an input; [json.loads] is a section variable returning a [json]
    value (a [float] as its exact rational); [str.strip()], the
    subscripts, [==], [pytest.approx] and [> 0] are written out.  The
    theorems relate the tests' gate to the executor's own runtime
    lookup, and state when each test passes. *)

From stdpp Require Import base gmap strings list.
From Stdlib Require Import ZArith QArith Qabs String Ascii Bool List Lia.
From S2P Require Import Prelude Utf8 Sanitizer Fs Resolver Assembler Supervisor Executor Api App.
Import ListNotations.
Open Scope string_scope.

Module Tests.
Import Utf8 Sanitizer Fs Resolver Assembler Supervisor Executor Api App.

(** ** test_hello_world.py: the gate *)

Section Gate.
Context `{FileSystem}.

(** [if found:] on the [str | None] that [which] returns. *)
Definition truthy (o : option string) : bool :=
  match o with Some s => negb (String.eqb s "") | None => false end.

(** [filter(None, [runtime, "wasmtime"])] *)
Definition names_to_try (runtime : option string) : list string :=
  filter (fun s => negb (String.eqb s ""))
         (match runtime with Some r => [r] | None => [] end ++ ["wasmtime"]).

(** [for name in ...: found = which(name); if found: return True] *)
Fixpoint any_found (environ : gmap string string) (names : list string) : bool :=
  match names with
  | [] => false
  | n :: ns => if truthy (which environ n) then true else any_found environ ns
  end.

(** The two fallbacks under [Path.home()]. *)
Definition test_fallbacks (home : string) : list string :=
  [path_join (path_join (path_join home ".wasmtime") "bin") "wasmtime";
   path_join (path_join (path_join home ".cargo") "bin") "wasmtime"].

(** [for fallback in (...): if fallback.is_file() and os.access(fallback, os.X_OK): return True] *)
Fixpoint any_fallback (paths : list string) : bool :=
  match paths with
  | [] => false
  | p :: ps => if is_file p && access_x p then true else any_fallback ps
  end.

(** [_runtime_available()] *)
Definition _runtime_available (environ : gmap string string) (cwd home : string) : bool :=
  let runtime := environ !! "PYTHON_WASM_RUNTIME" in
  let search := any_found environ (names_to_try runtime) || any_fallback (test_fallbacks home) in
  match runtime with
  | Some r =>
      if negb (String.eqb r "") && (isabs r || str_has_char "/"%char r) then
        let candidate := abspath cwd r in
        is_file candidate && access_x candidate
      else search
  | None => search
  end.

Inductive gate := Skip (reason : string) | Proceed.

(** [_require_wasm_environment()]: [pytest.skip] raises, so a skip
    ends the test. *)
Definition _require_wasm_environment (environ : gmap string string) (cwd home : string) : gate :=
  match environ !! "PYTHON_WASM_PATH" with
  | Some w =>
      if String.eqb w "" || negb (exists_path w) then
        Skip "Skipping WASM integration test: PYTHON_WASM_PATH not configured"
      else if _runtime_available environ cwd home then Proceed
      else Skip "Skipping WASM integration test: WASM runtime binary not available"
  | None => Skip "Skipping WASM integration test: PYTHON_WASM_PATH not configured"
  end.

End Gate.

(** ** test_execute_returns_expected_payload *)

(** [client.post("/v1/execute", json={...})] *)
Definition hello_request : http_request :=
  {| method := "POST"; path := "/v1/execute";
     body := {| rq_code := Some ⟪"print('hello')"⟫; rq_stdin := None; rq_timeout_ms := Some 1000%Z |} |}.

(** ["hello\n"] *)
Definition hello_stdout : list Z := ⟪"hello"⟫ ++ [10%Z].

(** The assertions on [response] and [response.json()]. *)
Definition hello_assertions (rp : reply) : bool :=
  match rp with
  | ReplyExecute (HTTP200 r) =>
      bool_decide (resp_stdout r = hello_stdout) && bool_decide (resp_stderr r = [])
      && bool_decide (resp_exit_code r = Some 0%Z) && negb (resp_timed_out r)
      && (0 <=? resp_duration_ms r)%Z
  | _ => false
  end.

Inductive test_outcome := Skipped (reason : string) | Passed | Failed | Hangs.

Section HelloTest.
Context `{FileSystem}.
Variable setrlimit_ok : rlimit -> Z -> bool.
Variables posix resource_available : bool.
Variable run : invocation -> child.

(** A test of the module: the gate, then [TestClient(create_app())]
    posts [rq] in a process whose [get_settings] cache is [cache] (a
    fresh application, the module's cache), then the assertions; a
    failed assertion or an exception fails the test. *)
Definition client_test (rq : http_request) (assertions : reply -> bool) (cache : option Settings)
    (environ : gmap string string) (cwd home : string) : test_outcome :=
  match _require_wasm_environment environ cwd home with
  | Skip reason => Skipped reason
  | Proceed =>
      match fst (handle setrlimit_ok posix resource_available run create_app cache environ cwd home rq) with
      | ReplyExecute NoResponse => Hangs
      | rp => if assertions rp then Passed else Failed
      end
  end.

Definition test_execute_returns_expected_payload : option Settings -> gmap string string -> string -> string -> test_outcome :=
  client_test hello_request hello_assertions.

End HelloTest.

(** ** test_data_stack.py *)

(** The program [test_numpy_pandas_matplotlib_stack] submits. *)
Definition stack_code : string := "
import io
import json

import matplotlib
matplotlib.use('Agg')
import matplotlib.pyplot as plt
import numpy as np
import pandas as pd

data = np.arange(6, dtype=np.float64).reshape(3, 2)
df = pd.DataFrame(data, columns=['x', 'y'])

summary = {
    'shape': list(df.shape),
    'x_mean': float(df['x'].mean()),
    'y_total': float(df['y'].sum()),
}

fig, ax = plt.subplots()
ax.plot(df['x'], df['y'])
buf = io.BytesIO()
fig.savefig(buf, format='png')
plt.close(fig)

print(json.dumps({'summary': summary, 'png_bytes': len(buf.getvalue())}))
".

(** [client.post("/v1/execute", json={"code": code, "stdin": None, "timeout_ms": 2000})] *)
Definition stack_request : http_request :=
  {| method := "POST"; path := "/v1/execute";
     body := {| rq_code := Some ⟪stack_code⟫; rq_stdin := None; rq_timeout_ms := Some 2000%Z |} |}.

(** A value [json.loads] returns; a [float] is its exact rational. *)
#[warnings="-register-all"]
Inductive json :=
  | JNull | JBool (b : bool) | JInt (n : Z) | JFloat (x : Q) | JStr (s : list Z)
  | JList (xs : list json) | JDict (kvs : list (string * json)).

(** [v[k]]: the last binding of [k] in the object wins; [None] is the
    [KeyError] or the [TypeError] of a subscript on a non-dict. *)
Definition jget (k : string) (v : json) : option json :=
  match v with
  | JDict kvs => fold_left (fun acc kv => if String.eqb k (fst kv) then Some (snd kv) else acc) kvs None
  | _ => None
  end.

(** The number an [int], a [float] or a [bool] is in a comparison. *)
Definition jnumber (v : json) : option Q :=
  match v with
  | JInt n => Some (inject_Z n)
  | JFloat x => Some x
  | JBool b => Some (if b then 1 else 0)%Q
  | _ => None
  end.

(** [v == n] for an [int] [n]: [False] on a non-number. *)
Definition jeq_int (v : json) (n : Z) : bool :=
  match jnumber v with Some x => Qeq_bool x (inject_Z n) | None => false end.

(** [v == [n1, n2, ...]] *)
Definition jeq_int_list (v : json) (ns : list Z) : bool :=
  match v with
  | JList xs => (length xs =? length ns)%nat && forallb (fun xn => jeq_int (fst xn) (snd xn)) (combine xs ns)
  | _ => false
  end.

(** [v == pytest.approx(expected, rel=rel)]: the difference is within
    [max(rel * abs(expected), 1e-12)]; a non-number is not equal. *)
Definition approx_eq (v : json) (expected rel : Q) : bool :=
  match jnumber v with
  | Some x =>
      let tol := (rel * Qabs expected)%Q in
      let tol := if Qle_bool tol (1 # 1000000000000) then (1 # 1000000000000)%Q else tol in
      Qle_bool (Qabs (x - expected)) tol
  | None => false
  end.

(** [v > 0]; a non-number raises [TypeError]. *)
Definition jgt0 (v : json) : bool :=
  match jnumber v with Some x => negb (Qle_bool x 0) | None => false end.

(** [str.isspace] on one code point. *)
Definition py_isspace (c : Z) : bool :=
  ((9 <=? c) && (c <=? 13)) || ((28 <=? c) && (c <=? 32)) || (c =? 0x85) || (c =? 0xA0) ||
  (c =? 0x1680) || ((0x2000 <=? c) && (c <=? 0x200A)) || (c =? 0x2028) || (c =? 0x2029) ||
  (c =? 0x202F) || (c =? 0x205F) || (c =? 0x3000).

Fixpoint lstrip_ws (s : list Z) : list Z :=
  match s with
  | c :: s' => if py_isspace c then lstrip_ws s' else s
  | [] => []
  end.

(** [s.strip()] *)
Definition py_strip (s : list Z) : list Z := rev (lstrip_ws (rev (lstrip_ws s))).

(** The assertions on [result = json.loads(stdout)]. *)
Definition stack_result_ok (result : json) : bool :=
  let rel := (1 # 1000000000)%Q in
  match jget "summary" result with
  | Some summary =>
      match jget "shape" summary, jget "x_mean" summary, jget "y_total" summary, jget "png_bytes" result with
      | Some shape, Some x_mean, Some y_total, Some png_bytes =>
          jeq_int_list shape [3; 2]%Z && approx_eq x_mean 2 rel && approx_eq y_total 9 rel && jgt0 png_bytes
      | _, _, _, _ => false
      end
  | None => false
  end.

Section StackTest.
Context `{FileSystem}.
Variable setrlimit_ok : rlimit -> Z -> bool.
Variables posix resource_available : bool.
Variable run : invocation -> child.
(** [json.loads] on a [str]; [None] is its [JSONDecodeError]. *)
Variable json_loads : list Z -> option json.

(** The assertions on [response] and [payload = response.json()]. *)
Definition stack_assertions (rp : reply) : bool :=
  match rp with
  | ReplyExecute (HTTP200 r) =>
      bool_decide (resp_stderr r = []) && bool_decide (resp_exit_code r = Some 0%Z) && negb (resp_timed_out r) &&
      match json_loads (py_strip (resp_stdout r)) with
      | Some result => stack_result_ok result
      | None => false
      end
  | _ => false
  end.

Definition test_numpy_pandas_matplotlib_stack : option Settings -> gmap string string -> string -> string -> test_outcome :=
  client_test setrlimit_ok posix resource_available run stack_request stack_assertions.

End StackTest.

(** A runtime named by a path that does not exist, with [wasmtime] on
    [PATH]. *)
Definition bad_runtime_env : gmap string string := <["PYTHON_WASM_RUNTIME" := "/missing/wasmtime"]> sample_env.

(** A guest that prints [hello] and exits with status 0 after 40 ms. *)
Definition hello_child : child :=
  {| runtime_exits_at := Some 40%Z; returncode := 0; helpers_exit_at := [];
     child_stdout := hello_stdout; child_stderr := []; started_at := 6%Z; cleanup_ms := 2%Z;
     popen_raises := false |}.

(** A guest that prints the data-stack result as [json.dumps] writes
    it and exits with status 0 after 900 ms, and a [json.loads] that
    reads that line. *)
Definition stack_line_body : list Z :=
  map (fun c => if (c =? 39)%Z then 34%Z else c)
      ⟪"'summary': {'shape': [3, 2], 'x_mean': 2.0, 'y_total': 9.0}, 'png_bytes': 15211"⟫.

Definition stack_child : child :=
  {| runtime_exits_at := Some 900%Z; returncode := 0; helpers_exit_at := [];
     child_stdout := ((123%Z :: stack_line_body ++ [125%Z]) ++ [10%Z])%list; child_stderr := [];
     started_at := 6%Z; cleanup_ms := 2%Z; popen_raises := false |}.

Definition stack_result : json :=
  JDict [("summary", JDict [("shape", JList [JInt 3; JInt 2]); ("x_mean", JFloat 2); ("y_total", JFloat 9)]);
         ("png_bytes", JInt 15211)].

Definition sample_json_loads (s : list Z) : option json :=
  if bool_decide (s = (123%Z :: stack_line_body ++ [125%Z])%list) then Some stack_result else None.

(** ** Lemmas *)

Section GateLemmas.
Context `{FileSystem}.

Lemma _locate_runtime_wasmtime (environ : gmap string string) (cwd : string) :
  _locate_runtime environ cwd (Some "wasmtime") = which environ "wasmtime".
Proof. reflexivity. Qed.

Lemma any_found_sound (environ : gmap string string) (names : list string) :
  any_found environ names = true -> exists n f, In n names /\ which environ n = Some f.
Proof.
  induction names as [|n ns IH]; simpl; [discriminate|].
  destruct (which environ n) as [f|] eqn:E; simpl.
  - destruct (negb _); [intros _; exists n, f; auto|].
    intros Hs. destruct (IH Hs) as (n' & f' & Hi & Hw). eauto.
  - intros Hs. destruct (IH Hs) as (n' & f' & Hi & Hw). eauto.
Qed.

Lemma first_default_None (ps : list string) (p : string) :
  first_default ps = None -> In p ps -> is_file p && access_x p = false.
Proof.
  induction ps as [|q ps IH]; simpl; [tauto|].
  destruct (is_file q && access_x q) eqn:E; [discriminate|]. intros Hn [<-|Hi]; auto.
Qed.

Lemma any_fallback_sound (ps : list string) :
  any_fallback ps = true -> exists p, In p ps /\ is_file p && access_x p = true.
Proof.
  induction ps as [|q ps IH]; simpl; [discriminate|].
  destruct (is_file q && access_x q) eqn:E; [eauto|]. intros Hs. destruct (IH Hs) as (p & Hi & Hp). eauto.
Qed.

End GateLemmas.

Section HelloLemmas.
Context `{FileSystem}.
Variable setrlimit_ok : rlimit -> Z -> bool.
Variables posix resource_available : bool.
Variable run : invocation -> child.

(** The test's request reaches [execute] with its decoded body. *)
Lemma handle_hello_request (cache : option Settings) (environ : gmap string string) (cwd home : string) :
  handle setrlimit_ok posix resource_available run create_app cache environ cwd home hello_request =
  let '(r, c') := execute setrlimit_ok posix resource_available run cache environ cwd home
                    {| code := ⟪"print('hello')"⟫; stdin := None; timeout_ms := 1000 |} in
  (ReplyExecute r, c').
Proof. reflexivity. Qed.

Lemma hello_stdout_ascii : Forall (fun b => 0 <= b < 0x80)%Z hello_stdout.
Proof. apply (bool_decide_unpack _). vm_compute. reflexivity. Qed.

(** A stream within the cap comes back as it was when it is ASCII. *)
Lemma truncate_ascii_within (s : list Z) (cap : Z) :
  Forall (fun b => 0 <= b < 0x80)%Z s -> (Z.of_nat (length s) <= cap)%Z -> _truncate s cap = s.
Proof. intros Ha Hl. rewrite truncate_short by exact Hl. apply utf8_decode_ascii, Ha. Qed.

(** The data-stack test's request reaches [execute] with its decoded body. *)
Lemma handle_stack_request (cache : option Settings) (environ : gmap string string) (cwd home : string) :
  handle setrlimit_ok posix resource_available run create_app cache environ cwd home stack_request =
  let '(r, c') := execute setrlimit_ok posix resource_available run cache environ cwd home
                    {| code := ⟪stack_code⟫; stdin := None; timeout_ms := 2000 |} in
  (ReplyExecute r, c').
Proof. reflexivity. Qed.

End HelloLemmas.

(** [print(json.dumps(d))] of a dict, stripped, is the JSON text. *)
Lemma py_strip_print_dict (body : list Z) :
  py_strip ((123%Z :: body ++ [125%Z]) ++ [10%Z])%list = (123%Z :: body ++ [125%Z])%list.
Proof.
  unfold py_strip. replace ((123%Z :: body ++ [125%Z]) ++ [10%Z])%list with ((123%Z :: body) ++ [125%Z; 10%Z])%list
    by (simpl; now rewrite <- app_assoc).
  change (lstrip_ws ((123%Z :: body) ++ [125%Z; 10%Z])%list) with ((123%Z :: body) ++ [125%Z; 10%Z])%list.
  rewrite rev_app_distr. change (lstrip_ws (rev [125%Z; 10%Z] ++ rev (123%Z :: body))%list) with (125%Z :: rev (123%Z :: body))%list.
  replace (rev (125%Z :: rev (123%Z :: body))) with (rev (rev (123%Z :: body)) ++ [125%Z])%list by reflexivity.
  now rewrite rev_involutive.
Qed.

(** ** Theorems *)

Section GateTheorems.
Context `{FileSystem}.

(** C23: The tests' gate is sound for the executor's runtime lookup:
    whenever [_runtime_available()] says yes, [_resolve_wasm_runtime]'s
    lookup (the setting, [wasmtime] on [PATH], the well-known
    locations) finds a runtime. *)
Theorem _runtime_available_sound (environ : gmap string string) (cwd home : string) :
  _runtime_available environ cwd home = true -> exists p, find_runtime environ cwd home = Some p.
Proof.
  unfold find_runtime.
  destruct (_locate_runtime _ _ (environ !! _)) as [p|] eqn:E1; [eauto|].
  destruct (_locate_runtime _ _ (Some _)) as [p|] eqn:E2; [eauto|].
  destruct (first_default _) as [p|] eqn:E3; [eauto|].
  rewrite _locate_runtime_wasmtime in E2.
  assert (Hsearch : forall r, (r = None \/ exists e, r = Some e /\ (e = "" \/ which environ e = None)) ->
            any_found environ (names_to_try r) || any_fallback (test_fallbacks home) = false).
  { intros r Hr. apply orb_false_iff. split.
    - destruct (any_found _ _) eqn:Ea; [|reflexivity]. exfalso.
      apply any_found_sound in Ea as (n & f & Hi & Hw). unfold names_to_try in Hi.
      apply filter_In in Hi as [Hi Hne]. apply in_app_iff in Hi as [Hi|[<-|[]]]; [|congruence].
      destruct Hr as [->|(e & -> & [->|He])]; simpl in Hi; [tauto| |]; destruct Hi as [<-|[]]; [discriminate | congruence].
    - destruct (any_fallback _) eqn:Ea; [|reflexivity]. exfalso.
      apply any_fallback_sound in Ea as (p & Hi & Hp).
      rewrite (first_default_None _ p E3) in Hp; [discriminate|]. simpl in Hi |- *. tauto. }
  unfold _runtime_available. destruct (environ !! "PYTHON_WASM_RUNTIME") as [r|] eqn:Er.
  - unfold _locate_runtime in E1. destruct (String.eqb r "") eqn:Ee; cbn [negb andb].
    + rewrite Hsearch; [discriminate|]. right. exists r. split; [reflexivity|]. left. apply String.eqb_eq, Ee.
    + destruct (isabs r || str_has_char "/" r).
      { cbv zeta. destruct (is_file (abspath cwd r) && access_x (abspath cwd r)); [discriminate E1 | discriminate]. }
      rewrite Hsearch; [discriminate|]. right. eauto.
  - rewrite Hsearch; [discriminate|]. left. reflexivity.
Qed.

(** C38: The gate is not complete: when [PYTHON_WASM_PATH] names an
    existing file and [PYTHON_WASM_RUNTIME] a path that is not an
    executable file, the tests skip as if no runtime were installed,
    while the service's lookup falls back to [wasmtime] on [PATH] and
    uses it whenever [which] finds it. *)
Theorem _require_wasm_environment_skips_working (environ : gmap string string) (cwd home w r p : string) :
  environ !! "PYTHON_WASM_PATH" = Some w -> w <> "" -> exists_path w = true ->
  environ !! "PYTHON_WASM_RUNTIME" = Some r -> str_has_char "/"%char r = true ->
  is_file (abspath cwd r) && access_x (abspath cwd r) = false ->
  which environ "wasmtime" = Some p ->
  _require_wasm_environment environ cwd home =
    Skip "Skipping WASM integration test: WASM runtime binary not available" /\
  find_runtime environ cwd home = Some p.
Proof.
  intros Hw Hne Hex Hr Hs Hc Hp.
  assert (Hrne : String.eqb r "" = false) by (destruct r; [discriminate Hs | reflexivity]).
  split.
  - unfold _require_wasm_environment, _runtime_available. cbv zeta. rewrite Hw, Hr, Hex.
    apply String.eqb_neq in Hne. rewrite Hne, Hrne, Hs, orb_true_r. cbn [negb andb orb]. now rewrite Hc.
  - assert (E1 : _locate_runtime environ cwd (Some r) = None)
      by (unfold _locate_runtime; rewrite Hrne, Hs, orb_true_r; cbv zeta; now rewrite Hc).
    unfold find_runtime. now rewrite Hr, E1, _locate_runtime_wasmtime, Hp.
Qed.

(** Nor does the gate try [/usr/local/bin] or [/opt/homebrew/bin]: with
    [PYTHON_WASM_RUNTIME] unset, no [wasmtime] on [PATH] and none under
    the home directory, the tests skip while the service uses
    [/usr/local/bin/wasmtime] (or the Homebrew one before it). *)
Theorem _require_wasm_environment_skips_default (environ : gmap string string) (cwd home w : string) :
  environ !! "PYTHON_WASM_PATH" = Some w -> w <> "" -> exists_path w = true ->
  environ !! "PYTHON_WASM_RUNTIME" = None -> which environ "wasmtime" = None ->
  any_fallback (test_fallbacks home) = false ->
  is_file "/usr/local/bin/wasmtime" && access_x "/usr/local/bin/wasmtime" = true ->
  _require_wasm_environment environ cwd home =
    Skip "Skipping WASM integration test: WASM runtime binary not available" /\
  exists p, find_runtime environ cwd home = Some p.
Proof.
  intros Hw Hne Hex Hr Hwh Hf Hl. split.
  - unfold _require_wasm_environment, _runtime_available. cbv zeta. rewrite Hw, Hr, Hex.
    apply String.eqb_neq in Hne. rewrite Hne. cbn [negb orb].
    change (names_to_try None) with ["wasmtime"]. cbn [any_found]. now rewrite Hwh, Hf.
  - unfold find_runtime. rewrite Hr, _locate_runtime_wasmtime, Hwh. cbn [default_runtime_paths first_default].
    destruct (is_file "/opt/homebrew/bin/wasmtime" && access_x "/opt/homebrew/bin/wasmtime"); [eauto|]. rewrite Hl. eauto.
Qed.

End GateTheorems.

Lemma _require_wasm_environment_skips_working_witness :
  let fs := sample_fs in
  bad_runtime_env !! "PYTHON_WASM_PATH" = Some "/opt/py/python.wasm" /\
  bad_runtime_env !! "PYTHON_WASM_RUNTIME" = Some "/missing/wasmtime" /\
  @_require_wasm_environment fs bad_runtime_env "/srv" "/home/u" =
    Skip "Skipping WASM integration test: WASM runtime binary not available" /\
  @find_runtime fs bad_runtime_env "/srv" "/home/u" = Some "/usr/local/bin/wasmtime".
Proof.
  cbv zeta. split; [reflexivity|]. split; [reflexivity|].
  apply (@_require_wasm_environment_skips_working sample_fs bad_runtime_env "/srv" "/home/u"
           "/opt/py/python.wasm" "/missing/wasmtime" "/usr/local/bin/wasmtime");
    first [reflexivity | discriminate].
Defined.

Section HelloTheorems.
Context `{FileSystem}.
Variable setrlimit_ok : rlimit -> Z -> bool.
Variables posix resource_available : bool.
Variable run : invocation -> child.

(** C24: End to end through the application, the executor, the
    supervisor and the sanitizer, [test_execute_returns_expected_payload]
    passes once the gate lets it run, the runtime and module resolve,
    the settings allow a timeout of 1000 ms and a cap of 6 bytes, and
    the runtime starts, writes exactly [hello\n] and nothing to stderr,
    exits with status 0 and closes its pipes within the 1000 ms (and
    the clock runs forward around it). *)
Theorem test_execute_passes (cache : option Settings) (environ : gmap string string) (cwd home : string)
    (rt m : string) (args0 : list string) (t : Z) :
  _require_wasm_environment environ cwd home = Proceed ->
  _resolve_wasm_runtime environ cwd home = inr (rt, m, args0) ->
  (1000 <= max_exec_timeout_ms (fst (get_settings cache environ)))%Z ->
  (6 <= max_output_bytes (fst (get_settings cache environ)))%Z ->
  (forall inv, child_stdout (run inv) = hello_stdout /\ child_stderr (run inv) = [] /\
               returncode (run inv) = 0%Z /\ close_time (holders (run inv)) = Some t /\
               (0 <= started_at (run inv))%Z /\ (0 <= cleanup_ms (run inv))%Z /\
               popen_raises (run inv) = false) ->
  (0 <= t <= 1000)%Z ->
  test_execute_returns_expected_payload setrlimit_ok posix resource_available run cache environ cwd home = Passed.
Proof.
  intros Hg Hr Ht Hc Hrun Hd. unfold test_execute_returns_expected_payload, client_test. rewrite Hg, handle_hello_request.
  assert (Hrun' : forall inv, popen_raises (run inv) = false /\ close_time (holders (run inv)) = Some t)
    by (intros inv; destruct (Hrun inv) as (_ & _ & _ & ? & _ & _ & ?); auto).
  destruct (execute_completes setrlimit_ok run posix resource_available cache environ cwd home
              {| code := ⟪"print('hello')"⟫; stdin := None; timeout_ms := 1000 |} rt m args0 _ t
              Hr eq_refl eq_refl Ht Hrun' ltac:(simpl; lia)) as [inv ->].
  destruct (Hrun inv) as (Ho & He & Hrc & _ & Hs0 & Hc0 & _). cbn [fst].
  unfold hello_assertions, response_of, collect. cbn [stdout stderr exit_code timed_out duration_ms
    resp_stdout resp_stderr resp_exit_code resp_timed_out resp_duration_ms].
  rewrite Ho, He, Hrc, !truncate_ascii_within by first [apply hello_stdout_ascii | constructor | simpl; lia].
  rewrite !bool_decide_eq_true_2 by reflexivity. unfold elapsed.
  destruct (Z.leb_spec 0 (started_at (run inv) + t + cleanup_ms (run inv))); [reflexivity | lia].
Qed.

End HelloTheorems.

Section StackTheorems.
Context `{FileSystem}.
Variable setrlimit_ok : rlimit -> Z -> bool.
Variables posix resource_available : bool.
Variable run : invocation -> child.
Variable json_loads : list Z -> option json.

(** C25: End to end, [test_numpy_pandas_matplotlib_stack] passes once the
    gate lets it run, the runtime and module resolve, the settings allow
    2000 ms and the printed line, and the guest prints one ASCII JSON
    object ([json.dumps] escapes everything else) that [json.loads]
    reads as a result with the expected shape, means and image size,
    writes nothing to stderr, exits 0 and closes its pipes in time. *)
Theorem test_stack_passes (cache : option Settings) (environ : gmap string string) (cwd home : string)
    (rt m : string) (args0 : list string) (t : Z) (body : list Z) (result : json) :
  _require_wasm_environment environ cwd home = Proceed ->
  _resolve_wasm_runtime environ cwd home = inr (rt, m, args0) ->
  (2000 <= max_exec_timeout_ms (fst (get_settings cache environ)))%Z ->
  (Z.of_nat (length body) + 3 <= max_output_bytes (fst (get_settings cache environ)))%Z ->
  Forall (fun b => 0 <= b < 0x80)%Z body ->
  (forall inv, child_stdout (run inv) = ((123%Z :: body ++ [125%Z]) ++ [10%Z])%list /\ child_stderr (run inv) = [] /\
               returncode (run inv) = 0%Z /\ close_time (holders (run inv)) = Some t /\
               popen_raises (run inv) = false) ->
  (t <= 2000)%Z ->
  json_loads (123%Z :: body ++ [125%Z])%list = Some result -> stack_result_ok result = true ->
  test_numpy_pandas_matplotlib_stack setrlimit_ok posix resource_available run json_loads cache environ cwd home
    = Passed.
Proof.
  intros Hg Hr Ht Hc Ha Hrun Hd Hj Hok. unfold test_numpy_pandas_matplotlib_stack, client_test.
  rewrite Hg, handle_stack_request.
  assert (Hrun' : forall inv, popen_raises (run inv) = false /\ close_time (holders (run inv)) = Some t)
    by (intros inv; destruct (Hrun inv) as (_ & _ & _ & ? & ?); auto).
  destruct (execute_completes setrlimit_ok run posix resource_available cache environ cwd home
              {| code := ⟪stack_code⟫; stdin := None; timeout_ms := 2000 |} rt m args0 _ t
              Hr eq_refl eq_refl Ht Hrun' Hd) as [inv ->].
  destruct (Hrun inv) as (Ho & He & Hrc & _ & _). cbn [fst].
  unfold stack_assertions, response_of, collect. cbn [stdout stderr exit_code timed_out
    resp_stdout resp_stderr resp_exit_code resp_timed_out].
  assert (Hascii : Forall (fun b => 0 <= b < 0x80)%Z ((123%Z :: body ++ [125%Z]) ++ [10%Z])%list)
    by (repeat (apply Forall_app; split) || constructor; auto; lia).
  rewrite Ho, He, Hrc, !truncate_ascii_within
    by first [exact Hascii | constructor | rewrite ?length_app; simpl; rewrite ?length_app; simpl; lia].
  rewrite py_strip_print_dict, Hj, Hok, !bool_decide_eq_true_2 by reflexivity. reflexivity.
Qed.

End StackTheorems.

#[local] Existing Instance sample_fs.

Lemma _runtime_available_sound_witness :
  _runtime_available sample_env "/srv" "/home/u" = true /\
  find_runtime sample_env "/srv" "/home/u" = Some "/usr/local/bin/wasmtime".
Proof.
  split; [reflexivity|].
  destruct (@_runtime_available_sound sample_fs sample_env "/srv" "/home/u" ltac:(vm_compute; reflexivity)) as [p Hp].
  rewrite Hp. vm_compute in Hp. symmetry. exact Hp.
Defined.

Lemma test_execute_passes_witness :
  test_execute_returns_expected_payload all_ok true true (fun _ => hello_child) None sample_env "/srv" "/home/u"
  = Passed.
Proof.
  apply (test_execute_passes all_ok true true (fun _ => hello_child) None sample_env "/srv" "/home/u"
           "/usr/local/bin/wasmtime" "/opt/py/python.wasm" [] 40);
    [reflexivity | reflexivity | vm_compute; discriminate | vm_compute; discriminate
    | intros _; repeat split; discriminate | lia].
Defined.

Lemma test_stack_passes_witness :
  test_numpy_pandas_matplotlib_stack all_ok true true (fun _ => stack_child) sample_json_loads
    None sample_env "/srv" "/home/u" = Passed.
Proof.
  apply (test_stack_passes all_ok true true (fun _ => stack_child) sample_json_loads None sample_env "/srv" "/home/u"
           "/usr/local/bin/wasmtime" "/opt/py/python.wasm" [] 900 stack_line_body stack_result);
    [reflexivity | reflexivity | vm_compute; discriminate | vm_compute; discriminate
    | apply (bool_decide_unpack _); vm_compute; reflexivity | intros _; repeat split | lia
    | vm_compute; reflexivity | vm_compute; reflexivity].
Defined.

End Tests.
